(** * Verification of the agentbridge MCP gateway core

    Shallow embedding of the pure parts of [services/agentbridge.py]
    (call-syntax parser, path normalizers, typed-value codec) and of the
    tool router of [server.py] together with the module catalog of
    [services/__init__.py]. *)

From Stdlib Require Import String Ascii List Bool ZArith QArith Qabs Lia DecimalString.
Import ListNotations.
Open Scope list_scope.
Open Scope nat_scope.
Open Scope string_scope.
Set Warnings "-register-all".

(** ** Python string primitives *)

Module PyStr.

(** [s.startswith(p)] *)
Definition startswith (p s : string) : bool := String.prefix p s.

(** [s.find(p)]: index of the first occurrence, [None] for -1. *)
Fixpoint find (p s : string) : option nat :=
  if String.prefix p s then Some 0
  else match s with
       | EmptyString => None
       | String _ s' => option_map S (find p s')
       end.

(** [p in s] *)
Definition contains (p s : string) : bool :=
  match find p s with Some _ => true | None => false end.

(** [s.rfind(c)] for a one-character needle. *)
Fixpoint rfind (c : ascii) (s : string) : option nat :=
  match s with
  | EmptyString => None
  | String a s' =>
      match rfind c s' with
      | Some i => Some (S i)
      | None => if Ascii.eqb a c then Some 0 else None
      end
  end.

(** [s[:n]] and [s[n:]] *)
Fixpoint take (n : nat) (s : string) : string :=
  match n, s with
  | O, _ => EmptyString
  | S n', String a s' => String a (take n' s')
  | S _, EmptyString => EmptyString
  end.

Fixpoint drop (n : nat) (s : string) : string :=
  match n, s with
  | O, _ => s
  | S n', String _ s' => drop n' s'
  | S _, EmptyString => EmptyString
  end.

(** [s.endswith(p)] *)
Definition endswith (p s : string) : bool :=
  (String.length p <=? String.length s)%nat
  && String.eqb (drop (String.length s - String.length p) s) p.

(** [s.split(c)] for a one-character separator (Python semantics:
    [""] splits to [[""]], adjacent separators give empty parts). *)
Fixpoint split (c : ascii) (s : string) : list string :=
  match s with
  | EmptyString => [EmptyString]
  | String a s' =>
      let rest := split c s' in
      if Ascii.eqb a c then EmptyString :: rest
      else match rest with
           | h :: t => String a h :: t
           | [] => [String a EmptyString]
           end
  end.

(** [sep.join(l)] *)
Fixpoint join (sep : string) (l : list string) : string :=
  match l with
  | [] => EmptyString
  | [x] => x
  | x :: t => x ++ sep ++ join sep t
  end.

(** [s.lower()] on ASCII letters. *)
Definition lower_char (a : ascii) : ascii :=
  let n := nat_of_ascii a in
  if andb (65 <=? n)%nat (n <=? 90)%nat then ascii_of_nat (n + 32) else a.

Fixpoint lower (s : string) : string :=
  match s with
  | EmptyString => EmptyString
  | String a s' => String (lower_char a) (lower s')
  end.

End PyStr.

(** ** [_parse_call_syntax] (agentbridge.py, lines 46-103) *)

Module CallSyntax.
Import PyStr.

(** The returned dict: [type] is the constructor, optional keys are options. *)
Inductive call_target :=
| Static (target function : string)
| Asset (target function : string) (subobject : option string)
| Actor (target function : string) (component : option string)
| Error (message : string).

Definition dcolon : string := "::".
Definition slash : ascii := "/"%char.
Definition dot : ascii := "."%char.

Definition parse_call_syntax (call : string) : call_target :=
  match find dcolon call with
  | Some i =>
      (* parts = call.split("::", 1) *)
      let target := take i call in
      let function := drop (i + 2) call in
      if startswith "/" target then
        let path_parts := split slash target in
        let last_segment := last path_parts EmptyString in
        let dot_parts := split dot last_segment in
        if (2 <? List.length dot_parts)%nat then
          let asset_name := nth 0 dot_parts EmptyString ++ "." ++ nth 1 dot_parts EmptyString in
          let subobject := join "." (skipn 2 dot_parts) in
          let asset_path := join "/" (removelast path_parts) ++ "/" ++ asset_name in
          Asset asset_path function (Some subobject)
        else Asset target function None
      else Static target function
  | None =>
      match rfind dot call with
      | Some last_dot =>
          let target_path := take last_dot call in
          let function := drop (S last_dot) call in
          match find "." target_path with
          | Some first_dot =>
              Actor (take first_dot target_path) function
                    (Some (drop (S first_dot) target_path))
          | None => Actor target_path function None
          end
      | None =>
          Error ("Invalid call syntax '" ++ call ++
                 "'. Use Class::Function for static, Actor.Function for instance, or /Asset/Path::Function for assets.")
      end
  end.

End CallSyntax.

(** ** [_normalize_asset_path] and [_normalize_blueprint_class]
    (agentbridge.py, lines 1531-1623) *)

Module PathNorm.
Import PyStr.

Definition normalize_asset_path (path : string) : string :=
  match path with
  | EmptyString => path
  | _ =>
      if negb (startswith "/" path) then path
      else match rfind "/"%char path with
           | None => path
           | Some last_slash =>
               let final_part := drop (S last_slash) path in
               if contains "." final_part then path
               else path ++ "." ++ final_part
           end
  end.

Definition normalize_blueprint_class (class_name : string) : string :=
  match class_name with
  | EmptyString => class_name
  | _ =>
      if endswith "_C" class_name then class_name
      else
        let is_blueprint_path :=
          contains "/Game/" class_name || contains "/Script/" class_name
          || (startswith "/" class_name && contains "." class_name) in
        let is_short_bp_name :=
          startswith "BP_" class_name && negb (contains "/" class_name) in
        if is_blueprint_path then class_name ++ "_C"
        else if is_short_bp_name then class_name ++ "_C"
        else class_name
  end.

End PathNorm.

(** ** Python values and exceptions *)

Module Py.

(** Values that reach the codec: decoded JSON plus an arbitrary other
    object (only its [str()] is observable).  Floats are finite and
    represented exactly as rationals.  A dict is an association list with
    the order of insertion; Python dicts have unique keys. *)
Inductive pyval :=
| VNone
| VBool (b : bool)
| VInt (z : Z)
| VFloat (q : Q)
| VStr (s : string)
| VDict (kvs : list (string * pyval))
| VList (xs : list pyval)
| VObj (repr : string).

(** A raised exception; [is_Exception] tells whether its class derives
    from [Exception] (it is [false] for [KeyboardInterrupt] and
    [SystemExit], which derive from [BaseException] only). *)
Record exc := mkExc { exc_class : string; is_Exception : bool; exc_msg : string }.

Definition TypeError (m : string) := mkExc "TypeError" true m.
Definition ValueError (m : string) := mkExc "ValueError" true m.
Definition AttributeError (m : string) := mkExc "AttributeError" true m.

Inductive result (A : Type) := Ok (a : A) | Raise (e : exc).
Arguments Ok {A} a.
Arguments Raise {A} e.

Definition bind {A B} (m : result A) (k : A -> result B) : result B :=
  match m with Ok a => k a | Raise e => Raise e end.

Notation "x <- m ;; k" := (bind m (fun x => k)) (at level 61, m at next level, right associativity).

(** [key in d] *)
Fixpoint has_key (k : string) (d : list (string * pyval)) : bool :=
  match d with
  | [] => false
  | (k', _) :: t => String.eqb k k' || has_key k t
  end.

(** [d.get(k)] *)
Fixpoint lookup (k : string) (d : list (string * pyval)) : option pyval :=
  match d with
  | [] => None
  | (k', v) :: t => if String.eqb k k' then Some v else lookup k t
  end.

(** [d.get(k, default)] *)
Definition get (d : list (string * pyval)) (k : string) (default : pyval) : pyval :=
  match lookup k d with Some v => v | None => default end.

(** [d[k] = v]: overwrite in place, or append a new key. *)
Fixpoint dict_set (k : string) (v : pyval) (d : list (string * pyval)) : list (string * pyval) :=
  match d with
  | [] => [(k, v)]
  | (k', v') :: t => if String.eqb k k' then (k', v) :: t else (k', v') :: dict_set k v t
  end.

Section Float.
(** [float(s)] on a string: Python's float parser, left abstract. *)
Variable float_of_string : string -> option Q.

(** [float(v)].  On an int it is exact up to magnitude 2^53; a larger
    int may be rounded to the nearest double (or raise [OverflowError]),
    which this model leaves out. *)
Definition py_float (v : pyval) : result Q :=
  match v with
  | VBool b => Ok (if b then 1 else 0)%Q
  | VInt z => Ok (inject_Z z)
  | VFloat q => Ok q
  | VStr s =>
      match float_of_string s with
      | Some q => Ok q
      | None => Raise (ValueError "could not convert string to float")
      end
  | _ => Raise (TypeError "float() argument must be a string or a real number")
  end.
End Float.

(** The numeric view used by Python's [==] across bool, int and float. *)
Definition py_num (v : pyval) : option Q :=
  match v with
  | VBool b => Some (if b then 1 else 0)%Q
  | VInt z => Some (inject_Z z)
  | VFloat q => Some q
  | _ => None
  end.

(** Python [==] on these values: numbers compare by value, dicts ignore
    insertion order, other objects are compared by identity (never equal
    here). *)
Fixpoint py_eq (u v : pyval) {struct u} : bool :=
  match py_num u, py_num v with
  | Some a, Some b => Qeq_bool a b
  | _, _ =>
      match u, v with
      | VNone, VNone => true
      | VStr a, VStr b => String.eqb a b
      | VDict d1, VDict d2 =>
          Nat.eqb (List.length d1) (List.length d2)
          && (fix go (d : list (string * pyval)) : bool :=
                match d with
                | [] => true
                | (k, x) :: t =>
                    match lookup k d2 with
                    | Some y => py_eq x y
                    | None => false
                    end && go t
                end) d1
      | VList l1, VList l2 =>
          (fix go (a b : list pyval) : bool :=
             match a, b with
             | [], [] => true
             | x :: a', y :: b' => py_eq x y && go a' b'
             | _, _ => false
             end) l1 l2
      | _, _ => false
      end
  end.

End Py.

(** ** The protobuf messages (AgentBridge_pb2 / Geometry_pb2)

    The generated modules are not part of the repository; the field names
    are those the repository's code uses to build the messages:
    [Geometry_pb2.Rotation(r=..., p=..., y=...)] (client.py line 480,
    agentbridge.py line 730, tests/test_grpc.py line 110),
    [Vector] with [x], [y], [z], a color with [r], [g], [b], [a]. *)

Module Proto.

Record Vector := mkVector { vec_x : Q; vec_y : Q; vec_z : Q }.
(** Fields [r] (roll), [p] (pitch), [y] (yaw); there is no field named
    [pitch], [yaw] or [roll]. *)
Record Rotation := mkRotation { rot_r : Q; rot_p : Q; rot_y : Q }.
Record Transform := mkTransform { location : Vector; rotation : Rotation; scale : Vector }.
Record Color := mkColor { col_r : Q; col_g : Q; col_b : Q; col_a : Q }.

(** [PropertyValue]: the [type] discriminant and one field per payload. *)
Inductive PropertyValue := mkPV {
  pv_type : Z;
  bool_value : bool;
  int_value : Z;
  float_value : Q;
  string_value : string;
  vector_value : Vector;
  rotation_value : Rotation;
  transform_value : Transform;
  color_value : Color;
  object_path : string;
  struct_values : list (string * PropertyValue);
  array_values : list PropertyValue;
  enum_name : string;
  enum_value : Z }.

Definition vec0 := mkVector 0 0 0.
Definition rot0 := mkRotation 0 0 0.

(** A freshly added message: every field at its default. *)
Definition pv0 : PropertyValue :=
  mkPV 0 false 0 0 "" vec0 rot0 (mkTransform vec0 rot0 vec0) (mkColor 0 0 0 0) "" [] [] "" 0.

Definition with_type (t : Z) (pv : PropertyValue) :=
  match pv with mkPV _ b i f s v r tr c o sv av en ev => mkPV t b i f s v r tr c o sv av en ev end.
Definition with_bool (b : bool) (pv : PropertyValue) :=
  match pv with mkPV t _ i f s v r tr c o sv av en ev => mkPV t b i f s v r tr c o sv av en ev end.
Definition with_int (i : Z) (pv : PropertyValue) :=
  match pv with mkPV t b _ f s v r tr c o sv av en ev => mkPV t b i f s v r tr c o sv av en ev end.
Definition with_float (f : Q) (pv : PropertyValue) :=
  match pv with mkPV t b i _ s v r tr c o sv av en ev => mkPV t b i f s v r tr c o sv av en ev end.
Definition with_string (s : string) (pv : PropertyValue) :=
  match pv with mkPV t b i f _ v r tr c o sv av en ev => mkPV t b i f s v r tr c o sv av en ev end.
Definition with_vector (v : Vector) (pv : PropertyValue) :=
  match pv with mkPV t b i f s _ r tr c o sv av en ev => mkPV t b i f s v r tr c o sv av en ev end.
Definition with_color (c : Color) (pv : PropertyValue) :=
  match pv with mkPV t b i f s v r tr _ o sv av en ev => mkPV t b i f s v r tr c o sv av en ev end.
Definition with_struct (sv : list (string * PropertyValue)) (pv : PropertyValue) :=
  match pv with mkPV t b i f s v r tr c o _ av en ev => mkPV t b i f s v r tr c o sv av en ev end.
Definition with_array (av : list PropertyValue) (pv : PropertyValue) :=
  match pv with mkPV t b i f s v r tr c o sv _ en ev => mkPV t b i f s v r tr c o sv av en ev end.

(** The range check of a protobuf [int64] field, one instance of the
    range check the codec takes as a parameter. *)
Definition int64_fits (i : Z) : bool := ((- 2 ^ 63 <=? i) && (i <? 2 ^ 63))%Z.

End Proto.

(** ** The typed-value codec (agentbridge.py) *)

Module Codec.
Import Py Proto.

Section Codec.
Variable float_of_string : string -> option Q.
(** Whether [pv.int_value = value] accepts the int: the protobuf runtime
    checks the range of the integer field (its width is fixed by
    AgentBridge.proto, which is not part of this repository) and raises
    [ValueError] on an int outside it. *)
Variable int_value_fits : Z -> bool.

(** [value[k]] *)
Definition getitem (d : list (string * pyval)) (k : string) : result pyval :=
  match lookup k d with Some v => Ok v | None => Raise (mkExc "KeyError" true k) end.

(** [_set_property_value(pv, value)] (lines 1717-1766) on the freshly added
    message [pv] that every caller passes (lines 857, 882, 943, 1757, 1762). *)
Fixpoint set_property_value (value : pyval) : result PropertyValue :=
  match value with
  | VNone => Ok (with_type 0 pv0)
  | VBool b => Ok (with_bool b (with_type 1 pv0))
  | VInt i =>
      if int_value_fits i then Ok (with_int i (with_type 2 pv0))
      else Raise (ValueError "Value out of range")
  (* [float_value] holds the (finite) float unchanged *)
  | VFloat f => Ok (with_float f (with_type 3 pv0))
  | VStr s => Ok (with_string s (with_type 4 pv0))
  | VDict d =>
      if has_key "x" d && has_key "y" d && has_key "z" d && Nat.eqb (List.length d) 3 then
        x <- bind (getitem d "x") (py_float float_of_string);;
        y <- bind (getitem d "y") (py_float float_of_string);;
        z <- bind (getitem d "z") (py_float float_of_string);;
        Ok (with_vector (mkVector x y z) (with_type 6 pv0))
      else if has_key "pitch" d && has_key "yaw" d && has_key "roll" d then
        (* pv.rotation_value.pitch = float(value['pitch']): the right-hand
           side is evaluated, then the assignment to the missing field fails *)
        _ <- bind (getitem d "pitch") (py_float float_of_string);;
        Raise (AttributeError "Assignment not allowed (no field pitch in protocol message object).")
      else if has_key "r" d && has_key "g" d && has_key "b" d then
        r <- py_float float_of_string (get d "r" (VInt 0));;
        g <- py_float float_of_string (get d "g" (VInt 0));;
        b <- py_float float_of_string (get d "b" (VInt 0));;
        a <- py_float float_of_string (get d "a" (VFloat 1));;
        Ok (with_color (mkColor r g b a) (with_type 9 pv0))
      else
        sv <- (fix go (d : list (string * pyval)) : result (list (string * PropertyValue)) :=
                 match d with
                 | [] => Ok []
                 | (k, v) :: t => sub <- set_property_value v;; rest <- go t;; Ok ((k, sub) :: rest)
                 end) d;;
        Ok (with_struct sv (with_type 12 pv0))
  | VList xs =>
      av <- (fix go (xs : list pyval) : result (list PropertyValue) :=
               match xs with
               | [] => Ok []
               | v :: t => sub <- set_property_value v;; rest <- go t;; Ok (sub :: rest)
               end) xs;;
      Ok (with_array av (with_type 13 pv0))
  | VObj repr => Ok (with_string repr (with_type 4 pv0))
  end.

End Codec.

Definition z_repr (z : Z) : string := DecimalString.NilZero.string_of_int (Z.to_int z).

Definition vec_dict (v : Vector) : pyval :=
  VDict [("x", VFloat (vec_x v)); ("y", VFloat (vec_y v)); ("z", VFloat (vec_z v))].
Definition vec_list (v : Vector) : pyval :=
  VList [VFloat (vec_x v); VFloat (vec_y v); VFloat (vec_z v)].
Definition color_dict (c : Color) : pyval :=
  VDict [("r", VFloat (col_r c)); ("g", VFloat (col_g c)); ("b", VFloat (col_b c)); ("a", VFloat (col_a c))].

(** [_property_value_to_dict(pv)] (lines 1651-1714). *)
Fixpoint property_value_to_dict (pv : PropertyValue) : result pyval :=
  match pv with
  | mkPV t bv iv fv sv vv rv tv cv op svs avs en ev =>
      let dict_comp :=
        (fix go (l : list (string * PropertyValue)) (acc : list (string * pyval)) : result pyval :=
           match l with
           | [] => Ok (VDict acc)
           | (k, x) :: rest => w <- property_value_to_dict x;; go rest (dict_set k w acc)
           end) in
      if (t =? 0)%Z then Ok VNone
      else if (t =? 1)%Z then Ok (VBool bv)
      else if (t =? 2)%Z then Ok (VInt iv)
      else if (t =? 3)%Z then Ok (VFloat fv)
      else if (t =? 4)%Z || (t =? 5)%Z then Ok (VStr sv)
      else if (t =? 6)%Z then Ok (vec_dict vv)
      else if (t =? 7)%Z then
        (* r.pitch on a Rotation message, whose fields are r, p, y *)
        Raise (AttributeError "pitch")
      else if (t =? 8)%Z then
        Ok (VDict [("location", vec_list (location tv));
                   ("rotation", VList [VFloat (rot_p (rotation tv)); VFloat (rot_y (rotation tv));
                                       VFloat (rot_r (rotation tv))]);
                   ("scale", vec_list (scale tv))])
      else if (t =? 9)%Z then Ok (color_dict cv)
      else if (t =? 10)%Z || (t =? 11)%Z then Ok (if String.eqb op "" then VNone else VStr op)
      else if (t =? 12)%Z then dict_comp svs []
      else if (t =? 13)%Z then
        ws <- (fix go (l : list PropertyValue) : result (list pyval) :=
                 match l with
                 | [] => Ok []
                 | x :: rest => w <- property_value_to_dict x;; ws <- go rest;; Ok (w :: ws)
                 end) avs;;
        Ok (VList ws)
      else if (t =? 14)%Z then dict_comp svs []
      else if (t =? 15)%Z then Ok (VDict [("name", VStr en); ("value", VInt ev)])
      else Ok (VStr ("<unknown type " ++ z_repr t ++ ">"))
  end.

(** [_extract_property_value(prop_value)] (lines 1356-1437); the color
    message has an [a] field, so [hasattr(c, 'a')] holds. *)
Fixpoint extract_property_value (pv : PropertyValue) : pyval :=
  match pv with
  | mkPV t bv iv fv sv vv rv tv cv op svs avs en ev =>
      if (t =? 0)%Z then VNone
      else if (t =? 1)%Z then VBool bv
      else if (t =? 2)%Z then VInt iv
      else if (t =? 3)%Z then VFloat fv
      else if (t =? 4)%Z || (t =? 5)%Z then VStr sv
      else if (t =? 6)%Z then vec_dict vv
      else if (t =? 7)%Z then
        VDict [("pitch", VFloat (rot_p rv)); ("yaw", VFloat (rot_y rv)); ("roll", VFloat (rot_r rv))]
      else if (t =? 8)%Z then
        VDict [("location", vec_dict (location tv));
               ("rotation", VDict [("pitch", VFloat (rot_p (rotation tv)));
                                   ("yaw", VFloat (rot_y (rotation tv)));
                                   ("roll", VFloat (rot_r (rotation tv)))]);
               ("scale", vec_dict (scale tv))]
      else if (t =? 9)%Z then color_dict cv
      else if (t =? 10)%Z || (t =? 11)%Z then VStr sv
      else if (t =? 12)%Z then
        match svs with
        | _ :: _ =>
            VDict ((fix go (l : list (string * PropertyValue)) (acc : list (string * pyval)) :=
                      match l with
                      | [] => acc
                      | (k, x) :: rest => go rest (dict_set k (extract_property_value x) acc)
                      end) svs [])
        | [] => if String.eqb sv "" then VDict [] else VStr sv
        end
      else if (t =? 13)%Z then
        match avs with
        | _ :: _ => VList (map extract_property_value avs)
        | [] => if String.eqb sv "" then VList [] else VStr sv
        end
      else VStr sv
  end.

End Codec.

(** ** [_normalize_property_value] (agentbridge.py, lines 1240-1352) *)

Module Normalize.
Import Py PyStr.

(** The returned Unreal text, by shape: [NText s] is [s] itself,
    [NRepr v] is [str(v)], [NJson v] is [json.dumps(v)], and the others are
    the f-strings ["(R=..,G=..,B=..,A=..)"], ["(X=..,Y=..,Z=..)"] and
    ["(Pitch=..,Yaw=..,Roll=..)"] of the given floats. *)
Inductive norm_out :=
| NText (s : string)
| NRepr (v : pyval)
| NJson (v : pyval)
| NColor (r g b a : Q)
| NVector (x y z : Q)
| NRotator (pitch yaw roll : Q).

(** ** [int(s, 16)] on ASCII strings *)

Definition is_space (c : ascii) : bool :=
  let n := nat_of_ascii c in
  ((9 <=? n)%nat && (n <=? 13)%nat) || ((28 <=? n)%nat && (n <=? 32)%nat).

Definition hex_digit (c : ascii) : option Z :=
  let n := nat_of_ascii c in
  if (48 <=? n)%nat && (n <=? 57)%nat then Some (Z.of_nat (n - 48))
  else if (97 <=? n)%nat && (n <=? 102)%nat then Some (Z.of_nat (n - 87))
  else if (65 <=? n)%nat && (n <=? 70)%nat then Some (Z.of_nat (n - 55))
  else None.

Fixpoint lstrip (s : string) : string :=
  match s with
  | String c t => if is_space c then lstrip t else s
  | EmptyString => s
  end.

Fixpoint rev_str (s : string) (acc : string) : string :=
  match s with
  | EmptyString => acc
  | String c t => rev_str t (String c acc)
  end.

Definition strip (s : string) : string := rev_str (lstrip (rev_str (lstrip s) "")) "".

(** Digits with single underscores between them; [after_digit] says the
    previous character was a digit. *)
Fixpoint digits16 (s : string) (acc : Z) (after_digit : bool) : option Z :=
  match s with
  | EmptyString => if after_digit then Some acc else None
  | String c t =>
      if Ascii.eqb c "_" then (if after_digit then digits16 t acc false else None)
      else match hex_digit c with
           | Some d => digits16 t (16 * acc + d)%Z true
           | None => None
           end
  end.

Definition unsigned16 (s : string) : option Z :=
  if startswith "0x" s || startswith "0X" s then
    match drop 2 s with
    | EmptyString => None
    | r => digits16 r 0 true
    end
  else digits16 s 0 false.

(** [int(s, 16)], [None] standing for [ValueError]. *)
Definition int16 (s : string) : option Z :=
  match strip s with
  | String "+" t => unsigned16 t
  | String "-" t => option_map Z.opp (unsigned16 t)
  | s' => unsigned16 s'
  end.

Definition obind {A B} (m : option A) (k : A -> option B) : option B :=
  match m with Some a => k a | None => None end.

Definition chan (n : Z) : Q := (inject_Z n / inject_Z 255)%Q.

(** The body of the [try] block on [hex_str = value[1:]]. *)
Definition hex_color (hex_str : string) : option norm_out :=
  obind (int16 (take 2 hex_str)) (fun r =>
  obind (int16 (take 2 (drop 2 hex_str))) (fun g =>
  obind (int16 (take 2 (drop 4 hex_str))) (fun b =>
  obind (if Nat.eqb (String.length hex_str) 8
         then option_map chan (int16 (take 2 (drop 6 hex_str))) else Some 1%Q) (fun a =>
  Some (NColor (chan r) (chan g) (chan b) a))))).

(** [json.dumps(value)] fails on objects that are not JSON data. *)
Fixpoint json_ok (v : pyval) : bool :=
  match v with
  | VDict d => forallb (fun kv => json_ok (snd kv)) d
  | VList xs => forallb json_ok xs
  | VObj _ => false
  | _ => true
  end.

Definition json_dumps (v : pyval) : result norm_out :=
  if json_ok v then Ok (NJson v)
  else Raise (TypeError "Object is not JSON serializable").

Section Normalize.
Variable float_of_string : string -> option Q.

Fixpoint floats (xs : list pyval) : result (list Q) :=
  match xs with
  | [] => Ok []
  | x :: t => q <- py_float float_of_string x;; qs <- floats t;; Ok (q :: qs)
  end.

Definition normalize_property_value (value : pyval) (property_hint : string) : result norm_out :=
  let hint_lower := lower property_hint in
  let is_color_hint := contains "color" hint_lower in
  let is_rotation_hint := contains "rotation" hint_lower || contains "rotator" hint_lower in
  match value with
  | VStr s =>
      if startswith "#" s
         && (Nat.eqb (String.length s) 7 || Nat.eqb (String.length s) 9) then
        match hex_color (drop 1 s) with
        | Some o => Ok o
        | None => Ok (NText s)   (* except ValueError: pass *)
        end
      else Ok (NText s)
  | VBool b => Ok (NText (if b then "true" else "false"))
  | VInt _ | VFloat _ => Ok (NRepr value)
  | VDict d =>
      if has_key "r" d && has_key "g" d && has_key "b" d then
        r <- py_float float_of_string (get d "r" (VInt 0));;
        g <- py_float float_of_string (get d "g" (VInt 0));;
        b <- py_float float_of_string (get d "b" (VInt 0));;
        a <- py_float float_of_string (get d "a" (VFloat 1));;
        Ok (NColor r g b a)
      else if has_key "x" d && has_key "y" d && has_key "z" d then
        x <- py_float float_of_string (get d "x" (VInt 0));;
        y <- py_float float_of_string (get d "y" (VInt 0));;
        z <- py_float float_of_string (get d "z" (VInt 0));;
        Ok (NVector x y z)
      else if has_key "pitch" d || has_key "yaw" d || has_key "roll" d then
        p <- py_float float_of_string (get d "pitch" (VInt 0));;
        y <- py_float float_of_string (get d "yaw" (VInt 0));;
        r <- py_float float_of_string (get d "roll" (VInt 0));;
        Ok (NRotator p y r)
      else json_dumps value
  | VList xs =>
      if Nat.eqb (List.length xs) 3 then
        v <- floats xs;;
        match v with
        | [v0; v1; v2] =>
            if is_color_hint then Ok (NColor v0 v1 v2 1)
            else if is_rotation_hint then Ok (NRotator v0 v1 v2)
            else Ok (NVector v0 v1 v2)
        | _ => Raise (ValueError "unreachable")
        end
      else if Nat.eqb (List.length xs) 4 then
        v <- floats xs;;
        match v with
        | [v0; v1; v2; v3] => Ok (NColor v0 v1 v2 v3)
        | _ => Raise (ValueError "unreachable")
        end
      else json_dumps value
  | VNone | VObj _ => Ok (NRepr value)
  end.

End Normalize.
End Normalize.

(** ** The tool router ([server.py], [services/__init__.py]) *)

Module Router.
Import Py.

(** Python dicts keyed by strings, in insertion order. *)
Fixpoint aget {A} (k : string) (l : list (string * A)) : option A :=
  match l with
  | [] => None
  | (k', v) :: t => if String.eqb k k' then Some v else aget k t
  end.

Fixpoint aset {A} (k : string) (v : A) (l : list (string * A)) : list (string * A) :=
  match l with
  | [] => [(k, v)]
  | (k', v') :: t => if String.eqb k k' then (k', v) :: t else (k', v') :: aset k v t
  end.

Definition mem (x : string) (l : list string) : bool := existsb (String.eqb x) l.

Definition dq : string := String (ascii_of_nat 34) "".

(** A [tools/call] result body: [content[0].text] and [isError]. *)
Inductive payload :=
| PText (text : string)                (* the string returned by execute *)
| PJsonError (error : string)          (* json.dumps({"error": error}) *)
| PLoadResult (loaded_modules new_tools : list string) (total_modules total_tools : nat).

Record tool_result := mkToolResult { content : payload; isError : bool }.

Record load_result := mkLoadResult {
  loaded_modules : list string; new_tools : list string;
  total_modules : nat; total_tools : nat }.

Section Router.
Variables Client Args : Type.
(** [MODULES]: module name -> its tool names. *)
Variable MODULES : list (string * list string).
(** [_registry]: service name -> names of its tool descriptors. *)
Variable registry : list (string * list string).
Variable host : string.
Variable port : Z.
(** [service.connect(host, port)] and [service.execute(client, name, args)]. *)
Variable connect : string -> string -> Z -> result Client.
Variable execute : string -> Client -> string -> Args -> result string.
(** [arguments.get("modules", [])], read as the names the loop of
    [_handle_load_modules] iterates over.  Requests on which that loop
    raises [TypeError] are outside this model: a value that is not
    iterable, or an unhashable entry such as a list, on which the source
    raises after appending the names before it to [enabled_modules]. *)
Variable modules_arg : Args -> list string.

Record state := mkState {
  enabled_modules : list string;
  services : list (string * list string);
  clients : list (string * Client);
  tool_to_service : list (string * string) }.

Definition get_enabled_tools (modules : list string) : list string :=
  concat (map (fun m => match aget m MODULES with Some ts => ts | None => [] end) modules).

Definition get_filtered_services (enabled : list string) : list (string * list string) :=
  let enabled_tools := get_enabled_tools enabled in
  fold_left (fun acc '(name, tools) =>
               match filter (fun t => mem t enabled_tools) tools with
               | [] => acc
               | ts => aset name ts acc
               end) registry [].

Definition build_index (svcs : list (string * list string)) : list (string * string) :=
  fold_left (fun idx '(sname, tools) =>
               fold_left (fun idx t => aset t sname idx) tools idx) svcs [].

(** [MCPServer.__init__] with an explicit module list. *)
Definition init (modules : list string) : state :=
  let enabled := if mem "core" modules then modules else "core" :: modules in
  let svcs := get_filtered_services enabled in
  mkState enabled svcs [] (build_index svcs).

(** [_get_client]: only exceptions deriving from [Exception] are caught. *)
Definition get_client (st : state) (sname : string) : result (option Client * state) :=
  match aget sname (clients st) with
  | Some c => Ok (Some c, st)
  | None =>
      match aget sname (services st) with
      | None => Ok (None, st)
      | Some _ =>
          match connect sname host port with
          | Ok c => Ok (Some c, mkState (enabled_modules st) (services st)
                                         (aset sname c (clients st)) (tool_to_service st))
          | Raise e => if is_Exception e then Ok (None, st) else Raise e
          end
      end
  end.

(** [_handle_load_modules] *)
Definition handle_load_modules (st : state) (requested : list string) : load_result * state :=
  let already_enabled := enabled_modules st in
  let '(enabled, newly_loaded, new_tools) :=
    fold_left (fun '(en, nl, nt) m =>
                 if mem m already_enabled then (en, nl, nt)
                 else match aget m MODULES with
                      | None => (en, nl, nt)
                      | Some ts => (en ++ [m], nl ++ [m], nt ++ ts)
                      end)%list
              requested (enabled_modules st, [], []) in
  let st' :=
    match newly_loaded with
    | [] => mkState enabled (services st) (clients st) (tool_to_service st)
    | _ => let svcs := get_filtered_services enabled in
           mkState enabled svcs (clients st) (build_index svcs)
    end in
  (mkLoadResult newly_loaded new_tools (List.length enabled)
                (List.length (tool_to_service st') + 1), st').

(** The first module of [MODULES] listing the tool. *)
Definition module_for_tool (tool : string) : option string :=
  option_map fst (find (fun '(_, ts) => mem tool ts) MODULES).

Definition not_loaded_message (tool m : string) : string :=
  "Tool '" ++ tool ++ "' is not loaded. Load module '" ++ m ++
  "' first: load_modules(modules=[" ++ dq ++ m ++ dq ++ "])".

(** [_handle_tools_call] *)
Definition handle_tools_call (st : state) (tool_name : string) (arguments : Args)
  : result (tool_result * state) :=
  if String.eqb tool_name "load_modules" then
    let '(r, st') := handle_load_modules st (modules_arg arguments) in
    Ok (mkToolResult (PLoadResult (loaded_modules r) (new_tools r) (total_modules r) (total_tools r))
                     false, st')
  else
    match aget tool_name (tool_to_service st) with
    | None | Some EmptyString =>
        if mem tool_name (concat (map snd MODULES)) then
          let m := match module_for_tool tool_name with Some m => m | None => "None" end in
          Ok (mkToolResult (PJsonError (not_loaded_message tool_name m)) true, st)
        else Ok (mkToolResult (PJsonError ("Unknown tool: " ++ tool_name)) true, st)
    | Some service_name =>
        r <- get_client st service_name;;
        let '(client, st1) := r in
        match client with
        | None =>
            Ok (mkToolResult (PJsonError ("Not connected to " ++ service_name ++ " at " ++ host ++
                   ":" ++ Codec.z_repr port ++
                   ". Make sure Unreal Editor is running with the appropriate plugin.")) true, st1)
        | Some c =>
            let outcome :=
              match aget service_name (services st1) with
              | None => Raise (mkExc "KeyError" true service_name)
              | Some _ => execute service_name c tool_name arguments
              end in
            match outcome with
            | Ok text => Ok (mkToolResult (PText text) false, st1)
            | Raise e =>
                if is_Exception e then Ok (mkToolResult (PJsonError (exc_msg e)) true, st1)
                else Raise e
            end
        end
    end.

(** Incoming lines of the stdio loop. *)
Inductive message :=
| Malformed                               (* json.JSONDecodeError *)
| ToolsCall (id : Z) (name : string) (args : Args)
| OtherMethod (id : Z) (method : string).   (* tools/list, ping, shutdown, initialized, unknown *)

Inductive response :=
| CallResponse (id : Z) (r : tool_result)
| MethodResponse (id : Z) (method : string).

Inductive stop := EOF | Interrupted | Crashed (e : exc).

(** [MCPServer.run]: per message, [except KeyboardInterrupt: break] and
    [except Exception: log]; any other exception leaves the loop. *)
Fixpoint run (st : state) (input : list message) : list response * stop :=
  match input with
  | [] => ([], EOF)
  | Malformed :: rest => run st rest
  | OtherMethod id meth :: rest =>
      let '(out, s) := run st rest in
      if String.eqb meth "initialized" then (out, s) else (MethodResponse id meth :: out, s)
  | ToolsCall id name args :: rest =>
      match handle_tools_call st name args with
      | Ok (r, st') => let '(out, s) := run st' rest in (CallResponse id r :: out, s)
      | Raise e =>
          if String.eqb (exc_class e) "KeyboardInterrupt" then ([], Interrupted)
          else if is_Exception e then run st rest
          else ([], Crashed e)
      end
  end.

End Router.

Arguments enabled_modules {Client} _.
Arguments services {Client} _.
Arguments clients {Client} _.
Arguments tool_to_service {Client} _.
Arguments Malformed {Args}.
Arguments ToolsCall {Args} _ _ _.
Arguments OtherMethod {Args} _ _.

(** The catalog [MODULES] of [services/__init__.py]. *)
Definition MODULES : list (string * list string) := [
  ("core", ["help"; "list_worlds"; "set_target_world"; "quit";
            "execute_console_command"; "search_console_commands"]);
  ("classes", ["query_actors"; "get_actor"; "spawn_actor"; "delete_actor"; "duplicate_actor";
               "get_property"; "set_property"; "set_transform"; "get_transform";
               "attach"; "detach"; "add_component"; "call_function";
               "list_classes"; "get_class_schema";
               "create_asset"; "save_asset"; "duplicate_asset"; "save_actor_as_blueprint"]);
  ("editor", ["play_in_editor"; "simulate"; "stop";
              "save_level"; "open_level"; "new_level"; "get_current_level"]);
  ("world_partition", ["is_world_partitioned"; "query_all_actors"; "get_streaming_state";
                       "query_landscape"; "get_landscape_bounds";
                       "get_data_layers"; "get_actors_in_data_layer"]);
  ("files", ["read_project_file"; "write_project_file";
             "list_project_directory"; "copy_project_file"]);
  ("bp_toolkit", ["bp_create_node"; "bp_connect_pins"; "bp_disconnect_pins";
                  "bp_delete_node"; "bp_list_nodes"; "bp_list_pins";
                  "pcg_add_node"; "pcg_connect"; "pcg_disconnect";
                  "pcg_delete_node"; "pcg_list_nodes"; "pcg_get_input_output_nodes";
                  "bp_export_asset"; "bp_import_asset"; "bp_detect_type"; "bp_get_info";
                  "bp_list_properties"; "bp_get_property"; "bp_set_property";
                  "bp_clone_asset"; "bp_list_graphs"; "bp_add_comment";
                  "bp_clone_node"; "bp_find"; "bp_query"; "bp_parse"]);
  ("tempo_sim", ["tempo_play"; "tempo_pause"; "tempo_step";
                 "tempo_advance_steps"; "tempo_set_time_mode"; "tempo_set_sim_rate";
                 "tempo_set_control_mode";
                 "tempo_load_level"; "tempo_finish_loading_level";
                 "tempo_set_viewport_render";
                 "tempo_set_date"; "tempo_set_time_of_day";
                 "tempo_set_day_cycle_rate"; "tempo_get_datetime";
                 "tempo_set_geographic_reference";
                 "tempo_get_actor_state"; "tempo_get_actors_near";
                 "tempo_get_commandable_vehicles"; "tempo_command_vehicle";
                 "tempo_get_commandable_pawns"; "tempo_pawn_move_to";
                 "tempo_rebuild_navigation"; "tempo_run_zone_graph_builder";
                 "tempo_get_available_sensors"; "tempo_get_label_map";
                 "tempo_get_lanes"; "tempo_get_lane_accessibility"; "tempo_get_zones"])].

End Router.

(** ** The loops of the codec, as named functions *)

Module CodecLoops.
Import Py Proto Codec.

(** [for k, v in value.items(): ... _set_property_value(kv.value, v)] *)
Fixpoint set_fields (fos : string -> option Q) (fits : Z -> bool) (d : list (string * pyval))
  : result (list (string * PropertyValue)) :=
  match d with
  | [] => Ok []
  | (k, v) :: t =>
      sub <- set_property_value fos fits v;; rest <- set_fields fos fits t;; Ok ((k, sub) :: rest)
  end.

(** [for item in value: ... _set_property_value(item_pv, item)] *)
Fixpoint set_items (fos : string -> option Q) (fits : Z -> bool) (xs : list pyval)
  : result (list PropertyValue) :=
  match xs with
  | [] => Ok []
  | v :: t => sub <- set_property_value fos fits v;; rest <- set_items fos fits t;; Ok (sub :: rest)
  end.

(** [{kv.key: _property_value_to_dict(kv.value) for kv in ...}] *)
Fixpoint decode_fields (l : list (string * PropertyValue)) (acc : list (string * pyval))
  : result pyval :=
  match l with
  | [] => Ok (VDict acc)
  | (k, x) :: rest => w <- property_value_to_dict x;; decode_fields rest (dict_set k w acc)
  end.

(** [[_property_value_to_dict(v) for v in pv.array_values]] *)
Fixpoint decode_items (l : list PropertyValue) : result (list pyval) :=
  match l with
  | [] => Ok []
  | x :: rest => w <- property_value_to_dict x;; ws <- decode_items rest;; Ok (w :: ws)
  end.

End CodecLoops.

(** ** Induction on values, through the lists of dicts and sequences *)

Module PyInd.
Import Py.

Section PyInd.
Variable P : pyval -> Prop.
Hypothesis HNone : P VNone.
Hypothesis HBool : forall b, P (VBool b).
Hypothesis HInt : forall z, P (VInt z).
Hypothesis HFloat : forall q, P (VFloat q).
Hypothesis HStr : forall s, P (VStr s).
Hypothesis HDict : forall d, Forall (fun kv => P (snd kv)) d -> P (VDict d).
Hypothesis HList : forall xs, Forall P xs -> P (VList xs).
Hypothesis HObj : forall s, P (VObj s).

Fixpoint pyval_ind' (v : pyval) : P v :=
  match v with
  | VNone => HNone
  | VBool b => HBool b
  | VInt z => HInt z
  | VFloat q => HFloat q
  | VStr s => HStr s
  | VDict d =>
      HDict d ((fix go (d : list (string * pyval)) : Forall (fun kv => P (snd kv)) d :=
                  match d with
                  | [] => Forall_nil _
                  | kv :: t => Forall_cons kv (pyval_ind' (snd kv)) (go t)
                  end) d)
  | VList xs =>
      HList xs ((fix go (xs : list pyval) : Forall P xs :=
                   match xs with
                   | [] => Forall_nil _
                   | x :: t => Forall_cons x (pyval_ind' x) (go t)
                   end) xs)
  | VObj s => HObj s
  end.
End PyInd.
End PyInd.

(** ** The loop of [_extract_property_value] on struct fields, named *)

Module ExtractLoops.
Import Py Proto Codec.

(** [{kv.key: _extract_property_value(kv.value) for kv in ...}] *)
Fixpoint extract_fields (l : list (string * PropertyValue)) (acc : list (string * pyval))
  : list (string * pyval) :=
  match l with
  | [] => acc
  | (k, x) :: rest => extract_fields rest (dict_set k (extract_property_value x) acc)
  end.

End ExtractLoops.

(** ** Induction on TypedValues, through struct fields and array elements *)

Module PVInd.
Import Proto.

Section PVInd.
Variable P : PropertyValue -> Prop.
Hypothesis HPV : forall pv, Forall (fun kv => P (snd kv)) (struct_values pv) ->
                            Forall P (array_values pv) -> P pv.

Fixpoint pv_ind' (pv : PropertyValue) : P pv :=
  match pv with
  | mkPV t bv iv fv sv vv rv tv cv op svs avs en ev =>
      HPV (mkPV t bv iv fv sv vv rv tv cv op svs avs en ev)
        ((fix go (l : list (string * PropertyValue)) : Forall (fun kv => P (snd kv)) l :=
            match l with
            | [] => Forall_nil _
            | kv :: t => Forall_cons kv (pv_ind' (snd kv)) (go t)
            end) svs)
        ((fix go (l : list PropertyValue) : Forall P l :=
            match l with
            | [] => Forall_nil _
            | x :: t => Forall_cons x (pv_ind' x) (go t)
            end) avs)
  end.
End PVInd.
End PVInd.

(** ** Request dispatch and start-up of [MCPServer] ([server.py]) *)

Module Server.
Import Py Router.

(** The [result] bodies built by the handlers: the [initialize] answer
    [{"protocolVersion": .., "capabilities": {"tools": {}},
      "serverInfo": {"name": .., "version": ..}}], the [tools/list] answer
    [{"tools": _get_all_tools()}] (tools by name), a [tools/call] answer,
    and [{}]. *)
Inductive reply_body :=
| RInitialize (protocolVersion server_name server_version : string)
| RToolsList (tools : list string)
| RToolsCall (r : tool_result)
| REmpty.

(** [_make_response(msg_id, result)] and [_make_error(msg_id, code, message)]. *)
Inductive rpc (Id : Type) :=
| RpcResult (id : Id) (result : reply_body)
| RpcError (id : Id) (code : Z) (message : string).
Arguments RpcResult {Id} _ _.
Arguments RpcError {Id} _ _ _.

(** [PROFILES] of [services/__init__.py]; ["full"] is [list(MODULES.keys())]. *)
Definition PROFILES : list (string * list string) := [
  ("core", ["core"]);
  ("standard", ["core"; "classes"; "editor"; "files"]);
  ("editor", ["core"; "classes"; "editor"; "world_partition"; "files"]);
  ("scripting", ["core"; "classes"; "editor"; "files"; "bp_toolkit"]);
  ("simulation", ["core"; "classes"; "tempo_sim"]);
  ("full", map fst Router.MODULES)].

(** [get_profile_modules(profile)], i.e.
    [PROFILES.get(profile, PROFILES[DEFAULT_PROFILE])]: the default
    argument [PROFILES[DEFAULT_PROFILE]] is evaluated before the lookup. *)
Definition get_profile_modules (profiles : list (string * list string))
    (DEFAULT_PROFILE profile : string) : result (list string) :=
  default <- match aget DEFAULT_PROFILE profiles with
             | Some l => Ok l
             | None => Raise (mkExc "KeyError" true DEFAULT_PROFILE)
             end;;
  Ok (match aget profile profiles with Some l => l | None => default end).

Section Server.
Variables Client Args Params Id : Type.
Variable MODULES : list (string * list string).
Variable registry : list (string * list string).
Variable host : string.
Variable port : Z.
Variable connect : string -> string -> Z -> result Client.
Variable execute : string -> Client -> string -> Args -> result string.
Variable modules_arg : Args -> list string.
(** [params.get("name", "")] and [params.get("arguments", {})]. *)
Variable params_name : Params -> string.
Variable params_arguments : Params -> Args.

(** [MCPServer.__init__(host, port, profile, modules)]; [env] is
    [os.environ.get("AGENTBRIDGE_PROFILE")] and [profiles] the current
    contents of [PROFILES]. *)
Definition server_init (profiles : list (string * list string)) (DEFAULT_PROFILE : string)
    (env : option string) (profile : option string) (modules : option (list string))
  : result (state Client) :=
  enabled <- match modules with
             | Some ((_ :: _) as ms) => Ok (if mem "core" ms then ms else "core" :: ms)
             | _ =>
                 let from_env := match env with Some e => e | None => DEFAULT_PROFILE end in
                 let profile_name := match profile with
                                     | Some p => if String.eqb p "" then from_env else p
                                     | None => from_env
                                     end in
                 get_profile_modules profiles DEFAULT_PROFILE profile_name
             end;;
  let svcs := get_filtered_services MODULES registry enabled in
  Ok (mkState Client enabled svcs [] (build_index svcs)).

(** [_get_all_tools]: the tools of every service, then [load_modules]. *)
Definition get_all_tools (st : state Client) : list string :=
  (concat (map snd (services st)) ++ ["load_modules"])%list.

(** [for service_name in self.services: self._get_client(service_name)] *)
Fixpoint preconnect (st : state Client) (names : list string) : result (state Client) :=
  match names with
  | [] => Ok st
  | n :: ns => r <- get_client Client host port connect st n;; preconnect (snd r) ns
  end.

(** [handle_message]; [method] is [message.get("method", "")], [None]
    standing for a message without a method. *)
Definition handle_message (st : state Client) (method : option string) (msg_id : Id)
    (params : Params) : result (option (rpc Id) * state Client) :=
  let method := match method with Some m => m | None => "" end in
  if String.eqb method "initialize" then
    st' <- preconnect st (map fst (services st));;
    Ok (Some (RpcResult msg_id (RInitialize "2024-11-05" "agentbridge-mcp" "0.3.0")), st')
  else if String.eqb method "initialized" then Ok (None, st)
  else if String.eqb method "tools/list" then
    Ok (Some (RpcResult msg_id (RToolsList (get_all_tools st))), st)
  else if String.eqb method "tools/call" then
    r <- handle_tools_call Client Args MODULES registry host port connect execute modules_arg
           st (params_name params) (params_arguments params);;
    Ok (Some (RpcResult msg_id (RToolsCall (fst r))), snd r)
  else if String.eqb method "ping" then Ok (Some (RpcResult msg_id REmpty), st)
  else if String.eqb method "shutdown" then Ok (Some (RpcResult msg_id REmpty), st)
  else Ok (Some (RpcError msg_id (-32601)%Z ("Method not found: " ++ method)), st).

End Server.
End Server.

(** ** [_string_to_attachment_rule] and [_string_to_detachment_rule]
    (agentbridge.py, lines 1230-1247) *)

Module Attach.
Import PyStr Router.

(** [pb.ATTACHMENT_RULE_*]; their numbers live in the generated module,
    which is not part of the repository. *)
Inductive AttachmentRule :=
| ATTACHMENT_RULE_KEEP_RELATIVE
| ATTACHMENT_RULE_KEEP_WORLD
| ATTACHMENT_RULE_SNAP_TO_TARGET.

Definition string_to_attachment_rule (rule : string) : AttachmentRule :=
  let rules := [("keep_relative", ATTACHMENT_RULE_KEEP_RELATIVE);
                ("keep_world", ATTACHMENT_RULE_KEEP_WORLD);
                ("snap_to_target", ATTACHMENT_RULE_SNAP_TO_TARGET)] in
  match aget (lower rule) rules with Some r => r | None => ATTACHMENT_RULE_KEEP_RELATIVE end.

Definition string_to_detachment_rule (rule : string) : AttachmentRule :=
  let rules := [("keep_relative", ATTACHMENT_RULE_KEEP_RELATIVE);
                ("keep_world", ATTACHMENT_RULE_KEEP_WORLD)] in
  match aget (lower rule) rules with Some r => r | None => ATTACHMENT_RULE_KEEP_WORLD end.

End Attach.

(** ** [_enhance_property_error] (agentbridge.py, lines 1440-1474) *)

Module PropHints.
Import Py PyStr Router.

Definition class_name_hints : list (string * string) := [
  ("PointLightComponent", "LightComponent0");
  ("SpotLightComponent", "LightComponent0");
  ("DirectionalLightComponent", "LightComponent0");
  ("StaticMeshComponent", "StaticMeshComponent0");
  ("SkeletalMeshComponent", "SkeletalMeshComponent");
  ("CameraComponent", "CameraComponent0")].

(** [c.isdigit()] on an ASCII character. *)
Definition isdigit (c : ascii) : bool :=
  let n := nat_of_ascii c in (48 <=? n)%nat && (n <=? 57)%nat.

(** [s[-1]], [None] standing for the [IndexError] of [""]. *)
Fixpoint last_char (s : string) : option ascii :=
  match s with
  | EmptyString => None
  | String c t => match last_char t with Some d => Some d | None => Some c end
  end.

(** [sub in v] for a string [sub]: substring test on a str, membership in
    a list, key test on a dict, [TypeError] on the other values. *)
Definition py_in_str (sub : string) (v : pyval) : result bool :=
  match v with
  | VStr s => Ok (contains sub s)
  | VList xs => Ok (existsb (py_eq (VStr sub)) xs)
  | VDict d => Ok (has_key sub d)
  | _ => Raise (TypeError "argument is not iterable")
  end.

Definition class_hint (instance first_part : string) : string :=
  "Use instance name '" ++ instance ++ "' instead of class name '" ++ first_part ++ "'".

Definition component_hint (actor_id : string) : string :=
  "Component names are instance names (e.g., 'LightComponent0'), not class names. Use get_actor('"
  ++ actor_id ++ "', include_components=True) to see component names.".

Definition read_only_hint : string :=
  "This property may be read-only. For colors, use format like " ++ dq ++ "(R=1,G=0,B=0)" ++ dq
  ++ " or " ++ dq ++ "#FF0000" ++ dq ++ ".".

(** The dict is updated in place and returned; here the updated dict is
    returned. *)
Definition enhance_property_error (error_dict : list (string * pyval))
    (property_path actor_id : string) : result (list (string * pyval)) :=
  let error_msg := get error_dict "error" (VStr "") in
  let path_parts := split "."%char property_path in
  h1 <- match path_parts with
        | [] => Ok []
        | first_part :: _ =>
            match aget first_part class_name_hints with
            | Some instance => Ok [class_hint instance first_part]
            | None =>
                if endswith "Component" first_part then
                  match last_char first_part with
                  | None => Raise (mkExc "IndexError" true "string index out of range")
                  | Some c => Ok (if isdigit c then [] else [component_hint actor_id])
                  end
                else Ok []
            end
        end;;
  failed <- py_in_str "Failed to set" error_msg;;
  let hints := if failed then (h1 ++ [read_only_hint])%list else h1 in
  Ok (match hints with
      | [] => error_dict
      | _ => dict_set "hints" (VList (map VStr hints)) error_dict
      end).

End PropHints.

(** ** [_find_similar_actors] (agentbridge.py, lines 1477-1528) *)

Module Similar.
Import Router.

(** The two fields of an actor that the function reads. *)
Record actor_ref := mkActorRef { actor_label : string; actor_name : string }.

Definition is_upper (c : ascii) : bool :=
  let n := nat_of_ascii c in (65 <=? n)%nat && (n <=? 90)%nat.
Definition is_lower (c : ascii) : bool :=
  let n := nat_of_ascii c in (97 <=? n)%nat && (n <=? 122)%nat.

Definition flush (cur : option string) : list string :=
  match cur with Some w => [w] | None => [] end.

(** [re.findall(r'[A-Z][a-z]*|[a-z]+', s)], scanning left to right with
    the word being matched in [cur]: an upper-case letter starts a word,
    a lower-case letter extends the current word or starts one, and any
    other character ends the current word. *)
Fixpoint camel_words (s : string) (cur : option string) : list string :=
  match s with
  | EmptyString => flush cur
  | String c t =>
      if is_upper c then (flush cur ++ camel_words t (Some (String c "")))%list
      else if is_lower c then
        camel_words t (Some match cur with Some w => w ++ String c "" | None => String c "" end)
      else (flush cur ++ camel_words t None)%list
  end.

(** [search_terms]: the term, then [''.join(words[i:])] for
    [i in range(1, len(words))] when there is more than one word. *)
Definition search_terms (search_term : string) : list string :=
  let words := camel_words search_term None in
  search_term :: (if (1 <? List.length words)%nat
                  then map (fun i => String.concat "" (skipn i words))
                           (seq 1 (List.length words - 1))
                  else []).

(** [actor.label or actor.name] *)
Definition display (a : actor_ref) : string :=
  if String.eqb (actor_label a) "" then actor_name a else actor_label a.

Section Similar.
(** [client.query_actors(label_pattern=term, limit=n)] and
    [client.query_actors(name_pattern=term, limit=n)]: the actors of the
    answer, [None] when the call raised an [Exception] or the answer has
    no [actors]. *)
Variable query_by_label : string -> nat -> option (list actor_ref).
Variable query_by_name : string -> nat -> option (list actor_ref).
(** [limit], a non-negative int. *)
Variable limit : nat.

(** [for actor in actors: label = ...; if label not in suggestions:
    append; if len(suggestions) >= limit: break] *)
Fixpoint collect (actors : list actor_ref) (suggestions : list string) : list string :=
  match actors with
  | [] => suggestions
  | a :: rest =>
      let label := display a in
      if mem label suggestions then collect rest suggestions
      else let s' := (suggestions ++ [label])%list in
           if (limit <=? List.length s')%nat then s' else collect rest s'
  end.

(** One turn of [for term in search_terms] after the length test. *)
Definition search_step (term : string) (suggestions : list string) : list string :=
  let s1 := match query_by_label term limit with
            | Some actors => collect (firstn limit actors) suggestions
            | None => suggestions
            end in
  if (List.length s1 <? limit)%nat then
    match query_by_name term (limit - List.length s1) with
    | Some actors => collect actors s1
    | None => s1
    end
  else s1.

Fixpoint search_loop (terms : list string) (suggestions : list string) : list string :=
  match terms with
  | [] => suggestions
  | term :: rest =>
      if (limit <=? List.length suggestions)%nat then suggestions
      else search_loop rest (search_step term suggestions)
  end.

Definition find_similar_actors (search_term : string) : list string :=
  firstn limit (search_loop (search_terms search_term) []).

End Similar.
End Similar.

(** ** Invariants of the router state *)

Module RouterInv.
Import Router.

(** The services are those [get_filtered_services] derives from the
    enabled modules, and the routing index is the one built from them. *)
Definition consistent {Client} (MODULES registry : list (string * list string))
    (st : state Client) : Prop :=
  services st = get_filtered_services MODULES registry (enabled_modules st)
  /\ tool_to_service st = build_index (services st).

(** Every cached client belongs to a service of [services]. *)
Definition clients_served {Client} (st : state Client) : Prop :=
  forall s, aget s (clients st) <> None -> aget s (services st) <> None.

End RouterInv.

(** ** A concrete server for the examples below *)

Module Fixtures.
Import Py Router.

(** One service, "agentbridge", serving "get_actor", already connected. *)
Definition fx_registry : list (string * list string) := [("agentbridge", ["get_actor"])].

Definition fx_state : state unit :=
  mkState unit ["core"; "classes"] [("agentbridge", ["get_actor"])] [("agentbridge", tt)]
          [("get_actor", "agentbridge")].

Definition fx_connect (_ : string) (_ : string) (_ : Z) : result unit := Ok tt.

(** An [execute] interrupted by Ctrl-C: it raises [KeyboardInterrupt]. *)
Definition fx_execute_interrupted (_ : string) (_ : unit) (_ : string) (_ : unit) : result string :=
  Raise (mkExc "KeyboardInterrupt" false "").

(** An [execute] that raises a [RuntimeError]. *)
Definition fx_execute_failing (_ : string) (_ : unit) (_ : string) (_ : unit) : result string :=
  Raise (mkExc "RuntimeError" true "boom").

Definition fx_modules_arg (_ : unit) : list string := [].

End Fixtures.

(** ** Spec-side notions used in the statements *)

Module Spec.
Import PyStr.

(** The value of a hexadecimal digit: its position in ["0123456789abcdef"]
    after lower-casing. *)
Fixpoint position (c : ascii) (s : string) : option nat :=
  match s with
  | EmptyString => None
  | String a t => if Ascii.eqb a c then Some 0 else option_map S (position c t)
  end.

Definition hex_alphabet : string := "0123456789abcdef".
Definition is_hex (c : ascii) : bool :=
  match position (lower_char c) hex_alphabet with Some _ => true | None => false end.
Definition hex_val (c : ascii) : Z :=
  match position (lower_char c) hex_alphabet with Some n => Z.of_nat n | None => 0%Z end.

(** A two-digit hex pair. *)
Definition pair_value (c1 c2 : ascii) : Z := (16 * hex_val c1 + hex_val c2)%Z.

(** The channel [pair / 255]. *)
Definition channel (c1 c2 : ascii) : Q := (inject_Z (pair_value c1 c2) / inject_Z 255)%Q.

Definition hex6 (d1 d2 d3 d4 d5 d6 : ascii) : string :=
  String "#" (String d1 (String d2 (String d3 (String d4 (String d5 (String d6 "")))))).
Definition hex8 (d1 d2 d3 d4 d5 d6 d7 d8 : ascii) : string :=
  String "#" (String d1 (String d2 (String d3 (String d4 (String d5 (String d6
    (String d7 (String d8 "")))))))).

Definition in_unit (q : Q) : Prop := (0 <= q <= 1)%Q.

(** The number a dict holds under [k], 0 when the key is missing; [None]
    when the value there is not a number. *)
Definition component (d : list (string * Py.pyval)) (k : string) : option Q :=
  match Py.lookup k d with None => Some 0%Q | Some v => Py.py_num v end.







(** TypedValues on which the two decoders are meant to coincide: the
    scalar tags 0-6 and Color (9); Object and Class (10, 11) whose
    object path is set and equal to the string value; Struct (12) and
    Array (13) whose members all coincide, or that are empty with an empty
    string value. *)
Fixpoint same_decoding (pv : Proto.PropertyValue) : bool :=
  match pv with
  | Proto.mkPV t _ _ _ sv _ _ _ _ op svs avs _ _ =>
      ((0 <=? t)%Z && (t <=? 6)%Z) || (t =? 9)%Z
      || (((t =? 10)%Z || (t =? 11)%Z) && negb (String.eqb op "") && String.eqb op sv)
      || ((t =? 12)%Z
          && match svs with
             | [] => String.eqb sv ""
             | _ :: _ => forallb (fun kv => same_decoding (snd kv)) svs
             end)
      || ((t =? 13)%Z
          && match avs with
             | [] => String.eqb sv ""
             | _ :: _ => forallb same_decoding avs
             end)
  end.

(** The tags [_set_property_value] writes, checked on a TypedValue and on
    every TypedValue nested in it: None, Bool, Int, Float, String, Vector,
    Color, Struct and Array (0, 1, 2, 3, 4, 6, 9, 12, 13). *)
Fixpoint encoder_tags (pv : Proto.PropertyValue) : bool :=
  match pv with
  | Proto.mkPV t _ _ _ _ _ _ _ _ _ svs avs _ _ =>
      existsb (Z.eqb t) [0; 1; 2; 3; 4; 6; 9; 12; 13]%Z
      && forallb (fun kv => encoder_tags (snd kv)) svs
      && forallb encoder_tags avs
  end.

(** A requested module name that [load_modules] activates: present in the
    catalog and not active yet. *)
Definition loadable (MODULES : list (string * list string)) (active : list string) (m : string)
  : bool :=
  negb (Router.mem m active) && match Router.aget m MODULES with Some _ => true | None => false end.

(** A list of names without repetition. *)
Fixpoint nodupb (l : list string) : bool :=
  match l with
  | [] => true
  | x :: t => negb (Router.mem x t) && nodupb t
  end.

End Spec.

(** * Properties *)

Example parse_ex1 :
  CallSyntax.parse_call_syntax "/Game/Pkg/Name.Name.Sub::Func"
  = CallSyntax.Asset "/Game/Pkg/Name.Name" "Func" (Some "Sub").
Proof. reflexivity. Qed.
Example parse_ex2 :
  CallSyntax.parse_call_syntax "Actor.Comp.Func" = CallSyntax.Actor "Actor" "Func" (Some "Comp").
Proof. reflexivity. Qed.
Example parse_ex3 :
  CallSyntax.parse_call_syntax "Actor.Func" = CallSyntax.Actor "Actor" "Func" None.
Proof. reflexivity. Qed.
Example norm_ex1 : PathNorm.normalize_asset_path "/Game/Biomes/Forest" = "/Game/Biomes/Forest.Forest".
Proof. reflexivity. Qed.
Example norm_ex2 : PathNorm.normalize_blueprint_class "/Game/BP_Enemy.BP_Enemy" = "/Game/BP_Enemy.BP_Enemy_C".
Proof. reflexivity. Qed.
Example norm_ex3 : PathNorm.normalize_blueprint_class "BP_Enemy" = "BP_Enemy_C".
Proof. reflexivity. Qed.

(** ** Facts about the string primitives *)

Module StrFacts.
Import PyStr.

Lemma sapp_assoc (s t u : string) : (s ++ t) ++ u = s ++ (t ++ u).
Proof. induction s as [|a s IH]; simpl; [reflexivity | now rewrite IH]. Qed.

Lemma sapp_nil_r (s : string) : s ++ "" = s.
Proof. induction s as [|a s IH]; simpl; [reflexivity | now rewrite IH]. Qed.

Lemma slength_app (s t : string) : String.length (s ++ t) = String.length s + String.length t.
Proof. induction s as [|a s IH]; simpl; [reflexivity | now rewrite IH]. Qed.

Lemma take_app_length (s t : string) : take (String.length s) (s ++ t) = s.
Proof. induction s as [|a s IH]; simpl; [reflexivity | now rewrite IH]. Qed.

Lemma drop_app_length (s t : string) : drop (String.length s) (s ++ t) = t.
Proof. induction s as [|a s IH]; simpl; [reflexivity | exact IH]. Qed.

Lemma drop_app_le (n : nat) (s t : string) :
  n <= String.length s -> drop n (s ++ t) = drop n s ++ t.
Proof.
  revert n; induction s as [|a s IH]; intros n Hn; destruct n; simpl in *;
    try reflexivity; try lia.
  apply IH; lia.
Qed.

Lemma prefix_nil (s : string) : String.prefix "" s = true.
Proof. destruct s; reflexivity. Qed.

(** A one-character [prefix] only looks at the first character. *)
Lemma prefix_char (c x : ascii) (s : string) :
  String.prefix (String c "") (String x s) = if ascii_dec c x then true else false.
Proof. simpl. rewrite prefix_nil. destruct (ascii_dec c x); reflexivity. Qed.

Lemma prefix_app (p s t : string) :
  String.prefix p s = true -> String.prefix p (s ++ t) = true.
Proof.
  revert s; induction p as [|a p IH]; intros s H; [apply prefix_nil|].
  destruct s as [|b s]; simpl in *; [discriminate|].
  destruct (ascii_dec a b); [now apply IH | discriminate].
Qed.

Lemma find_cons (p : string) (a : ascii) (s : string) :
  find p (String a s)
  = if String.prefix p (String a s) then Some 0 else option_map S (find p s).
Proof. reflexivity. Qed.

Lemma find_app_some (p s t : string) :
  find p t <> None -> find p (s ++ t) <> None.
Proof.
  induction s as [|a s IH]; intros H; [exact H|].
  change ((String a s ++ t)) with (String a (s ++ t)). rewrite find_cons.
  destruct (String.prefix p (String a (s ++ t))); [discriminate|].
  destruct (find p (s ++ t)); [discriminate | now elim IH].
Qed.

Lemma contains_char_cons (c : ascii) (s : string) :
  contains (String c "") (String c s) = true.
Proof. unfold contains; simpl. rewrite prefix_nil. destruct (ascii_dec c c); [reflexivity | congruence]. Qed.

Lemma contains_char_mid (c : ascii) (s t : string) :
  contains (String c "") (s ++ String c t) = true.
Proof.
  unfold contains.
  destruct (find (String c "") (s ++ String c t)) eqn:E; [reflexivity|].
  exfalso. revert E. apply find_app_some.
  simpl. rewrite prefix_nil. destruct (ascii_dec c c); [discriminate | congruence].
Qed.

(** Unfolding [contains] of a one-character needle on a cons. *)
Lemma contains_char_step (c x : ascii) (s : string) :
  contains (String c "") (String x s)
  = (if ascii_dec c x then true else false) || contains (String c "") s.
Proof.
  unfold contains. rewrite find_cons, prefix_char.
  destruct (ascii_dec c x); [reflexivity|].
  destruct (find (String c "") s); reflexivity.
Qed.

Lemma find_char_first (c : ascii) (a t : string) :
  contains (String c "") a = false ->
  find (String c "") (a ++ String c t) = Some (String.length a).
Proof.
  induction a as [|x a IH]; intros H.
  - simpl. rewrite prefix_nil. destruct (ascii_dec c c); [reflexivity | congruence].
  - rewrite contains_char_step in H. apply orb_false_iff in H as [H1 H2].
    change ((String x a ++ String c t)) with (String x (a ++ String c t)).
    rewrite find_cons, prefix_char. destruct (ascii_dec c x); [discriminate|].
    now rewrite (IH H2).
Qed.

Lemma find_none_of_contains (p s : string) : contains p s = false -> find p s = None.
Proof. unfold contains. destruct (find p s); [discriminate | reflexivity]. Qed.

Lemma rfind_none_of_contains (c : ascii) (s : string) :
  contains (String c "") s = false -> rfind c s = None.
Proof.
  induction s as [|x s IH]; intros H; [reflexivity|].
  rewrite contains_char_step in H. apply orb_false_iff in H as [H1 H2].
  simpl. rewrite (IH H2).
  destruct (ascii_dec c x) as [->|Hne]; [discriminate|].
  destruct (Ascii.eqb x c) eqn:E; [|reflexivity].
  apply Ascii.eqb_eq in E. congruence.
Qed.

Lemma rfind_app_none (c : ascii) (s t : string) :
  rfind c t = None -> rfind c (s ++ t) = rfind c s.
Proof.
  intros Ht. induction s as [|x s IH]; simpl; [exact Ht|].
  now rewrite IH.
Qed.

Lemma rfind_mid (c : ascii) (s t : string) :
  rfind c t = None -> rfind c (s ++ String c t) = Some (String.length s).
Proof.
  intros Ht. induction s as [|x s IH]; simpl.
  - rewrite Ht. now rewrite Ascii.eqb_refl.
  - now rewrite IH.
Qed.

Lemma rfind_lt (c : ascii) (s : string) (i : nat) :
  rfind c s = Some i -> i < String.length s.
Proof.
  revert i; induction s as [|x s IH]; intros i H; simpl in *; [discriminate|].
  destruct (rfind c s) as [j|].
  - injection H as <-. specialize (IH j eq_refl). lia.
  - destruct (Ascii.eqb x c); [injection H as <-; lia | discriminate].
Qed.

Lemma rfind_after_none (c : ascii) (s : string) (i : nat) :
  rfind c s = Some i -> rfind c (drop (S i) s) = None.
Proof.
  revert i; induction s as [|x s IH]; intros i H; simpl in *; [discriminate|].
  destruct (rfind c s) as [j|] eqn:E.
  - injection H as <-. simpl. now apply IH.
  - destruct (Ascii.eqb x c); [injection H as <-; exact E | discriminate].
Qed.

Lemma split_nonempty (c : ascii) (s : string) : split c s <> [].
Proof.
  destruct s as [|a s]; simpl; [discriminate|].
  destruct (Ascii.eqb a c); [discriminate|].
  destruct (split c s); discriminate.
Qed.

Lemma split_no_sep (c : ascii) (s : string) :
  rfind c s = None -> split c s = [s].
Proof.
  induction s as [|x s IH]; intros H; [reflexivity|].
  simpl in H. destruct (rfind c s); [discriminate|].
  simpl. destruct (Ascii.eqb x c); [discriminate|].
  now rewrite IH.
Qed.

Lemma split_app_sep (c : ascii) (s t : string) :
  split c (s ++ String c t) = (split c s ++ split c t)%list.
Proof.
  induction s as [|x s IH]; simpl.
  - now rewrite Ascii.eqb_refl.
  - rewrite IH. destruct (Ascii.eqb x c); [reflexivity|].
    destruct (split c s) as [|h r] eqn:E; [now elim (split_nonempty c s)|].
    reflexivity.
Qed.

Lemma join_cons2 (sep x : string) (l : list string) :
  l <> [] -> join sep (x :: l) = x ++ sep ++ join sep l.
Proof. destruct l; [congruence | reflexivity]. Qed.

Lemma join_split (c : ascii) (s : string) : join (String c "") (split c s) = s.
Proof.
  induction s as [|x s IH]; [reflexivity|].
  simpl. destruct (Ascii.eqb x c) eqn:E.
  - apply Ascii.eqb_eq in E; subst x.
    rewrite join_cons2 by apply split_nonempty. simpl. now rewrite IH.
  - destruct (split c s) as [|h r] eqn:Es; [now elim (split_nonempty c s)|].
    destruct r as [|h' r]; simpl in *; [now rewrite IH|].
    now rewrite IH.
Qed.

Lemma removelast_snoc {A} (l : list A) (x : A) : removelast (l ++ [x]) = l.
Proof. induction l as [|a l IH]; [reflexivity|]. simpl. rewrite IH. destruct l; reflexivity. Qed.

Lemma last_snoc {A} (l : list A) (x d : A) : last (l ++ [x]) d = x.
Proof. induction l as [|a l IH]; [reflexivity|]. simpl. rewrite IH. destruct (l ++ [x])%list eqn:E; [destruct l; discriminate | reflexivity]. Qed.

Lemma drop_add_app (s t : string) (n : nat) :
  drop (String.length s + n) (s ++ t) = drop n t.
Proof. induction s as [|a s IH]; simpl; [reflexivity | exact IH]. Qed.

Lemma drop_after_sep (s t : string) (c : ascii) :
  drop (S (String.length s)) (s ++ String c t) = t.
Proof. induction s as [|a s IH]; simpl; [reflexivity | exact IH]. Qed.

Lemma prefix_dcolon_shift (x : ascii) (t f : string) :
  String.prefix "::" (String x (t ++ ":"))
  = String.prefix "::" (String x (t ++ "::" ++ f)).
Proof. destruct t as [|y t]; simpl; rewrite ?prefix_nil; reflexivity. Qed.

(** The first ["::"] of [t ++ "::" ++ f] is the one after [t] when [t]
    neither contains ["::"] nor ends with [':']. *)
Lemma find_dcolon (t f : string) :
  contains "::" (t ++ ":") = false ->
  find "::" (t ++ "::" ++ f) = Some (String.length t).
Proof.
  induction t as [|x t IH]; intros H.
  - simpl. now rewrite prefix_nil.
  - change (String x t ++ ":") with (String x (t ++ ":")) in H.
    change (String x t ++ "::" ++ f) with (String x (t ++ "::" ++ f)).
    unfold contains in H. rewrite find_cons in H. rewrite find_cons.
    rewrite <- prefix_dcolon_shift.
    destruct (String.prefix "::" (String x (t ++ ":"))); [discriminate|].
    rewrite IH; [reflexivity|].
    unfold contains. destruct (find "::" (t ++ ":")); [discriminate | reflexivity].
Qed.

Lemma endswith_app (s t : string) : endswith t (s ++ t) = true.
Proof.
  unfold endswith. rewrite slength_app.
  replace (String.length s + String.length t - String.length t) with (String.length s) by lia.
  rewrite drop_app_length, String.eqb_refl, andb_true_r.
  apply Nat.leb_le. lia.
Qed.

End StrFacts.

Module PathNormFacts.
Import PyStr StrFacts PathNorm.

Lemma nap_cases (x : string) :
  normalize_asset_path x = x \/
  exists i, rfind "/"%char x = Some i /\ startswith "/" x = true /\
            contains "." (drop (S i) x) = false /\
            normalize_asset_path x = x ++ "." ++ drop (S i) x.
Proof.
  destruct x as [|a x]; [left; reflexivity|].
  unfold normalize_asset_path.
  destruct (startswith "/" (String a x)) eqn:Hs; simpl negb; cbv iota; [|left; reflexivity].
  destruct (rfind "/"%char (String a x)) as [i|] eqn:Hr; [|left; reflexivity].
  destruct (contains "." (drop (S i) (String a x))) eqn:Hc; [left; reflexivity|].
  right. exists i. auto.
Qed.

Lemma nap_body (a : ascii) (x : string) :
  normalize_asset_path (String a x)
  = if negb (startswith "/" (String a x)) then String a x
    else match rfind "/"%char (String a x) with
         | None => String a x
         | Some last_slash =>
             if contains "." (drop (S last_slash) (String a x)) then String a x
             else String a x ++ "." ++ drop (S last_slash) (String a x)
         end.
Proof. reflexivity. Qed.

Lemma asset_path_idem (x : string) :
  normalize_asset_path (normalize_asset_path x) = normalize_asset_path x.
Proof.
  destruct (nap_cases x) as [H | [i [Hr [Hs [Hc H]]]]]; rewrite H; [exact H|].
  set (d := drop (S i) x).
  destruct x as [|a x0]; [discriminate Hs|].
  change (String a x0 ++ "." ++ d) with (String a (x0 ++ String "." d)).
  rewrite nap_body.
  change (String a (x0 ++ String "." d)) with (String a x0 ++ String "." d).
  assert (Hs' : startswith "/" (String a x0 ++ String "." d) = true)
    by (apply prefix_app; exact Hs).
  rewrite Hs'; simpl negb; cbv iota.
  assert (Hd : rfind "/"%char (String "." d) = None).
  { assert (Hn : rfind "/"%char d = None) by exact (rfind_after_none _ _ _ Hr).
    simpl. rewrite Hn. reflexivity. }
  rewrite (rfind_app_none _ _ _ Hd), Hr.
  rewrite drop_app_le by (apply rfind_lt in Hr; lia).
  fold d. rewrite contains_char_mid. reflexivity.
Qed.

Lemma nbc_cases (x : string) :
  normalize_blueprint_class x = x \/ normalize_blueprint_class x = x ++ "_C".
Proof.
  destruct x as [|a x]; [left; reflexivity|].
  unfold normalize_blueprint_class.
  destruct (endswith "_C" (String a x)); [left; reflexivity|].
  cbv zeta.
  destruct (_ || _); [right; reflexivity|].
  destruct (_ && _); [right | left]; reflexivity.
Qed.

Lemma nbc_fixed (x : string) :
  endswith "_C" x = true -> normalize_blueprint_class x = x.
Proof.
  intros H. destruct x as [|a x]; [reflexivity|].
  unfold normalize_blueprint_class. now rewrite H.
Qed.

Lemma blueprint_class_idem (x : string) :
  normalize_blueprint_class (normalize_blueprint_class x) = normalize_blueprint_class x.
Proof.
  destruct (nbc_cases x) as [H | H]; rewrite H; [exact H|].
  apply nbc_fixed, endswith_app.
Qed.

End PathNormFacts.

(** C8: both path normalizers are total functions on strings (they are
    Rocq functions of type [string -> string], defined for the empty
    string, for non-absolute strings and for already-suffixed strings
    alike) and applying either of them twice gives the same result as
    applying it once. *)
Theorem path_normalizers_idempotent (x : string) :
  PathNorm.normalize_asset_path (PathNorm.normalize_asset_path x)
  = PathNorm.normalize_asset_path x
  /\ PathNorm.normalize_blueprint_class (PathNorm.normalize_blueprint_class x)
     = PathNorm.normalize_blueprint_class x.
Proof.
  split; [apply PathNormFacts.asset_path_idem | apply PathNormFacts.blueprint_class_idem].
Qed.

Module CallSyntaxFacts.
Import PyStr StrFacts CallSyntax.

Lemma parse_body_dcolon (call : string) (i : nat) :
  find "::" call = Some i ->
  parse_call_syntax call =
    let target := take i call in
    let function := drop (i + 2) call in
    if startswith "/" target then
      let path_parts := split slash target in
      let dot_parts := split dot (last path_parts EmptyString) in
      if (2 <? List.length dot_parts)%nat then
        Asset (join "/" (removelast path_parts) ++ "/" ++
               (nth 0 dot_parts EmptyString ++ "." ++ nth 1 dot_parts EmptyString))
              function (Some (join "." (skipn 2 dot_parts)))
      else Asset target function None
    else Static target function.
Proof. intros H. unfold parse_call_syntax, dcolon. now rewrite H. Qed.

Lemma parse_no_dcolon (call : string) :
  find "::" call = None ->
  parse_call_syntax call =
    match rfind dot call with
    | Some last_dot =>
        let target_path := take last_dot call in
        let function := drop (S last_dot) call in
        match find "." target_path with
        | Some first_dot =>
            Actor (take first_dot target_path) function
                  (Some (drop (S first_dot) target_path))
        | None => Actor target_path function None
        end
    | None =>
        Error ("Invalid call syntax '" ++ call ++
               "'. Use Class::Function for static, Actor.Function for instance, or /Asset/Path::Function for assets.")
    end.
Proof. intros H. unfold parse_call_syntax, dcolon. now rewrite H. Qed.

Lemma dcolon_never_actor (call : string) :
  contains "::" call = true -> forall a f c, parse_call_syntax call <> Actor a f c.
Proof.
  intros H a f c. unfold contains in H.
  destruct (find "::" call) as [i|] eqn:E; [|discriminate].
  rewrite (parse_body_dcolon _ _ E). cbv zeta.
  destruct (startswith "/" _); [destruct (2 <? _)%nat|]; discriminate.
Qed.

Lemma dot_actor (tp fn : string) :
  contains "::" (tp ++ "." ++ fn) = false -> contains "." fn = false ->
  (forall a comp, tp = a ++ "." ++ comp -> contains "." a = false ->
     parse_call_syntax (tp ++ "." ++ fn) = Actor a fn (Some comp))
  /\ (contains "." tp = false ->
     parse_call_syntax (tp ++ "." ++ fn) = Actor tp fn None).
Proof.
  intros Hdc Hfn.
  rewrite (parse_no_dcolon _ (find_none_of_contains _ _ Hdc)).
  change ("." ++ fn) with (String "." fn).
  unfold dot. rewrite (rfind_mid _ _ _ (rfind_none_of_contains _ _ Hfn)).
  cbv zeta. rewrite take_app_length, drop_after_sep.
  split.
  - intros a comp -> Ha. change ("." ++ comp) with (String "." comp).
    rewrite (find_char_first _ _ _ Ha).
    rewrite take_app_length, drop_after_sep. reflexivity.
  - intros Htp. now rewrite (find_none_of_contains _ _ Htp).
Qed.

Lemma no_separator_error (call : string) :
  contains "::" call = false -> contains "." call = false ->
  exists m, parse_call_syntax call = Error m /\ m <> "".
Proof.
  intros H1 H2.
  rewrite (parse_no_dcolon _ (find_none_of_contains _ _ H1)).
  unfold dot. rewrite (rfind_none_of_contains _ _ H2).
  eexists; split; [reflexivity | discriminate].
Qed.

(** The asset branch, for a target written [pre ++ "/" ++ last] where
    [last] is its final ["/"]-delimited segment. *)
Lemma asset_branch (pre last func : string) :
  contains "::" (pre ++ "/" ++ last ++ ":") = false ->
  startswith "/" (pre ++ "/") = true ->
  contains "/" last = false ->
  parse_call_syntax (pre ++ "/" ++ last ++ "::" ++ func) =
    match split "." last with
    | p0 :: p1 :: p2 :: rest =>
        Asset (pre ++ "/" ++ p0 ++ "." ++ p1) func (Some (join "." (p2 :: rest)))
    | _ => Asset (pre ++ "/" ++ last) func None
    end.
Proof.
  intros Hdc Hs Hl.
  set (target := pre ++ "/" ++ last).
  assert (Ecall : pre ++ "/" ++ last ++ "::" ++ func = target ++ "::" ++ func)
    by (unfold target; rewrite <- !sapp_assoc; reflexivity).
  assert (Hdc' : contains "::" (target ++ ":") = false)
    by (unfold target; rewrite !sapp_assoc; exact Hdc).
  rewrite Ecall, (parse_body_dcolon _ _ (find_dcolon _ _ Hdc')).
  cbv zeta. rewrite take_app_length.
  replace (String.length target + 2) with (String.length target + 2) by reflexivity.
  rewrite drop_add_app. change (drop 2 ("::" ++ func)) with func.
  assert (Hst : startswith "/" target = true)
    by (unfold target, startswith; rewrite <- sapp_assoc; now apply prefix_app).
  rewrite Hst.
  assert (Hsplit : split slash target = (split "/"%char pre ++ [last])%list).
  { unfold target, slash. change ("/" ++ last) with (String "/" last).
    rewrite split_app_sep, (split_no_sep _ _ (rfind_none_of_contains _ _ Hl)).
    reflexivity. }
  rewrite Hsplit, last_snoc, removelast_snoc.
  change "/" with (String "/"%char "") at 1. rewrite join_split.
  destruct (split dot last) as [|p0 [|p1 [|p2 rest]]] eqn:Ed;
    unfold dot in Ed; rewrite Ed; reflexivity.
Qed.

End CallSyntaxFacts.

(** C6: a call whose target (the text before the first ["::"]) starts
    with ["/"] is parsed as an Asset.  Writing the target as
    [pre ++ "/" ++ last] with [last] its final ["/"]-delimited segment:
    when [last] splits on ["."] into more than two parts, the first two
    parts joined by ["."] replace [last] in the asset path and the
    remaining parts joined by ["."] form the subobject; otherwise the
    target is kept as it is, with no subobject.  In particular
    ["/Game/Pkg/Name.Name.Sub::Func"] parses to
    Asset{target "/Game/Pkg/Name.Name", function "Func", subobject "Sub"}. *)
Theorem parse_asset_target (pre last func : string)
  (Hfirst : PyStr.contains "::" (pre ++ "/" ++ last ++ ":") = false)
  (Hroot : PyStr.startswith "/" (pre ++ "/") = true)
  (Hlast : PyStr.contains "/" last = false) :
  CallSyntax.parse_call_syntax (pre ++ "/" ++ last ++ "::" ++ func) =
    match PyStr.split "." last with
    | p0 :: p1 :: p2 :: rest =>
        CallSyntax.Asset (pre ++ "/" ++ p0 ++ "." ++ p1) func
                         (Some (PyStr.join "." (p2 :: rest)))
    | _ => CallSyntax.Asset (pre ++ "/" ++ last) func None
    end
  /\ CallSyntax.parse_call_syntax "/Game/Pkg/Name.Name.Sub::Func"
     = CallSyntax.Asset "/Game/Pkg/Name.Name" "Func" (Some "Sub").
Proof.
  split; [now apply CallSyntaxFacts.asset_branch | reflexivity].
Qed.

Lemma parse_asset_target_witness :
  PyStr.contains "::" ("/Game/Pkg" ++ "/" ++ "Name.Name.Sub" ++ ":") = false /\
  PyStr.startswith "/" ("/Game/Pkg" ++ "/") = true /\
  PyStr.contains "/" "Name.Name.Sub" = false /\
  CallSyntax.parse_call_syntax ("/Game/Pkg" ++ "/" ++ "Name.Name.Sub" ++ "::" ++ "Func")
  = CallSyntax.Asset ("/Game/Pkg" ++ "/" ++ "Name" ++ "." ++ "Name") "Func"
                     (Some (PyStr.join "." ["Sub"])).
Proof.
  refine (conj eq_refl (conj eq_refl (conj eq_refl _))).
  exact (proj1 (parse_asset_target "/Game/Pkg" "Name.Name.Sub" "Func" eq_refl eq_refl eq_refl)).
Defined.

(** C7: a call containing ["::"] never yields the Actor variant; a call
    [tp ++ "." ++ fn] with no ["::"] and no ["."] in [fn] (so [fn] is the
    text after the last ["."]) yields Actor with function [fn], with actor
    the text before the first ["."] of [tp] and component the rest when
    [tp] contains a ["."], and actor [tp] with no component otherwise; a
    call with neither ["::"] nor ["."] yields Error with a non-empty
    message. *)
Theorem parse_actor_precedence (call : string) :
  (PyStr.contains "::" call = true ->
     forall a f c, CallSyntax.parse_call_syntax call <> CallSyntax.Actor a f c)
  /\ (forall tp fn, call = tp ++ "." ++ fn ->
        PyStr.contains "::" call = false -> PyStr.contains "." fn = false ->
        (forall a comp, tp = a ++ "." ++ comp -> PyStr.contains "." a = false ->
           CallSyntax.parse_call_syntax call = CallSyntax.Actor a fn (Some comp))
        /\ (PyStr.contains "." tp = false ->
           CallSyntax.parse_call_syntax call = CallSyntax.Actor tp fn None))
  /\ (PyStr.contains "::" call = false -> PyStr.contains "." call = false ->
        exists m, CallSyntax.parse_call_syntax call = CallSyntax.Error m /\ m <> "").
Proof.
  split; [|split].
  - apply CallSyntaxFacts.dcolon_never_actor.
  - intros tp fn -> H1 H2. now apply CallSyntaxFacts.dot_actor.
  - apply CallSyntaxFacts.no_separator_error.
Qed.

Lemma parse_actor_precedence_witness :
  CallSyntax.parse_call_syntax ("Actor.Comp" ++ "." ++ "Func")
  = CallSyntax.Actor "Actor" "Func" (Some "Comp")
  /\ CallSyntax.parse_call_syntax ("Actor" ++ "." ++ "Func") = CallSyntax.Actor "Actor" "Func" None
  /\ (exists m, CallSyntax.parse_call_syntax "NoSeparator" = CallSyntax.Error m /\ m <> "").
Proof.
  split; [|split].
  - exact (proj1 (proj1 (proj2 (parse_actor_precedence ("Actor.Comp" ++ "." ++ "Func")))
             "Actor.Comp" "Func" eq_refl eq_refl eq_refl) "Actor" "Comp" eq_refl eq_refl).
  - exact (proj2 (proj1 (proj2 (parse_actor_precedence ("Actor" ++ "." ++ "Func")))
             "Actor" "Func" eq_refl eq_refl eq_refl) eq_refl).
  - exact (proj2 (proj2 (parse_actor_precedence "NoSeparator")) eq_refl eq_refl).
Defined.

Module HexFacts.
Import PyStr Normalize Spec.

Definition hex_list : list ascii :=
  ["0";"1";"2";"3";"4";"5";"6";"7";"8";"9";"a";"b";"c";"d";"e";"f";
   "A";"B";"C";"D";"E";"F"]%char.

Lemma is_hex_cases (c : ascii) : is_hex c = true -> In c hex_list.
Proof.
  destruct c as [[] [] [] [] [] [] [] []]; vm_compute; intros H;
    first [discriminate H | tauto].
Qed.

Lemma int16_pair (c1 c2 : ascii) :
  is_hex c1 = true -> is_hex c2 = true ->
  int16 (String c1 (String c2 "")) = Some (pair_value c1 c2).
Proof.
  intros H1 H2. apply is_hex_cases in H1, H2.
  unfold hex_list in H1, H2.
  repeat match goal with
         | H : In _ (_ :: _) |- _ => destruct H as [<-|H]
         | H : In _ [] |- _ => destruct H
         end; vm_compute; reflexivity.
Qed.

Lemma hex_val_range (c : ascii) : is_hex c = true -> (0 <= hex_val c <= 15)%Z.
Proof.
  intros H. apply is_hex_cases in H. unfold hex_list in H.
  repeat match goal with
         | H : In _ (_ :: _) |- _ => destruct H as [<-|H]
         | H : In _ [] |- _ => destruct H
         end; vm_compute; split; discriminate.
Qed.

Lemma chan_unit (n : Z) : (0 <= n <= 255)%Z -> in_unit (chan n).
Proof.
  intros Hn. unfold in_unit, chan, Qdiv, Qle; simpl. split; lia.
Qed.

Lemma channel_unit (c1 c2 : ascii) :
  is_hex c1 = true -> is_hex c2 = true -> in_unit (channel c1 c2).
Proof.
  intros H1 H2. apply chan_unit. unfold pair_value.
  pose proof (hex_val_range _ H1). pose proof (hex_val_range _ H2). lia.
Qed.

End HexFacts.

Module HexColorFacts.
Import Py PyStr Normalize Spec HexFacts.

Lemma hex_color6 (d1 d2 d3 d4 d5 d6 : ascii) :
  forallb is_hex [d1; d2; d3; d4; d5; d6] = true ->
  hex_color (String d1 (String d2 (String d3 (String d4 (String d5 (String d6 ""))))))
  = Some (NColor (channel d1 d2) (channel d3 d4) (channel d5 d6) 1%Q).
Proof.
  simpl. intros H. repeat (apply andb_prop in H; destruct H as [? H]).
  unfold hex_color. simpl take. simpl drop. simpl String.length. cbv [Nat.eqb].
  rewrite !int16_pair by assumption. reflexivity.
Qed.

Lemma hex_color8 (d1 d2 d3 d4 d5 d6 d7 d8 : ascii) :
  forallb is_hex [d1; d2; d3; d4; d5; d6; d7; d8] = true ->
  hex_color (String d1 (String d2 (String d3 (String d4 (String d5 (String d6
    (String d7 (String d8 ""))))))))
  = Some (NColor (channel d1 d2) (channel d3 d4) (channel d5 d6) (channel d7 d8)).
Proof.
  simpl. intros H. repeat (apply andb_prop in H; destruct H as [? H]).
  unfold hex_color. simpl take. simpl drop. simpl String.length. cbv [Nat.eqb].
  rewrite !int16_pair by assumption. reflexivity.
Qed.

End HexColorFacts.

(** C9: in string-normalization mode ([_normalize_property_value]) every
    ["#RRGGBB"] literal of six hex digits becomes the Color text whose
    channels are the hex pairs divided by 255, with alpha 1, and every
    ["#RRGGBBAA"] literal the Color whose four channels are the four pairs
    divided by 255; all channels lie in [0,1].  In particular ["#FF0000"]
    gives r=1, g=0, b=0, a=1 and ["#FF000080"] gives an alpha within 0.01
    of 0.502. *)
Theorem hex_literal_color (float_of_string : string -> option Q) (hint : string) :
  (forall d1 d2 d3 d4 d5 d6 : ascii,
     forallb Spec.is_hex [d1; d2; d3; d4; d5; d6] = true ->
     Normalize.normalize_property_value float_of_string
       (Py.VStr (Spec.hex6 d1 d2 d3 d4 d5 d6)) hint
     = Py.Ok (Normalize.NColor (Spec.channel d1 d2) (Spec.channel d3 d4)
                               (Spec.channel d5 d6) 1%Q)
     /\ Spec.in_unit (Spec.channel d1 d2) /\ Spec.in_unit (Spec.channel d3 d4)
     /\ Spec.in_unit (Spec.channel d5 d6))
  /\ (forall d1 d2 d3 d4 d5 d6 d7 d8 : ascii,
     forallb Spec.is_hex [d1; d2; d3; d4; d5; d6; d7; d8] = true ->
     Normalize.normalize_property_value float_of_string
       (Py.VStr (Spec.hex8 d1 d2 d3 d4 d5 d6 d7 d8)) hint
     = Py.Ok (Normalize.NColor (Spec.channel d1 d2) (Spec.channel d3 d4)
                               (Spec.channel d5 d6) (Spec.channel d7 d8))
     /\ Spec.in_unit (Spec.channel d1 d2) /\ Spec.in_unit (Spec.channel d3 d4)
     /\ Spec.in_unit (Spec.channel d5 d6) /\ Spec.in_unit (Spec.channel d7 d8))
  /\ (exists r g b a : Q,
     Normalize.normalize_property_value float_of_string (Py.VStr "#FF0000") hint
     = Py.Ok (Normalize.NColor r g b a)
     /\ (r == 1 /\ g == 0 /\ b == 0 /\ a == 1)%Q)
  /\ (exists r g b a : Q,
     Normalize.normalize_property_value float_of_string (Py.VStr "#FF000080") hint
     = Py.Ok (Normalize.NColor r g b a)
     /\ (Qabs (a - (502 # 1000)) <= 1 # 100)%Q).
Proof.
  split; [|split; [|split]].
  - intros d1 d2 d3 d4 d5 d6 H.
    pose proof H as H'. simpl in H'.
    repeat (apply andb_prop in H'; destruct H' as [? H']).
    split; [|repeat split; apply HexFacts.channel_unit; assumption].
    unfold Normalize.normalize_property_value, Spec.hex6.
    change (PyStr.drop 1 (String "#" ?x)) with x.
    rewrite (HexColorFacts.hex_color6 _ _ _ _ _ _ H). reflexivity.
  - intros d1 d2 d3 d4 d5 d6 d7 d8 H.
    pose proof H as H'. simpl in H'.
    repeat (apply andb_prop in H'; destruct H' as [? H']).
    split; [|repeat split; apply HexFacts.channel_unit; assumption].
    unfold Normalize.normalize_property_value, Spec.hex8.
    change (PyStr.drop 1 (String "#" ?x)) with x.
    rewrite (HexColorFacts.hex_color8 _ _ _ _ _ _ _ _ H). reflexivity.
  - eexists _, _, _, _. split; [vm_compute; reflexivity|].
    vm_compute. repeat split; reflexivity.
  - eexists _, _, _, _. split; [vm_compute; reflexivity|].
    vm_compute. discriminate.
Qed.

Lemma hex_literal_color_witness :
  forallb Spec.is_hex ["F"; "F"; "0"; "0"; "0"; "0"]%char = true
  /\ forallb Spec.is_hex ["F"; "F"; "0"; "0"; "0"; "0"; "8"; "0"]%char = true
  /\ Normalize.normalize_property_value (fun _ => None)
       (Py.VStr (Spec.hex6 "F" "F" "0" "0" "0" "0")) "Color"
     = Py.Ok (Normalize.NColor (Spec.channel "F" "F") (Spec.channel "0" "0")
                               (Spec.channel "0" "0") 1%Q)
  /\ Normalize.normalize_property_value (fun _ => None)
       (Py.VStr (Spec.hex8 "F" "F" "0" "0" "0" "0" "8" "0")) "Color"
     = Py.Ok (Normalize.NColor (Spec.channel "F" "F") (Spec.channel "0" "0")
                               (Spec.channel "0" "0") (Spec.channel "8" "0")).
Proof.
  split; [reflexivity|]. split; [reflexivity|]. split.
  - apply (proj1 (hex_literal_color (fun _ => None) "Color")). reflexivity.
  - apply (proj1 (proj2 (hex_literal_color (fun _ => None) "Color"))). reflexivity.
Defined.

Module EncoderFacts.
Import Py Proto Codec Normalize Spec.

Lemma py_float_num (fos : string -> option Q) (v : pyval) (q : Q) :
  py_num v = Some q -> py_float fos v = Ok q.
Proof. destruct v; simpl; intros H; try discriminate; inversion H; reflexivity. Qed.

Lemma get_component (fos : string -> option Q) d k q :
  component d k = Some q -> py_float fos (get d k (VInt 0)) = Ok q.
Proof.
  unfold component, get. destruct (lookup k d) as [v|].
  - apply py_float_num.
  - intros H; inversion H; reflexivity.
Qed.


(** The generic-struct branch of [_set_property_value] gives type 12. *)
Lemma set_dict_struct (fos : string -> option Q) (fits : Z -> bool) d pv :
  (has_key "x" d && has_key "y" d && has_key "z" d) = false ->
  (has_key "pitch" d && has_key "yaw" d && has_key "roll" d) = false ->
  (has_key "r" d && has_key "g" d && has_key "b" d) = false ->
  set_property_value fos fits (VDict d) = Ok pv -> pv_type pv = 12%Z.
Proof.
  intros Hv Hp Hc. simpl. rewrite Hv, Hp, Hc. simpl.
  match goal with |- bind ?m _ = _ -> _ => destruct m end;
    simpl; intros H; inversion H; reflexivity.
Qed.

(** Every sequence is encoded by [_set_property_value] as an Array. *)
Lemma set_list_array (fos : string -> option Q) (fits : Z -> bool) xs pv :
  set_property_value fos fits (VList xs) = Ok pv -> pv_type pv = 13%Z.
Proof.
  simpl. match goal with |- bind ?m _ = _ -> _ => destruct m end;
    simpl; intros H; inversion H; reflexivity.
Qed.

(** A key the dict lacks reads as the default. *)
Lemma get_missing d k x : has_key k d = false -> get d k x = x.
Proof.
  unfold get. induction d as [|[k' v] t IH]; simpl; [reflexivity|].
  destruct (String.eqb k k'); simpl; [discriminate|exact IH].
Qed.

(** The generic-struct branch stores the encoding of every entry. *)
Lemma set_dict_fields (fos : string -> option Q) (fits : Z -> bool) d :
  (has_key "x" d && has_key "y" d && has_key "z" d) = false ->
  (has_key "pitch" d && has_key "yaw" d && has_key "roll" d) = false ->
  (has_key "r" d && has_key "g" d && has_key "b" d) = false ->
  set_property_value fos fits (VDict d)
  = sv <- CodecLoops.set_fields fos fits d;; Ok (with_struct sv (with_type 12 pv0)).
Proof.
  intros Hv Hp Hc. simpl. rewrite Hv, Hp, Hc. simpl. f_equal.
  clear Hv Hp Hc. induction d as [|[k v] t IH]; simpl; [reflexivity|].
  destruct (set_property_value fos fits v); simpl; [rewrite IH|]; reflexivity.
Qed.



End EncoderFacts.

(** C3 (as the code does it): the string normalizer
    [_normalize_property_value] turns every dict that has one of the keys
    pitch, yaw, roll, lacks one of r, g, b and lacks one of x, y, z into
    the Rotator text of [float(value.get(k, 0))] for the three components,
    so a missing component is 0, and the call raises when [float()]
    rejects a present component; the TypedValue encoder
    [_set_property_value] does not default them: such a dict that lacks
    one of pitch, yaw, roll is encoded as a generic Struct (type 12) of its
    encoded entries. *)
Theorem rotator_dict_encoding (float_of_string : string -> option Q) (int_value_fits : Z -> bool)
    (hint : string) (d : list (string * Py.pyval)) :
  (Py.has_key "pitch" d || Py.has_key "yaw" d || Py.has_key "roll" d) = true ->
  (Py.has_key "r" d && Py.has_key "g" d && Py.has_key "b" d) = false ->
  (Py.has_key "x" d && Py.has_key "y" d && Py.has_key "z" d) = false ->
  (forall k, In k ["pitch"; "yaw"; "roll"] -> Py.has_key k d = false ->
     Py.py_float float_of_string (Py.get d k (Py.VInt 0)) = Py.Ok 0%Q)
  /\ (forall p y r,
        Py.py_float float_of_string (Py.get d "pitch" (Py.VInt 0)) = Py.Ok p ->
        Py.py_float float_of_string (Py.get d "yaw" (Py.VInt 0)) = Py.Ok y ->
        Py.py_float float_of_string (Py.get d "roll" (Py.VInt 0)) = Py.Ok r ->
        Normalize.normalize_property_value float_of_string (Py.VDict d) hint
        = Py.Ok (Normalize.NRotator p y r))
  /\ (forall k e, In k ["pitch"; "yaw"; "roll"] ->
        Py.py_float float_of_string (Py.get d k (Py.VInt 0)) = Py.Raise e ->
        exists e', Normalize.normalize_property_value float_of_string (Py.VDict d) hint
                   = Py.Raise e')
  /\ ((Py.has_key "pitch" d && Py.has_key "yaw" d && Py.has_key "roll" d) = false ->
      Codec.set_property_value float_of_string int_value_fits (Py.VDict d)
      = Py.bind (CodecLoops.set_fields float_of_string int_value_fits d)
                (fun sv => Py.Ok (Proto.with_struct sv (Proto.with_type 12 Proto.pv0)))).
Proof.
  intros Hany Hc Hv. split; [|split; [|split]].
  - intros k _ Hk. rewrite (EncoderFacts.get_missing _ _ _ Hk). reflexivity.
  - intros p y r Hp Hy Hr.
    unfold Normalize.normalize_property_value. rewrite Hc, Hv, Hany.
    rewrite Hp. simpl. rewrite Hy. simpl. rewrite Hr. reflexivity.
  - intros k e Hk He.
    unfold Normalize.normalize_property_value. rewrite Hc, Hv, Hany.
    destruct Hk as [<-|[<-|[<-|[]]]].
    + rewrite He. eexists. reflexivity.
    + destruct (Py.py_float float_of_string (Py.get d "pitch" (Py.VInt 0))) as [p|e0];
        simpl; [rewrite He | ]; eexists; reflexivity.
    + destruct (Py.py_float float_of_string (Py.get d "pitch" (Py.VInt 0))) as [p|e0];
        simpl; [|eexists; reflexivity].
      destruct (Py.py_float float_of_string (Py.get d "yaw" (Py.VInt 0))) as [y|e1];
        simpl; [rewrite He | ]; eexists; reflexivity.
  - intros Hall. apply EncoderFacts.set_dict_fields; assumption.
Qed.

Lemma rotator_dict_encoding_witness :
  Normalize.normalize_property_value (fun _ => None) (Py.VDict [("yaw", Py.VInt 90)]) ""
    = Py.Ok (Normalize.NRotator 0 (inject_Z 90) 0)
  /\ (exists e, Normalize.normalize_property_value (fun _ => None)
                  (Py.VDict [("yaw", Py.VStr "abc")]) "" = Py.Raise e).
Proof.
  split.
  - destruct (rotator_dict_encoding (fun _ => None) Proto.int64_fits "" [("yaw", Py.VInt 90)]
                eq_refl eq_refl eq_refl) as [_ [Hn _]].
    apply Hn; reflexivity.
  - destruct (rotator_dict_encoding (fun _ => None) Proto.int64_fits ""
                [("yaw", Py.VStr "abc")] eq_refl eq_refl eq_refl) as [_ [_ [Hr _]]].
    apply (Hr "yaw" (Py.ValueError "could not convert string to float"));
      [simpl; tauto | reflexivity].
Defined.

(** The example of C3 for the TypedValue encoder: [{"yaw": 90}] is
    encoded as a Struct holding the integer 90 under "yaw", not as a
    Rotator. *)
Lemma yaw_only_dict_is_struct :
  Codec.set_property_value (fun _ => None) Proto.int64_fits (Py.VDict [("yaw", Py.VInt 90)])
  = Py.Ok (Proto.with_struct [("yaw", Proto.with_int 90 (Proto.with_type 2 Proto.pv0))]
                             (Proto.with_type 12 Proto.pv0))
  /\ Proto.pv_type (Proto.with_struct [("yaw", Proto.with_int 90 (Proto.with_type 2 Proto.pv0))]
                                      (Proto.with_type 12 Proto.pv0)) <> 7%Z.
Proof. split; [reflexivity | discriminate]. Qed.




Module RoundTripFacts.
Import Py Proto Codec CodecLoops Spec.

(** *** The codec's loops *)

Lemma set_struct_eq (fos : string -> option Q) (fits : Z -> bool) d :
  (has_key "x" d && has_key "y" d && has_key "z" d && Nat.eqb (List.length d) 3) = false ->
  (has_key "pitch" d && has_key "yaw" d && has_key "roll" d) = false ->
  (has_key "r" d && has_key "g" d && has_key "b" d) = false ->
  set_property_value fos fits (VDict d)
  = sv <- set_fields fos fits d;; Ok (with_struct sv (with_type 12 pv0)).
Proof.
  intros Hv Hp Hc. simpl. rewrite Hv, Hp, Hc. f_equal.
  clear Hv Hp Hc. induction d as [|[k v] t IH]; simpl; [reflexivity|].
  destruct (set_property_value fos fits v); simpl; [rewrite IH|]; reflexivity.
Qed.

Lemma set_list_eq (fos : string -> option Q) (fits : Z -> bool) xs :
  set_property_value fos fits (VList xs)
  = av <- set_items fos fits xs;; Ok (with_array av (with_type 13 pv0)).
Proof.
  simpl. f_equal. induction xs as [|v t IH]; simpl; [reflexivity|].
  destruct (set_property_value fos fits v); simpl; [rewrite IH|]; reflexivity.
Qed.



(** *** Python [==] *)




(** *** Dict lookups *)








(** *** Decoding the fields of a struct *)






End RoundTripFacts.

Module RoundTripShapes.
Import Py Proto Codec CodecLoops Spec RoundTripFacts.








End RoundTripShapes.




Module DecoderFacts.
Import Py Proto Codec CodecLoops ExtractLoops Spec.

Lemma to_dict_12 bv iv fv sv vv rv tv cv op svs avs en ev :
  property_value_to_dict (mkPV 12 bv iv fv sv vv rv tv cv op svs avs en ev)
  = decode_fields svs [].
Proof. reflexivity. Qed.

Lemma extract_12 bv iv fv sv vv rv tv cv op kv svs avs en ev :
  extract_property_value (mkPV 12 bv iv fv sv vv rv tv cv op (kv :: svs) avs en ev)
  = VDict (extract_fields (kv :: svs) []).
Proof. reflexivity. Qed.

Lemma to_dict_13 bv iv fv sv vv rv tv cv op svs avs en ev :
  property_value_to_dict (mkPV 13 bv iv fv sv vv rv tv cv op svs avs en ev)
  = ws <- decode_items avs;; Ok (VList ws).
Proof. reflexivity. Qed.

Lemma fields_agree l :
  Forall (fun kv => property_value_to_dict (snd kv) = Ok (extract_property_value (snd kv))) l ->
  forall acc, decode_fields l acc = Ok (VDict (extract_fields l acc)).
Proof.
  intros H. induction H as [|[k x] l Hx _ IH]; intros acc; simpl in *; [reflexivity|].
  rewrite Hx. simpl. apply IH.
Qed.

Lemma items_agree l :
  Forall (fun x => property_value_to_dict x = Ok (extract_property_value x)) l ->
  decode_items l = Ok (map extract_property_value l).
Proof.
  intros H. induction H as [|x l Hx _ IH]; simpl; [reflexivity|].
  rewrite Hx. simpl. rewrite IH. reflexivity.
Qed.

Lemma decode_fields_dict l acc w : decode_fields l acc = Ok w -> exists d, w = VDict d.
Proof.
  revert acc. induction l as [|[k x] l IH]; intros acc; simpl.
  - intros H; inversion H; eauto.
  - destruct (property_value_to_dict x); simpl; [apply IH | discriminate].
Qed.

Lemma forall_of_forallb {A} (P : A -> Prop) (f : A -> bool) l :
  Forall (fun a => f a = true -> P a) l -> forallb f l = true -> Forall P l.
Proof.
  intros H Hf. rewrite forallb_forall in Hf. rewrite Forall_forall in H |- *.
  intros a Ha. exact (H a Ha (Hf a Ha)).
Qed.

Lemma same_decoding_agree pv :
  same_decoding pv = true -> property_value_to_dict pv = Ok (extract_property_value pv).
Proof.
  induction pv as [pv Hs Ha] using PVInd.pv_ind'.
  destruct pv as [t bv iv fv sv vv rv tv cv op svs avs en ev]. simpl in Hs, Ha.
  intros H. simpl in H.
  repeat match goal with H : _ || _ = true |- _ => apply orb_true_iff in H; destruct H as [H|H] end.
  - apply andb_prop in H. destruct H as [H1 H2].
    apply Z.leb_le in H1, H2.
    assert (t = 0 \/ t = 1 \/ t = 2 \/ t = 3 \/ t = 4 \/ t = 5 \/ t = 6)%Z as Ht by lia.
    repeat destruct Ht as [->|Ht]; [reflexivity ..|subst; reflexivity].
  - apply Z.eqb_eq in H. subst. reflexivity.
  - apply andb_prop in H. destruct H as [H H3]. apply andb_prop in H. destruct H as [H H2].
    apply negb_true_iff in H2. apply String.eqb_eq in H3. subst sv.
    apply orb_true_iff in H. destruct H as [H|H]; apply Z.eqb_eq in H; subst; simpl;
      rewrite H2; reflexivity.
  - apply andb_prop in H. destruct H as [Ht H]. apply Z.eqb_eq in Ht. subst t.
    destruct svs as [|kv svs].
    + apply String.eqb_eq in H. subst sv. reflexivity.
    + rewrite to_dict_12, extract_12. apply fields_agree.
      exact (forall_of_forallb _ _ _ Hs H).
  - apply andb_prop in H. destruct H as [Ht H]. apply Z.eqb_eq in Ht. subst t.
    rewrite to_dict_13. destruct avs as [|x avs].
    + apply String.eqb_eq in H. subst sv. reflexivity.
    + rewrite (items_agree _ (forall_of_forallb _ _ _ Ha H)). reflexivity.
Qed.

Lemma decoders_differ pv w :
  (pv_type pv = 8 \/ pv_type pv = 14 \/ pv_type pv = 15)%Z ->
  property_value_to_dict pv = Ok w -> py_eq w (extract_property_value pv) = false.
Proof.
  destruct pv as [t bv iv fv sv vv rv tv cv op svs avs en ev]. simpl.
  intros [Ht|[Ht|Ht]]; subst t; simpl.
  - intros H. inversion H. reflexivity.
  - intros H. apply decode_fields_dict in H. destruct H as [d ->]. reflexivity.
  - intros H. inversion H. reflexivity.
Qed.

End DecoderFacts.

(** C10 (as the code does it): the two decoders [_property_value_to_dict]
    and [_extract_property_value] return the same value on the scalar tags
    0-6 and on Color (9), on Object and Class (10, 11) whose object path is
    set and equal to the string value, and on Struct (12) and Array (13)
    whose members all agree, or which are empty with an empty string value,
    at any depth.  They never agree, not even under Python [==], on
    Transform (8): [_property_value_to_dict] gives lists for location,
    rotation and scale where [_extract_property_value] gives dicts; nor on
    Map (14) and Enum (15), which [_extract_property_value] returns as the
    string value. *)
Theorem decoders_agreement :
  (forall pv, Spec.same_decoding pv = true ->
     Codec.property_value_to_dict pv = Py.Ok (Codec.extract_property_value pv))
  /\ (forall pv w, (Proto.pv_type pv = 8 \/ Proto.pv_type pv = 14 \/ Proto.pv_type pv = 15)%Z ->
     Codec.property_value_to_dict pv = Py.Ok w ->
     Py.py_eq w (Codec.extract_property_value pv) = false).
Proof.
  split; [exact DecoderFacts.same_decoding_agree | exact DecoderFacts.decoders_differ].
Qed.

Lemma decoders_agreement_witness :
  Codec.property_value_to_dict
    (Proto.with_struct [("n", Proto.with_int 1 (Proto.with_type 2 Proto.pv0))]
                       (Proto.with_type 12 Proto.pv0))
  = Py.Ok (Codec.extract_property_value
             (Proto.with_struct [("n", Proto.with_int 1 (Proto.with_type 2 Proto.pv0))]
                                (Proto.with_type 12 Proto.pv0)))
  /\ Py.py_eq (Py.VDict [("location", Py.VList [Py.VFloat 0; Py.VFloat 0; Py.VFloat 0]);
                         ("rotation", Py.VList [Py.VFloat 0; Py.VFloat 0; Py.VFloat 0]);
                         ("scale", Py.VList [Py.VFloat 0; Py.VFloat 0; Py.VFloat 0])])
              (Codec.extract_property_value (Proto.with_type 8 Proto.pv0)) = false.
Proof.
  split.
  - apply (proj1 decoders_agreement). reflexivity.
  - apply (proj2 decoders_agreement (Proto.with_type 8 Proto.pv0)); [left; reflexivity|].
    reflexivity.
Defined.

(** Against C10: on the Transform [with_type 8 pv0] the decoders return
    different values. *)
Lemma transform_decoders_differ :
  exists w, Codec.property_value_to_dict (Proto.with_type 8 Proto.pv0) = Py.Ok w
            /\ w <> Codec.extract_property_value (Proto.with_type 8 Proto.pv0)
            /\ Py.py_eq w (Codec.extract_property_value (Proto.with_type 8 Proto.pv0)) = false.
Proof.
  eexists. split; [reflexivity|]. split; [discriminate | reflexivity].
Qed.

Module LoadFacts.
Import Router Spec.

Lemma load_fold (MODULES : list (string * list string)) (already : list string) req en nl nt :
  fold_left (fun '(en, nl, nt) m =>
               if mem m already then (en, nl, nt)
               else match aget m MODULES with
                    | None => (en, nl, nt)
                    | Some ts => (en ++ [m], nl ++ [m], nt ++ ts)
                    end)%list
            req (en, nl, nt)
  = (en ++ filter (loadable MODULES already) req,
     nl ++ filter (loadable MODULES already) req,
     nt ++ concat (map (fun m => match aget m MODULES with Some ts => ts | None => [] end)
                       (filter (loadable MODULES already) req)))%list.
Proof.
  revert en nl nt. induction req as [|m req IH]; intros en nl nt; simpl.
  - rewrite !app_nil_r. reflexivity.
  - destruct (mem m already) eqn:Hm.
    + replace (loadable MODULES already m) with false
        by (unfold loadable; rewrite Hm; reflexivity).
      apply IH.
    + destruct (aget m MODULES) as [ts|] eqn:Ha.
      * replace (loadable MODULES already m) with true
          by (unfold loadable; rewrite Hm, Ha; reflexivity).
        rewrite IH. simpl. rewrite Ha, <- !app_assoc. reflexivity.
      * replace (loadable MODULES already m) with false
          by (unfold loadable; rewrite Hm, Ha; reflexivity).
        apply IH.
Qed.

Lemma mem_app x a b : mem x (a ++ b)%list = mem x a || mem x b.
Proof. unfold mem. apply existsb_app. Qed.

Lemma mem_in x l : In x l -> mem x l = true.
Proof.
  intros H. unfold mem. apply existsb_exists. exists x. split; [exact H | apply String.eqb_refl].
Qed.

Lemma filter_none {A} (f : A -> bool) l : (forall x, In x l -> f x = false) -> filter f l = [].
Proof.
  induction l as [|x l IH]; simpl; intros H; [reflexivity|].
  rewrite H by (left; reflexivity). apply IH. intros y Hy. apply H. right. exact Hy.
Qed.

(** Requesting again what was just loaded activates nothing. *)
Lemma reload_nothing (MODULES : list (string * list string)) en req :
  filter (loadable MODULES (en ++ filter (loadable MODULES en) req)%list) req = [].
Proof.
  apply filter_none. intros m Hm. unfold loadable. rewrite mem_app.
  destruct (mem m en) eqn:Hen; [reflexivity|].
  destruct (aget m MODULES) eqn:Ha; [|apply andb_false_r].
  rewrite (mem_in m (filter _ req)); [reflexivity|].
  apply filter_In. split; [exact Hm|]. unfold loadable. rewrite Hen, Ha. reflexivity.
Qed.

Lemma handle_load_modules_eq {Client} MODULES registry (st : state Client) req :
  handle_load_modules Client MODULES registry st req
  = let F := filter (loadable MODULES (enabled_modules st)) req in
    let enabled := (enabled_modules st ++ F)%list in
    let st' := match F with
               | [] => mkState Client enabled (services st) (clients st) (tool_to_service st)
               | _ => mkState Client enabled (get_filtered_services MODULES registry enabled)
                        (clients st)
                        (build_index (get_filtered_services MODULES registry enabled))
               end in
    (mkLoadResult F
       (concat (map (fun m => match aget m MODULES with Some ts => ts | None => [] end) F))
       (List.length enabled) (List.length (tool_to_service st') + 1), st').
Proof.
  unfold handle_load_modules. rewrite load_fold. simpl. reflexivity.
Qed.

End LoadFacts.

(** C2: [_handle_load_modules] activates and reports exactly the requested
    names that are in the catalog and not active yet, in request order,
    and skips the others without error; calling it again with the same
    request reports no loaded module, leaves [total_modules] and
    [total_tools] as the first call returned them, and leaves the state
    unchanged. *)
Theorem load_modules_idempotent {Client : Type} (MODULES registry : list (string * list string))
    (st : Router.state Client) (req : list string) :
  let r := fst (Router.handle_load_modules Client MODULES registry st req) in
  let st' := snd (Router.handle_load_modules Client MODULES registry st req) in
  let r2 := fst (Router.handle_load_modules Client MODULES registry st' req) in
  Router.loaded_modules r = filter (Spec.loadable MODULES (Router.enabled_modules st)) req
  /\ Router.enabled_modules st' = (Router.enabled_modules st ++ Router.loaded_modules r)%list
  /\ Router.loaded_modules r2 = []
  /\ Router.total_modules r2 = Router.total_modules r
  /\ Router.total_tools r2 = Router.total_tools r
  /\ snd (Router.handle_load_modules Client MODULES registry st' req) = st'.
Proof.
  cbv zeta. rewrite !LoadFacts.handle_load_modules_eq. cbv zeta.
  pose proof (LoadFacts.reload_nothing MODULES (Router.enabled_modules st) req) as H2.
  destruct (filter (Spec.loadable MODULES (Router.enabled_modules st)) req) as [|m F'] eqn:HF;
    try rewrite HF in H2; simpl; rewrite H2; simpl; rewrite ?app_nil_r;
    repeat split; reflexivity.
Qed.

Module CallFacts.
Import Py Router Spec.

Lemma mem_true_in x l : mem x l = true -> In x l.
Proof.
  unfold mem. intros H. apply existsb_exists in H. destruct H as [y [Hy Heq]].
  apply String.eqb_eq in Heq. subst. exact Hy.
Qed.

Lemma mem_false x l : ~ In x l -> mem x l = false.
Proof.
  intros H. destruct (mem x l) eqn:E; [|reflexivity]. apply mem_true_in in E. contradiction.
Qed.

Lemma nodupb_app_r a b : nodupb (a ++ b)%list = true -> nodupb b = true.
Proof.
  induction a as [|x a IH]; simpl; [tauto|].
  intros H. apply andb_prop in H. apply IH. apply H.
Qed.

Lemma nodupb_app_disj a b x : nodupb (a ++ b)%list = true -> In x a -> In x b -> False.
Proof.
  induction a as [|y a IH]; simpl; [tauto|].
  intros H [<-|Ha] Hb; apply andb_prop in H; destruct H as [Hn H].
  - rewrite (LoadFacts.mem_in y (a ++ b)%list) in Hn; [discriminate|].
    apply in_or_app. right. exact Hb.
  - exact (IH H Ha Hb).
Qed.

Lemma module_for_tool_unique MODULES m ts name :
  nodupb (concat (map snd MODULES)) = true -> In (m, ts) MODULES -> In name ts ->
  module_for_tool MODULES name = Some m.
Proof.
  unfold module_for_tool. induction MODULES as [|[m0 ts0] rest IH]; simpl; [tauto|].
  intros Hn Hin Hname.
  destruct (mem name ts0) eqn:E.
  - destruct Hin as [Heq|Hin]; [inversion Heq; reflexivity|].
    exfalso. apply (nodupb_app_disj ts0 (concat (map snd rest)) name Hn).
    + exact (mem_true_in _ _ E).
    + apply in_concat. exists ts. split; [|exact Hname].
      apply in_map_iff. exists (m, ts). split; [reflexivity | exact Hin].
  - destruct Hin as [Heq|Hin].
    + inversion Heq; subst. rewrite (LoadFacts.mem_in _ _ Hname) in E. discriminate.
    + exact (IH (nodupb_app_r _ _ Hn) Hin Hname).
Qed.

Lemma in_catalog (MODULES : list (string * list string)) m ts (name : string) :
  In (m, ts) MODULES -> In name ts -> In name (concat (map snd MODULES)).
Proof.
  intros Hin Hname. apply in_concat. exists ts. split; [|exact Hname].
  apply in_map_iff. exists (m, ts). split; [reflexivity | exact Hin].
Qed.

Section Calls.
Variables Client Args : Type.
Variables MODULES registry : list (string * list string).
Variable host : string.
Variable port : Z.
Variable connect : string -> string -> Z -> result Client.
Variable execute : string -> Client -> string -> Args -> result string.
Variable modules_arg : Args -> list string.

Let call := handle_tools_call Client Args MODULES registry host port connect execute modules_arg.
Let loop := run Client Args MODULES registry host port connect execute modules_arg.

(** A call that returns a result gets its response, and the loop goes on. *)
Lemma run_call st id name args rest r st' :
  call st name args = Ok (r, st') ->
  loop st (ToolsCall id name args :: rest)
  = (CallResponse id r :: fst (loop st' rest), snd (loop st' rest)).
Proof.
  intros H. unfold loop. simpl. unfold call in H. rewrite H.
  destruct (run Client Args MODULES registry host port connect execute modules_arg st' rest).
  reflexivity.
Qed.

Lemma get_client_total st sname :
  (forall s e, connect s host port = Raise e -> is_Exception e = true) ->
  exists c st1, get_client Client host port connect st sname = Ok (c, st1)
                /\ services st1 = services st.
Proof.
  intros Hc. unfold get_client.
  destruct (aget sname (clients st)); [eauto|].
  destruct (aget sname (services st)); [|eauto].
  destruct (connect sname host port) as [c|e] eqn:E; [eexists _, _; split; reflexivity|].
  rewrite (Hc _ _ E). eauto.
Qed.

Lemma call_unresolved st name args :
  name <> "load_modules" -> aget name (tool_to_service st) = None ->
  call st name args
  = Ok (mkToolResult
          (PJsonError (if mem name (concat (map snd MODULES)) then
                         not_loaded_message name
                           (match module_for_tool MODULES name with Some m => m | None => "None" end)
                       else "Unknown tool: " ++ name)) true, st).
Proof.
  intros Hn Hi. unfold call, handle_tools_call.
  apply String.eqb_neq in Hn. rewrite Hn, Hi.
  destruct (mem name (concat (map snd MODULES))); reflexivity.
Qed.

Lemma call_total st name args :
  name <> "load_modules" ->
  (forall s e, connect s host port = Raise e -> is_Exception e = true) ->
  (forall s c e, execute s c name args = Raise e -> is_Exception e = true) ->
  exists r st', call st name args = Ok (r, st')
    /\ (isError r = true
        \/ exists s c text, execute s c name args = Ok text
                            /\ r = mkToolResult (PText text) false).
Proof.
  intros Hn Hc He.
  destruct (aget name (tool_to_service st)) as [sname|] eqn:Hi.
  2:{ rewrite (call_unresolved st name args Hn Hi). eauto. }
  unfold call, handle_tools_call. apply String.eqb_neq in Hn. rewrite Hn, Hi.
  destruct sname as [|a s'].
  { destruct (mem name (concat (map snd MODULES))); eauto. }
  destruct (get_client_total st (String a s') Hc) as [client [st1 [Hg _]]].
  rewrite Hg. simpl.
  destruct client as [c|]; [|eauto].
  destruct (aget (String a s') (services st1)); [|simpl; eauto].
  destruct (execute (String a s') c name args) as [text|e] eqn:Ex.
  - eexists _, _. split; [reflexivity|]. right. eauto.
  - rewrite (He _ _ _ Ex). eauto.
Qed.

Lemma get_client_services st sname c st1 :
  get_client Client host port connect st sname = Ok (c, st1) -> services st1 = services st.
Proof.
  unfold get_client.
  destruct (aget sname (clients st)); [intros H; inversion H; reflexivity|].
  destruct (aget sname (services st)); [|intros H; inversion H; reflexivity].
  destruct (connect sname host port) as [c'|e]; [intros H; inversion H; reflexivity|].
  destruct (is_Exception e); intros H; inversion H; reflexivity.
Qed.

Lemma get_client_raise st sname e :
  get_client Client host port connect st sname = Raise e -> is_Exception e = false.
Proof.
  unfold get_client.
  destruct (aget sname (clients st)); [intros H; discriminate H|].
  destruct (aget sname (services st)); [|intros H; discriminate H].
  destruct (connect sname host port) as [c'|e']; [intros H; discriminate H|].
  destruct (is_Exception e') eqn:E; intros H; [discriminate H|].
  inversion H. subst. exact E.
Qed.

(** The message of a routed call whose service has no client. *)
Lemma call_connect_raises st name args sname ts e :
  name <> "load_modules" -> aget name (tool_to_service st) = Some sname -> sname <> "" ->
  aget sname (clients st) = None -> aget sname (services st) = Some ts ->
  connect sname host port = Raise e ->
  call st name args
  = if is_Exception e then
      Ok (mkToolResult (PJsonError ("Not connected to " ++ sname ++ " at " ++ host ++
            ":" ++ Codec.z_repr port ++
            ". Make sure Unreal Editor is running with the appropriate plugin.")) true, st)
    else Raise e.
Proof.
  intros Hn Hi Hs Hc Hsv Hx. unfold call, handle_tools_call.
  apply String.eqb_neq in Hn. rewrite Hn, Hi.
  destruct sname as [|a s']; [congruence|].
  unfold get_client. rewrite Hc, Hsv, Hx. destruct (is_Exception e); reflexivity.
Qed.

Lemma call_execute_raises st name args sname c st1 ts e :
  name <> "load_modules" -> aget name (tool_to_service st) = Some sname -> sname <> "" ->
  get_client Client host port connect st sname = Ok (Some c, st1) ->
  aget sname (services st) = Some ts ->
  execute sname c name args = Raise e ->
  call st name args
  = if is_Exception e then Ok (mkToolResult (PJsonError (exc_msg e)) true, st1) else Raise e.
Proof.
  intros Hn Hi Hs Hg Hsv Hx. pose proof (get_client_services _ _ _ _ Hg) as Hsv1.
  unfold call, handle_tools_call.
  apply String.eqb_neq in Hn. rewrite Hn, Hi.
  destruct sname as [|a s']; [congruence|].
  rewrite Hg. cbn [bind]. rewrite Hsv1, Hsv, Hx. reflexivity.
Qed.

(** A call to a tool other than [load_modules] raises only exceptions that
    do not derive from [Exception]. *)
Lemma call_raise_base st name args e :
  name <> "load_modules" -> call st name args = Raise e -> is_Exception e = false.
Proof.
  intros Hn. unfold call, handle_tools_call.
  apply String.eqb_neq in Hn. rewrite Hn.
  destruct (aget name (tool_to_service st)) as [[|a s']|];
    [destruct (mem name (concat (map snd MODULES))); intros H; discriminate H | |
     destruct (mem name (concat (map snd MODULES))); intros H; discriminate H].
  destruct (get_client Client host port connect st (String a s')) as [[cl st1]|e'] eqn:Hg;
    cbn [bind].
  - destruct cl as [c|]; [|intros H; discriminate H].
    destruct (aget (String a s') (services st1)).
    + destruct (execute (String a s') c name args) as [t|e0]; [intros H; discriminate H|].
      destruct (is_Exception e0) eqn:E0; intros H; [discriminate H|].
      inversion H. subst. exact E0.
    + intros H. discriminate H.
  - intros H. inversion H. subst. exact (get_client_raise _ _ _ Hg).
Qed.

(** A call that raises such an exception ends the loop: with
    [Interrupted] for [KeyboardInterrupt], else by propagating it. *)
Lemma run_raise st id name args rest e :
  call st name args = Raise e -> is_Exception e = false ->
  loop st (ToolsCall id name args :: rest)
  = ([], if String.eqb (exc_class e) "KeyboardInterrupt" then Interrupted else Crashed e).
Proof.
  intros H He. unfold loop. simpl. unfold call in H. rewrite H.
  destruct (String.eqb (exc_class e) "KeyboardInterrupt"); [reflexivity|].
  rewrite He. reflexivity.
Qed.

End Calls.
End CallFacts.

(** C1 (as the code does it): for a [tools/call] of a tool other than
    [load_modules] whose name is not in the active tool index, the result
    is the error ([isError] true) "Tool '<name>' is not loaded. Load module
    '<m>' first: load_modules(modules=["<m>"])" naming the catalog module
    [m] that lists the tool (catalog tool names being distinct), and the
    error "Unknown tool: <name>" for a name in no catalog module.  For a
    routed tool, an exception deriving from [Exception] that [connect]
    raises gives the "Not connected to ..." error, and one that [execute]
    raises gives the error with its message, both with [isError] true; so
    when [connect] and [execute] raise nothing else the call always returns
    a result, the dispatch loop answers it and goes on with the next
    message.  An exception that does not derive from [Exception] is not
    caught: the call raises it, and it is the only kind the call can
    raise; the loop then stops without answering, as [Interrupted] for
    [KeyboardInterrupt] and by propagating any other one. *)
Theorem tools_call_error_results {Client Args : Type}
    (MODULES registry : list (string * list string)) (host : string) (port : Z)
    (connect : string -> string -> Z -> Py.result Client)
    (execute : string -> Client -> string -> Args -> Py.result string)
    (modules_arg : Args -> list string)
    (st : Router.state Client) (name : string) (args : Args) :
  name <> "load_modules" ->
  (Router.aget name (Router.tool_to_service st) = None ->
   Spec.nodupb (concat (map snd MODULES)) = true ->
   forall m ts, In (m, ts) MODULES -> In name ts ->
   Router.handle_tools_call Client Args MODULES registry host port connect execute modules_arg
     st name args
   = Py.Ok (Router.mkToolResult (Router.PJsonError (Router.not_loaded_message name m)) true, st))
  /\ (Router.aget name (Router.tool_to_service st) = None ->
      ~ In name (concat (map snd MODULES)) ->
      Router.handle_tools_call Client Args MODULES registry host port connect execute modules_arg
        st name args
      = Py.Ok (Router.mkToolResult (Router.PJsonError ("Unknown tool: " ++ name)) true, st))
  /\ ((forall s e, connect s host port = Py.Raise e -> Py.is_Exception e = true) ->
      (forall s c e, execute s c name args = Py.Raise e -> Py.is_Exception e = true) ->
      exists r st',
        Router.handle_tools_call Client Args MODULES registry host port connect execute modules_arg
          st name args = Py.Ok (r, st')
        /\ (Router.isError r = true
            \/ exists s c text, execute s c name args = Py.Ok text
                                /\ r = Router.mkToolResult (Router.PText text) false)
        /\ forall id rest,
             Router.run Client Args MODULES registry host port connect execute modules_arg
               st (Router.ToolsCall id name args :: rest)
             = (Router.CallResponse id r
                  :: fst (Router.run Client Args MODULES registry host port connect execute
                            modules_arg st' rest),
                snd (Router.run Client Args MODULES registry host port connect execute
                       modules_arg st' rest)))
  /\ (forall sname, Router.aget name (Router.tool_to_service st) = Some sname -> sname <> "" ->
      (forall ts e, Router.aget sname (Router.clients st) = None ->
         Router.aget sname (Router.services st) = Some ts ->
         connect sname host port = Py.Raise e ->
         Router.handle_tools_call Client Args MODULES registry host port connect execute
           modules_arg st name args
         = if Py.is_Exception e then
             Py.Ok (Router.mkToolResult
                      (Router.PJsonError ("Not connected to " ++ sname ++ " at " ++ host ++
                         ":" ++ Codec.z_repr port ++
                         ". Make sure Unreal Editor is running with the appropriate plugin."))
                      true, st)
           else Py.Raise e)
      /\ (forall c st1 ts e,
            Router.get_client Client host port connect st sname = Py.Ok (Some c, st1) ->
            Router.aget sname (Router.services st) = Some ts ->
            execute sname c name args = Py.Raise e ->
            Router.handle_tools_call Client Args MODULES registry host port connect execute
              modules_arg st name args
            = if Py.is_Exception e then
                Py.Ok (Router.mkToolResult (Router.PJsonError (Py.exc_msg e)) true, st1)
              else Py.Raise e))
  /\ (forall e,
        Router.handle_tools_call Client Args MODULES registry host port connect execute
          modules_arg st name args = Py.Raise e ->
        Py.is_Exception e = false
        /\ forall id rest,
             Router.run Client Args MODULES registry host port connect execute modules_arg
               st (Router.ToolsCall id name args :: rest)
             = ([], if String.eqb (Py.exc_class e) "KeyboardInterrupt" then Router.Interrupted
                    else Router.Crashed e)).
Proof.
  intros Hn. split; [|split; [|split; [|split]]].
  - intros Hi Hu m ts Hin Hname.
    rewrite (CallFacts.call_unresolved Client Args MODULES registry host port connect execute
               modules_arg st name args Hn Hi).
    rewrite (LoadFacts.mem_in _ _ (CallFacts.in_catalog _ _ _ _ Hin Hname)).
    rewrite (CallFacts.module_for_tool_unique _ _ _ _ Hu Hin Hname). reflexivity.
  - intros Hi Hnot.
    rewrite (CallFacts.call_unresolved Client Args MODULES registry host port connect execute
               modules_arg st name args Hn Hi).
    rewrite (CallFacts.mem_false _ _ Hnot). reflexivity.
  - intros Hc He.
    destruct (CallFacts.call_total Client Args MODULES registry host port connect execute
                modules_arg st name args Hn Hc He) as [r [st' [Hcall Hr]]].
    exists r, st'. split; [exact Hcall|]. split; [exact Hr|].
    intros id rest. exact (CallFacts.run_call Client Args MODULES registry host port connect
                             execute modules_arg st id name args rest r st' Hcall).
  - intros sname Hi Hs. split.
    + intros ts e Hc Hsv Hx.
      exact (CallFacts.call_connect_raises Client Args MODULES registry host port connect
               execute modules_arg st name args sname ts e Hn Hi Hs Hc Hsv Hx).
    + intros c st1 ts e Hg Hsv Hx.
      exact (CallFacts.call_execute_raises Client Args MODULES registry host port connect
               execute modules_arg st name args sname c st1 ts e Hn Hi Hs Hg Hsv Hx).
  - intros e H.
    pose proof (CallFacts.call_raise_base Client Args MODULES registry host port connect
                  execute modules_arg st name args e Hn H) as He.
    split; [exact He|]. intros id rest.
    exact (CallFacts.run_raise Client Args MODULES registry host port connect execute
             modules_arg st id name args rest e H He).
Qed.

Lemma tools_call_error_results_witness :
  Router.handle_tools_call unit unit Router.MODULES Fixtures.fx_registry "localhost" 50051
    Fixtures.fx_connect Fixtures.fx_execute_failing Fixtures.fx_modules_arg
    Fixtures.fx_state "play_in_editor" tt
  = Py.Ok (Router.mkToolResult
             (Router.PJsonError (Router.not_loaded_message "play_in_editor" "editor")) true,
           Fixtures.fx_state)
  /\ Router.handle_tools_call unit unit Router.MODULES Fixtures.fx_registry "localhost" 50051
       Fixtures.fx_connect Fixtures.fx_execute_failing Fixtures.fx_modules_arg
       Fixtures.fx_state "spawn_blueprint" tt
     = Py.Ok (Router.mkToolResult (Router.PJsonError ("Unknown tool: spawn_blueprint")) true,
              Fixtures.fx_state)
  /\ Router.handle_tools_call unit unit Router.MODULES Fixtures.fx_registry "localhost" 50051
       Fixtures.fx_connect Fixtures.fx_execute_failing Fixtures.fx_modules_arg
       Fixtures.fx_state "get_actor" tt
     = Py.Ok (Router.mkToolResult (Router.PJsonError "boom") true, Fixtures.fx_state)
  /\ Router.run unit unit Router.MODULES Fixtures.fx_registry "localhost" 50051
       Fixtures.fx_connect Fixtures.fx_execute_interrupted Fixtures.fx_modules_arg
       Fixtures.fx_state [Router.ToolsCall 1 "get_actor" tt; Router.OtherMethod 2 "ping"]
     = ([], Router.Interrupted).
Proof.
  split; [|split; [|split]].
  - destruct (tools_call_error_results (Client := unit) (Args := unit) Router.MODULES
                Fixtures.fx_registry "localhost" 50051 Fixtures.fx_connect
                Fixtures.fx_execute_failing Fixtures.fx_modules_arg Fixtures.fx_state
                "play_in_editor" tt ltac:(discriminate)) as [H1 _].
    apply (H1 eq_refl ltac:(vm_compute; reflexivity) "editor"
             (snd (nth 2 Router.MODULES ("", [])))).
    + simpl. right. right. left. reflexivity.
    + simpl. left. reflexivity.
  - destruct (tools_call_error_results (Client := unit) (Args := unit) Router.MODULES
                Fixtures.fx_registry "localhost" 50051 Fixtures.fx_connect
                Fixtures.fx_execute_failing Fixtures.fx_modules_arg Fixtures.fx_state
                "spawn_blueprint" tt ltac:(discriminate)) as [_ [H2 _]].
    apply (H2 eq_refl). intros Hin. apply LoadFacts.mem_in in Hin.
    vm_compute in Hin. discriminate Hin.
  - destruct (tools_call_error_results (Client := unit) (Args := unit) Router.MODULES
                Fixtures.fx_registry "localhost" 50051 Fixtures.fx_connect
                Fixtures.fx_execute_failing Fixtures.fx_modules_arg Fixtures.fx_state
                "get_actor" tt ltac:(discriminate)) as [_ [_ [_ [H4 _]]]].
    exact (proj2 (H4 "agentbridge" eq_refl ltac:(discriminate)) tt Fixtures.fx_state
             ["get_actor"] (Py.mkExc "RuntimeError" true "boom") eq_refl eq_refl eq_refl).
  - destruct (tools_call_error_results (Client := unit) (Args := unit) Router.MODULES
                Fixtures.fx_registry "localhost" 50051 Fixtures.fx_connect
                Fixtures.fx_execute_interrupted Fixtures.fx_modules_arg Fixtures.fx_state
                "get_actor" tt ltac:(discriminate)) as [_ [_ [_ [_ H5]]]].
    exact (proj2 (H5 (Py.mkExc "KeyboardInterrupt" false "") eq_refl) 1%Z
             [Router.OtherMethod 2 "ping"]).
Defined.

(** Against C1: an [execute] interrupted by [KeyboardInterrupt] is not
    turned into an error result; the exception leaves [_handle_tools_call]
    and the loop stops without answering the call or the next message. *)
Lemma keyboard_interrupt_stops_loop :
  Router.handle_tools_call unit unit Router.MODULES Fixtures.fx_registry "localhost" 50051
    Fixtures.fx_connect Fixtures.fx_execute_interrupted Fixtures.fx_modules_arg
    Fixtures.fx_state "get_actor" tt
  = Py.Raise (Py.mkExc "KeyboardInterrupt" false "")
  /\ Router.run unit unit Router.MODULES Fixtures.fx_registry "localhost" 50051
       Fixtures.fx_connect Fixtures.fx_execute_interrupted Fixtures.fx_modules_arg
       Fixtures.fx_state [Router.ToolsCall 1 "get_actor" tt; Router.OtherMethod 2 "ping"]
     = ([], Router.Interrupted).
Proof. split; reflexivity. Qed.

(** * Properties of the rest of the router and of the server *)

Module RouterFacts.
Import Py Router RouterInv.

(** *** String-keyed dicts *)

Lemma aget_aset {A} (k k' : string) (v : A) l :
  aget k' (aset k v l) = if String.eqb k' k then Some v else aget k' l.
Proof.
  induction l as [|[k0 v0] l IH]; simpl.
  - destruct (String.eqb k' k); reflexivity.
  - destruct (String.eqb k k0) eqn:E; simpl.
    + apply String.eqb_eq in E. subst k0. destruct (String.eqb k' k); reflexivity.
    + destruct (String.eqb k' k0) eqn:E2; [|exact IH].
      apply String.eqb_eq in E2. subst k0.
      destruct (String.eqb k' k) eqn:E3; [|reflexivity].
      apply String.eqb_eq in E3. subst k. rewrite String.eqb_refl in E. discriminate.
Qed.

Lemma aget_in {A} k (v : A) l : aget k l = Some v -> In (k, v) l.
Proof.
  induction l as [|[k0 v0] l IH]; simpl; [discriminate|].
  destruct (String.eqb k k0) eqn:E.
  - intros H. inversion H. apply String.eqb_eq in E. subst. left. reflexivity.
  - intros H. right. exact (IH H).
Qed.

Lemma aget_none {A} k (l : list (string * A)) : aget k l = None <-> ~ In k (map fst l).
Proof.
  induction l as [|[k0 v0] l IH]; simpl; [tauto|].
  destruct (String.eqb k k0) eqn:E.
  - apply String.eqb_eq in E. subst. split; [discriminate | tauto].
  - apply String.eqb_neq in E. rewrite IH. split; [intros H [H1|H1]; [congruence | tauto] | tauto].
Qed.

Lemma aget_unique {A} k (v : A) l : NoDup (map fst l) -> In (k, v) l -> aget k l = Some v.
Proof.
  induction l as [|[k0 v0] l IH]; simpl; [tauto|].
  intros Hn Hin. inversion Hn as [|x y Hx Hn' Hxy]. subst.
  destruct Hin as [Heq|Hin].
  - inversion Heq. subst. rewrite String.eqb_refl. reflexivity.
  - destruct (String.eqb k k0) eqn:E; [|exact (IH Hn' Hin)].
    apply String.eqb_eq in E. subst. exfalso. apply Hx.
    apply in_map_iff. exists (k0, v). split; [reflexivity | exact Hin].
Qed.

Lemma keys_aset {A} x k (v : A) l : In x (map fst (aset k v l)) <-> x = k \/ In x (map fst l).
Proof.
  induction l as [|[k0 v0] l IH]; simpl; [firstorder congruence|].
  destruct (String.eqb k k0) eqn:E; simpl.
  - apply String.eqb_eq in E. subst. firstorder congruence.
  - rewrite IH. tauto.
Qed.

Lemma nodup_aset {A} k (v : A) l : NoDup (map fst l) -> NoDup (map fst (aset k v l)).
Proof.
  induction l as [|[k0 v0] l IH]; simpl; intros Hn.
  - constructor; [tauto | constructor].
  - inversion Hn as [|x y Hx Hn' Hxy]. subst.
    destruct (String.eqb k k0) eqn:E; simpl.
    + exact Hn.
    + constructor; [|exact (IH Hn')].
      rewrite keys_aset. apply String.eqb_neq in E. intros [H|H]; [congruence | tauto].
Qed.

Lemma mem_iff x l : mem x l = true <-> In x l.
Proof. split; [apply CallFacts.mem_true_in | apply LoadFacts.mem_in]. Qed.

Lemma filter_nonempty {A} (f : A -> bool) l : filter f l <> [] <-> exists x, In x l /\ f x = true.
Proof.
  split.
  - intros H. destruct (filter f l) as [|x r] eqn:E; [congruence|].
    exists x. apply filter_In. rewrite E. left. reflexivity.
  - intros [x Hx] E. apply filter_In in Hx. rewrite E in Hx. exact Hx.
Qed.

(** *** [get_enabled_tools] *)

Lemma enabled_tools_in MODULES ms t :
  In t (get_enabled_tools MODULES ms)
  <-> exists m ts, In m ms /\ aget m MODULES = Some ts /\ In t ts.
Proof.
  unfold get_enabled_tools. rewrite in_concat. split.
  - intros [l [Hl Ht]]. apply in_map_iff in Hl. destruct Hl as [m [Hm Hin]].
    destruct (aget m MODULES) as [ts|] eqn:E; rewrite <- Hm in Ht; [|destruct Ht].
    exists m, ts. auto.
  - intros [m [ts [Hm [Ha Ht]]]]. exists ts. split; [|exact Ht].
    apply in_map_iff. exists m. rewrite Ha. auto.
Qed.

Lemma enabled_tools_app MODULES a b :
  get_enabled_tools MODULES (a ++ b)%list
  = (get_enabled_tools MODULES a ++ get_enabled_tools MODULES b)%list.
Proof. unfold get_enabled_tools. rewrite map_app, concat_app. reflexivity. Qed.

(** *** [get_filtered_services] *)

Definition gfs_step (et : list string) (acc : list (string * list string))
    (p : string * list string) : list (string * list string) :=
  let '(name, tools) := p in
  match filter (fun t => mem t et) tools with
  | [] => acc
  | ts => aset name ts acc
  end.

Lemma gfs_unfold MODULES registry e :
  get_filtered_services MODULES registry e
  = fold_left (gfs_step (get_enabled_tools MODULES e)) registry [].
Proof. reflexivity. Qed.

Lemma gfs_step_aget et acc n tools s :
  aget s (gfs_step et acc (n, tools))
  = match filter (fun t => mem t et) tools with
    | [] => aget s acc
    | ts => if String.eqb s n then Some ts else aget s acc
    end.
Proof. simpl. destruct (filter _ tools); [reflexivity | apply aget_aset]. Qed.

Lemma gfs_fold_aget et reg acc s :
  NoDup (map fst reg) ->
  aget s (fold_left (gfs_step et) reg acc)
  = match aget s reg with
    | Some tools => match filter (fun t => mem t et) tools with
                    | [] => aget s acc
                    | ts => Some ts
                    end
    | None => aget s acc
    end.
Proof.
  revert acc. induction reg as [|[n tools] reg IH]; intros acc Hn;
    cbn [fold_left aget map fst] in Hn |- *; [reflexivity|].
  inversion Hn as [|x y Hx Hn' Hxy]. subst.
  rewrite (IH _ Hn'), gfs_step_aget.
  destruct (String.eqb s n) eqn:E.
  - apply String.eqb_eq in E. subst s.
    replace (aget n reg) with (@None (list string)) by (symmetry; apply aget_none; exact Hx).
    destruct (filter (fun t => mem t et) tools); reflexivity.
  - destruct (aget s reg) as [tools'|];
      [destruct (filter (fun t => mem t et) tools'); [|reflexivity]|];
      destruct (filter (fun t => mem t et) tools); reflexivity.
Qed.

Lemma gfs_fold_nodup et reg acc :
  NoDup (map fst acc) -> NoDup (map fst (fold_left (gfs_step et) reg acc)).
Proof.
  revert acc. induction reg as [|[n tools] reg IH]; intros acc Hn; cbn [fold_left]; [exact Hn|].
  apply IH. simpl. destruct (filter _ tools); [exact Hn | apply nodup_aset, Hn].
Qed.

Lemma gfs_nodup MODULES registry e : NoDup (map fst (get_filtered_services MODULES registry e)).
Proof. rewrite gfs_unfold. apply gfs_fold_nodup. constructor. Qed.

Lemma gfs_fold_values et reg acc s ts :
  aget s (fold_left (gfs_step et) reg acc) = Some ts ->
  aget s acc = Some ts
  \/ exists tools, In (s, tools) reg /\ ts = filter (fun t => mem t et) tools /\ ts <> [].
Proof.
  revert acc. induction reg as [|[n tools] reg IH]; intros acc H; cbn [fold_left] in H;
    [left; exact H|].
  destruct (IH _ H) as [H1|[tools' [Hin Ht]]]; [|right; exists tools'; split; [right|]; assumption].
  rewrite gfs_step_aget in H1.
  destruct (filter (fun t => mem t et) tools) as [|x r] eqn:Ef; [left; exact H1|].
  destruct (String.eqb s n) eqn:E; [|left; exact H1].
  apply String.eqb_eq in E. subst n. inversion H1. subst ts.
  right. exists tools. split; [left; reflexivity|]. rewrite Ef. split; [reflexivity | discriminate].
Qed.

Lemma gfs_fold_present et reg acc s :
  aget s (fold_left (gfs_step et) reg acc) <> None
  <-> aget s acc <> None
      \/ exists tools, In (s, tools) reg /\ filter (fun t => mem t et) tools <> [].
Proof.
  revert acc. induction reg as [|[n tools] reg IH]; intros acc; cbn [fold_left In].
  - split; [tauto|]. intros [H|[tools [[] _]]]. exact H.
  - rewrite IH, gfs_step_aget.
    destruct (filter (fun t => mem t et) tools) as [|x r] eqn:Ef.
    + split.
      * intros [H|[tools' [Hin Ht]]]; [left; exact H | right; exists tools'; auto].
      * intros [H|[tools' [[Heq|Hin] Ht]]]; [left; exact H| |right; exists tools'; auto].
        inversion Heq. subst. congruence.
    + destruct (String.eqb s n) eqn:E.
      * apply String.eqb_eq in E. subst n. split; [|left; discriminate].
        intros _. right. exists tools. split; [left; reflexivity | rewrite Ef; discriminate].
      * apply String.eqb_neq in E. split.
        -- intros [H|[tools' [Hin Ht]]]; [left; exact H | right; exists tools'; auto].
        -- intros [H|[tools' [[Heq|Hin] Ht]]]; [left; exact H| |right; exists tools'; auto].
           inversion Heq. congruence.
Qed.

Lemma gfs_monotone MODULES registry e extra s :
  aget s (get_filtered_services MODULES registry e) <> None ->
  aget s (get_filtered_services MODULES registry (e ++ extra)%list) <> None.
Proof.
  rewrite !gfs_unfold, !gfs_fold_present. simpl.
  intros [H|[tools [Hin Ht]]]; [tauto|]. right. exists tools. split; [exact Hin|].
  apply filter_nonempty in Ht. destruct Ht as [t [Ht Hm]].
  apply filter_nonempty. exists t. split; [exact Ht|].
  rewrite enabled_tools_app, LoadFacts.mem_app, Hm. reflexivity.
Qed.

(** *** [build_index] *)

Definition build_from (svcs : list (string * list string)) (acc : list (string * string)) :=
  fold_left (fun idx '(sname, tools) =>
               fold_left (fun idx t => aset t sname idx) tools idx) svcs acc.

Lemma build_index_from svcs : build_index svcs = build_from svcs [].
Proof. reflexivity. Qed.

Lemma index_tools_aget (sname : string) (tools : list string) (idx : list (string * string))
    (t : string) :
  aget t (fold_left (fun idx t => aset t sname idx) tools idx)
  = if mem t tools then Some sname else aget t idx.
Proof.
  revert idx. induction tools as [|x tools IH]; intros idx; simpl; [reflexivity|].
  rewrite IH, aget_aset. unfold mem. simpl.
  destruct (String.eqb t x); simpl; [|reflexivity].
  destruct (existsb (String.eqb t) tools); reflexivity.
Qed.

Lemma build_from_present svcs acc t :
  aget t (build_from svcs acc) <> None
  <-> aget t acc <> None \/ In t (concat (map snd svcs)).
Proof.
  revert acc. induction svcs as [|[s tools] svcs IH]; intros acc; simpl; [tauto|].
  unfold build_from in IH |- *. simpl. rewrite IH, index_tools_aget, in_app_iff.
  destruct (mem t tools) eqn:E.
  - split; intros _; [right; left; apply mem_iff, E | left; discriminate].
  - split; [tauto|].
    intros [H|[H|H]]; [left; exact H | apply mem_iff in H; congruence | right; exact H].
Qed.

Lemma build_from_sound svcs acc t s :
  aget t (build_from svcs acc) = Some s ->
  aget t acc = Some s \/ exists ts, In (s, ts) svcs /\ In t ts.
Proof.
  revert acc. induction svcs as [|[s0 tools] svcs IH]; intros acc H; [left; exact H|].
  unfold build_from in IH, H. simpl in H.
  destruct (IH _ H) as [H1|[ts [Hin Ht]]]; [|right; exists ts; split; [right|]; assumption].
  rewrite index_tools_aget in H1. destruct (mem t tools) eqn:E; [|left; exact H1].
  inversion H1. subst. right. exists tools. split; [left; reflexivity | apply mem_iff, E].
Qed.

(** *** The client cache *)

Section Clients.
Variables Client Args : Type.
Variables MODULES registry : list (string * list string).
Variable host : string.
Variable port : Z.
Variable connect : string -> string -> Z -> result Client.
Variable execute : string -> Client -> string -> Args -> result string.
Variable modules_arg : Args -> list string.

(** What [_get_client] may change: one new cache entry, for a served
    service. *)
Definition cache_step (st st' : state Client) (sname : string) : Prop :=
  enabled_modules st' = enabled_modules st
  /\ services st' = services st
  /\ tool_to_service st' = tool_to_service st
  /\ (forall k c, aget k (clients st) = Some c -> aget k (clients st') = Some c)
  /\ (forall k, aget k (clients st') <> None ->
        aget k (clients st) <> None \/ (k = sname /\ aget sname (services st) <> None)).

Lemma get_client_step st sname o st' :
  get_client Client host port connect st sname = Ok (o, st') -> cache_step st st' sname.
Proof.
  unfold get_client, cache_step.
  destruct (aget sname (clients st)) as [c|] eqn:Hc.
  - intros H. inversion H. subst. repeat split; auto.
  - destruct (aget sname (services st)) as [ts|] eqn:Hs.
    + destruct (connect sname host port) as [c|e].
      * intros H. inversion H. subst. simpl. repeat split; auto.
        -- intros k c' Hk. rewrite aget_aset. destruct (String.eqb k sname) eqn:E; [|exact Hk].
           apply String.eqb_eq in E. subst. congruence.
        -- intros k Hk. rewrite aget_aset in Hk. destruct (String.eqb k sname) eqn:E; [|left; exact Hk].
           apply String.eqb_eq in E. subst. right. split; [reflexivity | discriminate].
      * destruct (is_Exception e); intros H; inversion H. subst. repeat split; auto.
    + intros H. inversion H. subst. repeat split; auto.
Qed.

Lemma cache_step_inv st st' sname :
  cache_step st st' sname -> consistent MODULES registry st -> clients_served st ->
  consistent MODULES registry st' /\ clients_served st'.
Proof.
  intros [He [Hs [Hi [_ Hc]]]] [H1 H2] Hcs. unfold consistent, clients_served.
  rewrite He, Hs, Hi. split; [split; assumption|].
  intros k Hk. destruct (Hc k Hk) as [H|[-> H]]; [exact (Hcs k H) | exact H].
Qed.

Lemma load_inv st req :
  consistent MODULES registry st -> clients_served st ->
  let st' := snd (handle_load_modules Client MODULES registry st req) in
  consistent MODULES registry st' /\ clients_served st'
  /\ exists added, enabled_modules st' = (enabled_modules st ++ added)%list.
Proof.
  intros [H1 H2] Hcs. cbv zeta. rewrite LoadFacts.handle_load_modules_eq. cbv zeta. simpl.
  destruct (filter (Spec.loadable MODULES (enabled_modules st)) req) as [|m F] eqn:HF; simpl.
  - rewrite app_nil_r. split; [split; assumption|]. split; [exact Hcs|].
    exists []. rewrite app_nil_r. reflexivity.
  - split; [split; reflexivity|]. split.
    + intros k Hk. apply gfs_monotone. rewrite <- H1. exact (Hcs k Hk).
    + exists (m :: F). reflexivity.
Qed.

Lemma tools_call_inv st name args r st' :
  consistent MODULES registry st -> clients_served st ->
  handle_tools_call Client Args MODULES registry host port connect execute modules_arg
    st name args = Ok (r, st') ->
  consistent MODULES registry st' /\ clients_served st'
  /\ exists added, enabled_modules st' = (enabled_modules st ++ added)%list.
Proof.
  intros Hc Hcs. unfold handle_tools_call.
  destruct (String.eqb name "load_modules").
  - destruct (handle_load_modules Client MODULES registry st (modules_arg args)) as [lr st1] eqn:E.
    intros H. inversion H. subst.
    pose proof (load_inv st (modules_arg args) Hc Hcs) as L. rewrite E in L. exact L.
  - destruct (aget name (tool_to_service st)) as [[|a sname]|].
    + destruct (mem name _); intros H; inversion H; subst;
        (split; [exact Hc | split; [exact Hcs | exists []; symmetry; apply app_nil_r]]).
    + destruct (get_client Client host port connect st (String a sname)) as [[o st1]|e] eqn:G;
        [|intros H; discriminate H].
      pose proof (get_client_step _ _ _ _ G) as Hst.
      destruct (cache_step_inv _ _ _ Hst Hc Hcs) as [Hc1 Hcs1].
      destruct Hst as [He _].
      assert (Hgoal : consistent MODULES registry st1 /\ clients_served st1
                      /\ exists added, enabled_modules st1 = (enabled_modules st ++ added)%list)
        by (split; [exact Hc1 | split; [exact Hcs1 | exists []; rewrite app_nil_r; exact He]]).
      simpl. destruct o as [c|].
      * destruct (match aget _ (services st1) with Some _ => _ | None => _ end) as [text|e];
          [intros H; inversion H; subst; exact Hgoal|].
        destruct (is_Exception e); intros H; inversion H; subst; exact Hgoal.
      * intros H. inversion H. subst. exact Hgoal.
    + destruct (mem name _); intros H; inversion H; subst;
        (split; [exact Hc | split; [exact Hcs | exists []; symmetry; apply app_nil_r]]).
Qed.

End Clients.

End RouterFacts.

Module ServerFacts.
Import Py Router RouterInv RouterFacts Server.

(** Every list of [PROFILES] enables ["core"]. *)
Lemma profiles_core p l : aget p PROFILES = Some l -> mem "core" l = true.
Proof.
  intros H. apply aget_in in H. simpl in H.
  repeat (destruct H as [H|H]; [inversion H; subst; reflexivity|]). destruct H.
Qed.

Lemma profile_modules_core D p l :
  aget D PROFILES <> None -> get_profile_modules PROFILES D p = Ok l -> mem "core" l = true.
Proof.
  unfold get_profile_modules.
  destruct (aget D PROFILES) as [d|] eqn:Hd; [|congruence]. intros _ H. cbn [bind] in H.
  destruct (aget p PROFILES) as [l'|] eqn:Hp; inversion H; subst;
    [exact (profiles_core _ _ Hp) | exact (profiles_core _ _ Hd)].
Qed.

Lemma index_present svcs t :
  aget t (build_index svcs) <> None <-> In t (concat (map snd svcs)).
Proof. rewrite build_index_from, build_from_present. simpl. tauto. Qed.

Lemma index_sound svcs t s :
  aget t (build_index svcs) = Some s -> exists ts, In (s, ts) svcs /\ In t ts.
Proof.
  rewrite build_index_from. intros H.
  destruct (build_from_sound _ _ _ _ H) as [H1|H1]; [discriminate H1 | exact H1].
Qed.

Section S.
Variables Client Args Params Id : Type.
Variables MODULES registry : list (string * list string).
Variable host : string.
Variable port : Z.
Variable connect : string -> string -> Z -> result Client.
Variable execute : string -> Client -> string -> Args -> result string.
Variable modules_arg : Args -> list string.
Variable params_name : Params -> string.
Variable params_arguments : Params -> Args.

(** Several [_get_client] calls: new cache entries only, for served
    services. *)
Definition cache_reach (st st' : state Client) : Prop :=
  enabled_modules st' = enabled_modules st
  /\ services st' = services st
  /\ tool_to_service st' = tool_to_service st
  /\ (forall k c, aget k (clients st) = Some c -> aget k (clients st') = Some c)
  /\ (forall k, aget k (clients st') <> None ->
        aget k (clients st) <> None \/ aget k (services st) <> None).

Lemma preconnect_reach st names st' :
  preconnect Client host port connect st names = Ok st' -> cache_reach st st'.
Proof.
  revert st. induction names as [|n names IH]; intros st H; simpl in H.
  - inversion H. subst. repeat split; auto.
  - destruct (get_client Client host port connect st n) as [[o st1]|e] eqn:G;
      simpl in H; [|discriminate].
    destruct (get_client_step Client host port connect _ _ _ _ G) as [He [Hs [Hi [Hk Hn]]]].
    destruct (IH _ H) as [He' [Hs' [Hi' [Hk' Hn']]]].
    repeat split; try congruence.
    + intros k c Hc. apply Hk', Hk, Hc.
    + intros k Hc. destruct (Hn' k Hc) as [H1|H1].
      * destruct (Hn k H1) as [H2|[-> H2]]; [left; exact H2 | right; exact H2].
      * right. rewrite <- Hs. exact H1.
Qed.

Lemma reach_inv st st' :
  cache_reach st st' -> consistent MODULES registry st -> clients_served st ->
  consistent MODULES registry st' /\ clients_served st'.
Proof.
  intros [He [Hs [Hi [_ Hc]]]] [H1 H2] Hcs. unfold consistent, clients_served.
  rewrite He, Hs, Hi. split; [split; assumption|].
  intros k Hk. destruct (Hc k Hk) as [H|H]; [exact (Hcs k H) | exact H].
Qed.

Lemma preconnect_connects st names st' :
  preconnect Client host port connect st names = Ok st' ->
  forall n c, In n names -> aget n (services st) <> None -> connect n host port = Ok c ->
  aget n (clients st') <> None.
Proof.
  revert st. induction names as [|n0 names IH]; intros st H n c Hin Hs Hc; [destruct Hin|].
  simpl in H.
  destruct (get_client Client host port connect st n0) as [[o st1]|e] eqn:G;
    simpl in H; [|discriminate].
  pose proof (get_client_step Client host port connect _ _ _ _ G) as [He [Hs1 [Hi [Hk Hn]]]].
  destruct Hin as [->|Hin].
  - pose proof (preconnect_reach _ _ _ H) as [_ [_ [_ [Hk' _]]]].
    unfold get_client in G.
    destruct (aget n (clients st)) as [c0|] eqn:Hc0.
    + inversion G. subst. rewrite (Hk' _ _ Hc0). discriminate.
    + destruct (aget n (services st)) as [ts|]; [|congruence].
      rewrite Hc in G. inversion G. subst. simpl in Hk'.
      rewrite (Hk' n c); [discriminate|]. rewrite aget_aset, String.eqb_refl. reflexivity.
  - apply (IH st1 H n c Hin); [rewrite Hs1; exact Hs | exact Hc].
Qed.

End S.
End ServerFacts.

(** X1: a tool is enabled by a list of modules exactly when one of the
    listed names is a module of the catalog that lists the tool; names
    that are not modules contribute nothing. *)
Theorem enabled_tools_membership (MODULES : list (string * list string)) (modules : list string)
    (t : string) :
  In t (Router.get_enabled_tools MODULES modules)
  <-> exists m ts, In m modules /\ Router.aget m MODULES = Some ts /\ In t ts.
Proof. apply RouterFacts.enabled_tools_in. Qed.

(** X2: when the registry has distinct service names (a Python dict),
    [get_filtered_services] keeps a service exactly when some of its tools
    are enabled, and keeps for it exactly its enabled tools, in the
    registry's order. *)
Theorem filtered_services_lookup (MODULES registry : list (string * list string))
    (enabled : list string) (Hreg : NoDup (map fst registry)) (s : string) (ts : list string) :
  Router.aget s (Router.get_filtered_services MODULES registry enabled) = Some ts
  <-> exists tools, Router.aget s registry = Some tools
        /\ ts = filter (fun t => Router.mem t (Router.get_enabled_tools MODULES enabled)) tools
        /\ ts <> [].
Proof.
  rewrite RouterFacts.gfs_unfold, (RouterFacts.gfs_fold_aget _ _ _ _ Hreg). simpl.
  destruct (Router.aget s registry) as [tools|].
  - destruct (filter _ tools) as [|x r] eqn:E.
    + split; [discriminate|]. intros [tools' [H [-> Hne]]]. inversion H. subst. congruence.
    + split.
      * intros H. inversion H. subst. exists tools. rewrite E. split; [reflexivity|].
        split; [reflexivity | discriminate].
      * intros [tools' [H [-> Hne]]]. inversion H. subst. rewrite E. reflexivity.
  - split; [discriminate|]. intros [tools' [H _]]. discriminate H.
Qed.

Lemma filtered_services_lookup_witness :
  NoDup (map fst Fixtures.fx_registry)
  /\ (Router.aget "agentbridge"
        (Router.get_filtered_services Router.MODULES Fixtures.fx_registry ["core"; "classes"])
      = Some ["get_actor"]
      <-> exists tools, Router.aget "agentbridge" Fixtures.fx_registry = Some tools
            /\ ["get_actor"] = filter (fun t => Router.mem t (Router.get_enabled_tools Router.MODULES
                                                              ["core"; "classes"])) tools
            /\ ["get_actor"] <> []).
Proof.
  assert (H : NoDup (map fst Fixtures.fx_registry)) by (simpl; repeat constructor; simpl; tauto).
  split; [exact H|].
  exact (filtered_services_lookup Router.MODULES Fixtures.fx_registry ["core"; "classes"] H
           "agentbridge" ["get_actor"]).
Defined.

(** X3: the routing index built from a list of services has an entry for
    exactly the tools the services list, and routes each of them to a
    service that lists it. *)
Theorem routing_index_built (svcs : list (string * list string)) (t : string) :
  (Router.aget t (Router.build_index svcs) <> None <-> In t (concat (map snd svcs)))
  /\ (forall s, Router.aget t (Router.build_index svcs) = Some s ->
        exists ts, In (s, ts) svcs /\ In t ts).
Proof.
  split; [apply ServerFacts.index_present | apply ServerFacts.index_sound].
Qed.

Lemma routing_index_built_witness :
  Router.aget "get_actor" (Router.build_index Fixtures.fx_registry) = Some "agentbridge"
  /\ exists ts, In ("agentbridge", ts) Fixtures.fx_registry /\ In "get_actor" ts.
Proof.
  split; [reflexivity|].
  exact (proj2 (routing_index_built Fixtures.fx_registry "get_actor") "agentbridge" eq_refl).
Defined.

(** X5: in a consistent state, [tools/list] advertises exactly the tools
    [tools/call] can route, plus [load_modules]; and a routed tool goes to
    a service that lists it, that the registry service of that name
    lists, and that an enabled module of the catalog lists. *)
Theorem routing_matches_listing {Client : Type} (MODULES registry : list (string * list string))
    (st : Router.state Client) (Hst : RouterInv.consistent MODULES registry st) :
  (forall t, In t (Server.get_all_tools Client st)
             <-> t = "load_modules" \/ Router.aget t (Router.tool_to_service st) <> None)
  /\ (forall t s, Router.aget t (Router.tool_to_service st) = Some s ->
        exists ts tools m mts,
          Router.aget s (Router.services st) = Some ts /\ In t ts
          /\ In (s, tools) registry /\ In t tools
          /\ In m (Router.enabled_modules st) /\ Router.aget m MODULES = Some mts /\ In t mts).
Proof.
  destruct Hst as [Hs Hi]. split.
  - intros t. unfold Server.get_all_tools. rewrite in_app_iff, Hi.
    rewrite (ServerFacts.index_present (Router.services st) t). simpl.
    split; intros [H|H];
      first [now auto | now (destruct H as [H|[]]; auto) | now (right; left; symmetry; exact H)].
  - intros t s H. rewrite Hi in H.
    destruct (ServerFacts.index_sound (Router.services st) t s H) as [ts [Hin Ht]].
    pose proof (RouterFacts.aget_unique _ _ _ (eq_ind_r (fun l => NoDup (map fst l))
                  (RouterFacts.gfs_nodup _ _ _) Hs) Hin) as Hts.
    rewrite Hs, RouterFacts.gfs_unfold in Hts.
    destruct (RouterFacts.gfs_fold_values _ _ _ _ _ Hts) as [H0|[tools [Hr [-> _]]]];
      [discriminate H0|].
    apply filter_In in Ht. destruct Ht as [Ht Hm].
    apply RouterFacts.mem_iff, RouterFacts.enabled_tools_in in Hm.
    destruct Hm as [m [mts [Hm [Ha Hmt]]]].
    exists (filter (fun t => Router.mem t (Router.get_enabled_tools MODULES
                                             (Router.enabled_modules st))) tools),
           tools, m, mts.
    rewrite Hs, RouterFacts.gfs_unfold.
    repeat split; try assumption.
    apply filter_In. split; [exact Ht | apply RouterFacts.mem_iff, RouterFacts.enabled_tools_in].
    exists m, mts. auto.
Qed.

Lemma routing_matches_listing_witness :
  RouterInv.consistent Router.MODULES Fixtures.fx_registry
    (Router.init unit Router.MODULES Fixtures.fx_registry ["classes"])
  /\ exists ts tools m mts,
       Router.aget "agentbridge"
         (Router.services (Router.init unit Router.MODULES Fixtures.fx_registry ["classes"]))
       = Some ts /\ In "get_actor" ts
       /\ In ("agentbridge", tools) Fixtures.fx_registry /\ In "get_actor" tools
       /\ In m (Router.enabled_modules (Router.init unit Router.MODULES Fixtures.fx_registry
                                          ["classes"]))
       /\ Router.aget m Router.MODULES = Some mts /\ In "get_actor" mts.
Proof.
  assert (H : RouterInv.consistent Router.MODULES Fixtures.fx_registry
                (Router.init unit Router.MODULES Fixtures.fx_registry ["classes"]))
    by (split; reflexivity).
  split; [exact H|].
  exact (proj2 (routing_matches_listing Router.MODULES Fixtures.fx_registry _ H)
           "get_actor" "agentbridge" eq_refl).
Defined.

(** X6: once [_get_client] has returned a client for a service, asking
    again returns the same client and changes nothing: the service is
    connected at most once while its client is cached. *)
Theorem client_cache_reuse {Client : Type} (host : string) (port : Z)
    (connect : string -> string -> Z -> Py.result Client) (st st1 : Router.state Client)
    (sname : string) (c : Client)
    (H : Router.get_client Client host port connect st sname = Py.Ok (Some c, st1)) :
  Router.get_client Client host port connect st1 sname = Py.Ok (Some c, st1)
  /\ Router.aget sname (Router.clients st1) = Some c.
Proof.
  unfold Router.get_client in H |- *.
  destruct (Router.aget sname (Router.clients st)) as [c0|] eqn:Hc.
  - inversion H. subst. rewrite Hc. split; reflexivity.
  - destruct (Router.aget sname (Router.services st)); [|discriminate].
    destruct (connect sname host port) as [c1|e].
    + inversion H. subst. simpl.
      rewrite RouterFacts.aget_aset, String.eqb_refl. split; reflexivity.
    + destruct (Py.is_Exception e); discriminate.
Qed.

Lemma client_cache_reuse_witness :
  Router.get_client unit "localhost" 50051 Fixtures.fx_connect
    (Router.init unit Router.MODULES Fixtures.fx_registry ["classes"]) "agentbridge"
  = Py.Ok (Some tt, Router.mkState unit
                      (Router.enabled_modules (Router.init unit Router.MODULES
                                                 Fixtures.fx_registry ["classes"]))
                      (Router.services (Router.init unit Router.MODULES
                                          Fixtures.fx_registry ["classes"]))
                      [("agentbridge", tt)]
                      (Router.tool_to_service (Router.init unit Router.MODULES
                                                 Fixtures.fx_registry ["classes"])))
  /\ Router.get_client unit "localhost" 50051 Fixtures.fx_connect
       (Router.mkState unit
          (Router.enabled_modules (Router.init unit Router.MODULES Fixtures.fx_registry ["classes"]))
          (Router.services (Router.init unit Router.MODULES Fixtures.fx_registry ["classes"]))
          [("agentbridge", tt)]
          (Router.tool_to_service (Router.init unit Router.MODULES Fixtures.fx_registry
                                     ["classes"])))
       "agentbridge"
     = Py.Ok (Some tt, Router.mkState unit
          (Router.enabled_modules (Router.init unit Router.MODULES Fixtures.fx_registry ["classes"]))
          (Router.services (Router.init unit Router.MODULES Fixtures.fx_registry ["classes"]))
          [("agentbridge", tt)]
          (Router.tool_to_service (Router.init unit Router.MODULES Fixtures.fx_registry
                                     ["classes"]))).
Proof.
  split; [reflexivity|].
  exact (proj1 (client_cache_reuse "localhost" 50051 Fixtures.fx_connect
                  (Router.init unit Router.MODULES Fixtures.fx_registry ["classes"]) _
                  "agentbridge" tt eq_refl)).
Defined.

(** X7: [_handle_load_modules] tests each requested name against the
    modules enabled before the call, so a module requested twice in one
    call is enabled twice: it appears twice in the enabled modules and in
    [loaded_modules], its tools twice in [new_tools], and [total_modules]
    grows by two. *)
Theorem load_modules_duplicate_request {Client : Type}
    (MODULES registry : list (string * list string)) (st : Router.state Client)
    (m : string) (ts : list string)
    (Hnew : Router.mem m (Router.enabled_modules st) = false)
    (Hcat : Router.aget m MODULES = Some ts) :
  let '(r, st') := Router.handle_load_modules Client MODULES registry st [m; m] in
  Router.loaded_modules r = [m; m]
  /\ Router.new_tools r = (ts ++ ts)%list
  /\ Router.total_modules r = List.length (Router.enabled_modules st) + 2
  /\ Router.enabled_modules st' = (Router.enabled_modules st ++ [m; m])%list.
Proof.
  rewrite LoadFacts.handle_load_modules_eq. cbv zeta.
  assert (Hl : Spec.loadable MODULES (Router.enabled_modules st) m = true)
    by (unfold Spec.loadable; rewrite Hnew, Hcat; reflexivity).
  simpl. rewrite Hl. simpl. rewrite Hcat, app_nil_r, length_app. simpl.
  repeat split; lia.
Qed.

Lemma load_modules_duplicate_request_witness :
  Router.mem "editor" (Router.enabled_modules Fixtures.fx_state) = false
  /\ Router.aget "editor" Router.MODULES
     = Some ["play_in_editor"; "simulate"; "stop"; "save_level"; "open_level"; "new_level";
             "get_current_level"]
  /\ Router.loaded_modules
       (fst (Router.handle_load_modules unit Router.MODULES Fixtures.fx_registry
               Fixtures.fx_state ["editor"; "editor"])) = ["editor"; "editor"].
Proof.
  split; [reflexivity|]. split; [reflexivity|].
  pose proof (load_modules_duplicate_request Router.MODULES Fixtures.fx_registry Fixtures.fx_state
                "editor" _ eq_refl eq_refl) as H.
  destruct (Router.handle_load_modules unit Router.MODULES Fixtures.fx_registry Fixtures.fx_state
              ["editor"; "editor"]) as [r st'].
  exact (proj1 H).
Defined.

(** X9: [initialize] replies with protocol version 2024-11-05 and server
    agentbridge-mcp 0.3.0; it changes neither the enabled modules, the
    services nor the routing index, keeps every cached client, and leaves
    a cached client for every service whose connection succeeds. *)
Theorem initialize_preconnects {Client Args Params Id : Type}
    (MODULES registry : list (string * list string)) (host : string) (port : Z)
    (connect : string -> string -> Z -> Py.result Client)
    (execute : string -> Client -> string -> Args -> Py.result string)
    (modules_arg : Args -> list string)
    (params_name : Params -> string) (params_arguments : Params -> Args)
    (st : Router.state Client) (msg_id : Id) (params : Params) (o : option (Server.rpc Id))
    (st' : Router.state Client)
    (H : Server.handle_message Client Args Params Id MODULES registry host port connect execute
           modules_arg params_name params_arguments st (Some "initialize") msg_id params
         = Py.Ok (o, st')) :
  o = Some (Server.RpcResult msg_id (Server.RInitialize "2024-11-05" "agentbridge-mcp" "0.3.0"))
  /\ Router.enabled_modules st' = Router.enabled_modules st
  /\ Router.services st' = Router.services st
  /\ Router.tool_to_service st' = Router.tool_to_service st
  /\ (forall s c, Router.aget s (Router.clients st) = Some c ->
                  Router.aget s (Router.clients st') = Some c)
  /\ (forall s c, Router.aget s (Router.services st) <> None -> connect s host port = Py.Ok c ->
                  Router.aget s (Router.clients st') <> None).
Proof.
  unfold Server.handle_message in H. simpl in H.
  destruct (Server.preconnect Client host port connect st (map fst (Router.services st)))
    as [st1|e] eqn:P; simpl in H; [|discriminate].
  inversion H. subst.
  destruct (ServerFacts.preconnect_reach Client host port connect _ _ _ P)
    as [He [Hs [Hi [Hk _]]]].
  repeat split; try assumption.
  intros s c Hs0 Hc.
  apply (ServerFacts.preconnect_connects Client host port connect _ _ _ P s c); try assumption.
  destruct (Router.aget s (Router.services st)) as [ts|] eqn:Ea; [|congruence].
  apply RouterFacts.aget_in in Ea. apply in_map_iff. exists (s, ts). auto.
Qed.

Lemma initialize_preconnects_witness :
  Server.handle_message unit unit unit nat Router.MODULES Fixtures.fx_registry "localhost" 50051
    Fixtures.fx_connect Fixtures.fx_execute_failing Fixtures.fx_modules_arg (fun _ => "")
    (fun _ => tt) (Router.init unit Router.MODULES Fixtures.fx_registry ["classes"])
    (Some "initialize") 1 tt
  = Py.Ok (Some (Server.RpcResult 1 (Server.RInitialize "2024-11-05" "agentbridge-mcp" "0.3.0")),
           Router.mkState unit
             (Router.enabled_modules (Router.init unit Router.MODULES Fixtures.fx_registry
                                        ["classes"]))
             (Router.services (Router.init unit Router.MODULES Fixtures.fx_registry ["classes"]))
             [("agentbridge", tt)]
             (Router.tool_to_service (Router.init unit Router.MODULES Fixtures.fx_registry
                                        ["classes"])))
  /\ Router.aget "agentbridge"
       (Router.clients (Router.mkState unit
          (Router.enabled_modules (Router.init unit Router.MODULES Fixtures.fx_registry ["classes"]))
          (Router.services (Router.init unit Router.MODULES Fixtures.fx_registry ["classes"]))
          [("agentbridge", tt)]
          (Router.tool_to_service (Router.init unit Router.MODULES Fixtures.fx_registry
                                     ["classes"])))) <> None.
Proof.
  split; [reflexivity|].
  refine (proj2 (proj2 (proj2 (proj2 (proj2
            (initialize_preconnects (Client := unit) (Args := unit) (Params := unit)
               Router.MODULES Fixtures.fx_registry "localhost" 50051 Fixtures.fx_connect
               Fixtures.fx_execute_failing Fixtures.fx_modules_arg (fun _ => "") (fun _ => tt)
               (Router.init unit Router.MODULES Fixtures.fx_registry ["classes"]) 1 tt _ _
               eq_refl))))) "agentbridge" tt _ eq_refl).
  discriminate.
Defined.

(** X10: with the shipped [PROFILES], starting the server succeeds and
    enables ["core"] whenever the default profile name is a profile; when
    it is not, and no non-empty module list is given, [__init__] raises
    [KeyError] for the default profile, whatever profile was asked for,
    because [PROFILES[DEFAULT_PROFILE]] is evaluated first. *)
Theorem server_start_profiles {Client : Type} (MODULES registry : list (string * list string))
    (D : string) (env profile : option string) (modules : option (list string)) :
  (Router.aget D Server.PROFILES <> None ->
     exists st, Server.server_init Client MODULES registry Server.PROFILES D env profile modules
                = Py.Ok st
                /\ Router.mem "core" (Router.enabled_modules st) = true)
  /\ (Router.aget D Server.PROFILES = None -> (modules = None \/ modules = Some []) ->
      Server.server_init Client MODULES registry Server.PROFILES D env profile modules
      = Py.Raise (Py.mkExc "KeyError" true D)).
Proof.
  split.
  - intros HD. unfold Server.server_init.
    destruct modules as [[|x ms]|].
    + destruct (Server.get_profile_modules Server.PROFILES D _) as [l|e] eqn:G.
      * eexists. split; [reflexivity|]. exact (ServerFacts.profile_modules_core _ _ _ HD G).
      * exfalso. unfold Server.get_profile_modules in G.
        destruct (Router.aget D Server.PROFILES); [discriminate | congruence].
    + eexists. split; [reflexivity|]. cbn [Router.enabled_modules].
      destruct (Router.mem "core" (x :: ms)) eqn:Hc; [exact Hc | reflexivity].
    + destruct (Server.get_profile_modules Server.PROFILES D _) as [l|e] eqn:G.
      * eexists. split; [reflexivity|]. exact (ServerFacts.profile_modules_core _ _ _ HD G).
      * exfalso. unfold Server.get_profile_modules in G.
        destruct (Router.aget D Server.PROFILES); [discriminate | congruence].
  - intros HD Hm. unfold Server.server_init, Server.get_profile_modules. rewrite HD.
    destruct Hm as [-> | ->]; reflexivity.
Qed.

Lemma server_start_profiles_witness :
  (exists st, Server.server_init unit Router.MODULES Fixtures.fx_registry Server.PROFILES
                "standard" None (Some "simulation") None = Py.Ok st
              /\ Router.mem "core" (Router.enabled_modules st) = true)
  /\ Server.server_init unit Router.MODULES Fixtures.fx_registry Server.PROFILES
       "nosuchprofile" None (Some "full") None
     = Py.Raise (Py.mkExc "KeyError" true "nosuchprofile").
Proof.
  split.
  - apply (proj1 (server_start_profiles (Client := unit) Router.MODULES Fixtures.fx_registry
                    "standard" None (Some "simulation") None)).
    discriminate.
  - apply (proj2 (server_start_profiles (Client := unit) Router.MODULES Fixtures.fx_registry
                    "nosuchprofile" None (Some "full") None)); [reflexivity | left; reflexivity].
Defined.

(** * Properties of the helpers of agentbridge.py *)

Module AgentFacts.
Import Py PyStr StrFacts Router PropHints Similar Normalize Proto Codec CodecLoops Spec.

(** *** Strings *)

Lemma take_drop (n : nat) (s : string) : take n s ++ drop n s = s.
Proof.
  revert n. induction s as [|a s IH]; intros [|n]; simpl; try reflexivity.
  rewrite IH. reflexivity.
Qed.

Lemma rfind_none_contains (c : ascii) (s : string) :
  rfind c s = None -> contains (String c "") s = false.
Proof.
  induction s as [|x s IH]; intros H; [reflexivity|].
  simpl in H. rewrite contains_char_step.
  destruct (rfind c s); [discriminate|].
  destruct (Ascii.eqb x c) eqn:E; [discriminate|].
  rewrite (IH eq_refl). destruct (ascii_dec c x) as [->|]; [|reflexivity].
  rewrite Ascii.eqb_refl in E. discriminate.
Qed.

Lemma rfind_split (c : ascii) (s : string) (i : nat) :
  rfind c s = Some i -> s = take i s ++ String c (drop (S i) s).
Proof.
  revert i. induction s as [|a s IH]; intros i H; simpl in H; [discriminate|].
  destruct (rfind c s) as [j|] eqn:E.
  - inversion H. subst. simpl. f_equal. exact (IH j eq_refl).
  - destruct (Ascii.eqb a c) eqn:Ea; [|discriminate].
    inversion H. subst. apply Ascii.eqb_eq in Ea. subst. reflexivity.
Qed.

Lemma endswith_split (p s : string) :
  endswith p s = true -> s = take (String.length s - String.length p) s ++ p.
Proof.
  unfold endswith. intros H. apply andb_prop in H. destruct H as [_ H].
  apply String.eqb_eq in H. rewrite <- H at 2. symmetry. apply take_drop.
Qed.

Lemma last_char_cons (c : ascii) (t : string) : last_char (String c t) <> None.
Proof. simpl. destruct (last_char t); discriminate. Qed.

Lemma last_char_app (s : string) (c : ascii) (t : string) :
  last_char (s ++ String c t) = last_char (String c t).
Proof.
  induction s as [|a s IH]; [reflexivity|].
  change (last_char (String a (s ++ String c t))
          = last_char (String c t)).
  simpl last_char at 1. rewrite IH.
  destruct (last_char (String c t)) eqn:E; [reflexivity|].
  exfalso. exact (last_char_cons c t E).
Qed.

Lemma last_char_component (s : string) :
  endswith "Component" s = true -> last_char s = Some "t"%char.
Proof.
  intros H. rewrite (endswith_split _ _ H). apply last_char_app.
Qed.

(** *** [_enhance_property_error] *)

(** The hint the first path segment gives. *)
Definition first_hints (first_part actor_id : string) : list string :=
  match aget first_part class_name_hints with
  | Some instance => [class_hint instance first_part]
  | None => if endswith "Component" first_part then [component_hint actor_id] else []
  end.

Lemma enhance_eq d property_path actor_id :
  enhance_property_error d property_path actor_id =
  (failed <- py_in_str "Failed to set" (get d "error" (VStr ""));;
   let h1 := first_hints (hd "" (split "."%char property_path)) actor_id in
   let hints := if failed then (h1 ++ [read_only_hint])%list else h1 in
   Ok (match hints with [] => d | _ => dict_set "hints" (VList (map VStr hints)) d end)).
Proof.
  unfold enhance_property_error, first_hints. cbv zeta.
  destruct (split "."%char property_path) as [|first_part rest] eqn:Es;
    [exfalso; exact (split_nonempty _ _ Es)|].
  cbn [hd].
  destruct (aget first_part class_name_hints); [reflexivity|].
  destruct (endswith "Component" first_part) eqn:Ee; [|reflexivity].
  rewrite (last_char_component _ Ee). reflexivity.
Qed.

Lemma lookup_dict_set_other k k' v d :
  k <> k' -> lookup k (dict_set k' v d) = lookup k d.
Proof.
  intros Hk. induction d as [|[k0 v0] d IH]; simpl.
  - apply String.eqb_neq in Hk. rewrite Hk. reflexivity.
  - destruct (String.eqb k' k0) eqn:E1; simpl.
    + apply String.eqb_eq in E1. subst k0.
      apply String.eqb_neq in Hk. rewrite Hk. reflexivity.
    + destruct (String.eqb k k0); [reflexivity | exact IH].
Qed.

Lemma hints_shape (hints : list string) d :
  let d' := match hints with [] => d | _ => dict_set "hints" (VList (map VStr hints)) d end in
  (forall k, k <> "hints" -> lookup k d' = lookup k d)
  /\ (d' = d \/ exists hs, hs <> [] /\ d' = dict_set "hints" (VList (map VStr hs)) d).
Proof.
  destruct hints as [|h hs]; cbv zeta.
  - split; [reflexivity | left; reflexivity].
  - split; [intros k Hk; apply lookup_dict_set_other; exact Hk|].
    right. exists (h :: hs). split; [discriminate | reflexivity].
Qed.

(** *** [_find_similar_actors] *)

Lemma in_firstn {A} (n : nat) (x : A) (l : list A) : In x (firstn n l) -> In x l.
Proof.
  revert n. induction l as [|a l IH]; intros [|n]; simpl; try tauto.
  intros [H|H]; [left; exact H | right; exact (IH n H)].
Qed.

Lemma nodup_firstn {A} (n : nat) (l : list A) : NoDup l -> NoDup (firstn n l).
Proof.
  revert n. induction l as [|a l IH]; intros [|n] H; simpl; try constructor.
  - inversion H. subst. intros Hin. apply H2. exact (in_firstn _ _ _ Hin).
  - inversion H. subst. apply IH. exact H3.
Qed.

Lemma nodup_snoc {A} (l : list A) (x : A) : NoDup l -> ~ In x l -> NoDup (l ++ [x]).
Proof.
  induction l as [|a l IH]; intros Hnd Hx; simpl.
  - constructor; [tauto | constructor].
  - inversion Hnd. subst. constructor.
    + rewrite in_app_iff. simpl. intros [H|[H|[]]]; [tauto|]. subst. apply Hx. left. reflexivity.
    + apply IH; [exact H2|]. intros H. apply Hx. right. exact H.
Qed.

Lemma collect_inv (P : string -> Prop) (limit : nat) (actors : list actor_ref) (s : list string) :
  NoDup s -> (forall x, In x s -> P x) -> (forall a, In a actors -> P (display a)) ->
  NoDup (collect limit actors s) /\ (forall x, In x (collect limit actors s) -> P x).
Proof.
  revert s. induction actors as [|a rest IH]; intros s Hnd Hs Ha; simpl; [auto|].
  destruct (mem (display a) s) eqn:Hm.
  - apply IH; auto. intros b Hb. apply Ha. right. exact Hb.
  - assert (Hnd' : NoDup (s ++ [display a])%list).
    { apply nodup_snoc; [exact Hnd|]. intros Hin.
      apply (RouterFacts.mem_iff (display a) s) in Hin. congruence. }
    assert (Hs' : forall x, In x (s ++ [display a])%list -> P x).
    { intros x Hx. apply in_app_iff in Hx. destruct Hx as [Hx|[<-|[]]]; [exact (Hs x Hx)|].
      apply Ha. left. reflexivity. }
    destruct (limit <=? List.length (s ++ [display a])%list)%nat; [auto|].
    apply IH; auto. intros b Hb. apply Ha. right. exact Hb.
Qed.

Section SimilarFacts.
Variables query_by_label query_by_name : string -> nat -> option (list actor_ref).
Variable limit : nat.
Variable terms : list string.

Definition found (x : string) : Prop :=
  exists term n actors a, In term terms
    /\ (query_by_label term n = Some actors \/ query_by_name term n = Some actors)
    /\ In a actors /\ display a = x.

Lemma name_part (term : string) (s1 : list string) :
  In term terms -> NoDup s1 -> (forall x, In x s1 -> found x) ->
  let s2 := if (List.length s1 <? limit)%nat then
              match query_by_name term (limit - List.length s1) with
              | Some actors => collect limit actors s1
              | None => s1
              end
            else s1 in
  NoDup s2 /\ (forall x, In x s2 -> found x).
Proof.
  intros Ht Hnd Hs. cbv zeta.
  destruct (List.length s1 <? limit)%nat; [|auto].
  destruct (query_by_name term (limit - List.length s1)) as [acts|] eqn:Hq; [|auto].
  apply collect_inv; auto. intros a Ha. exists term, (limit - List.length s1), acts, a. auto.
Qed.

Lemma step_inv (term : string) (s : list string) :
  In term terms -> NoDup s -> (forall x, In x s -> found x) ->
  NoDup (search_step query_by_label query_by_name limit term s)
  /\ (forall x, In x (search_step query_by_label query_by_name limit term s) -> found x).
Proof.
  intros Ht Hnd Hs. unfold search_step.
  assert (H1 : NoDup (match query_by_label term limit with
                      | Some actors => collect limit (firstn limit actors) s
                      | None => s
                      end)
               /\ forall x, In x (match query_by_label term limit with
                                  | Some actors => collect limit (firstn limit actors) s
                                  | None => s
                                  end) -> found x).
  { destruct (query_by_label term limit) as [acts|] eqn:Hq; [|auto].
    apply collect_inv; auto. intros a Ha. exists term, limit, acts, a.
    split; [exact Ht|]. split; [left; exact Hq|]. split; [exact (in_firstn _ _ _ Ha) | reflexivity]. }
  destruct H1 as [H1 H2]. exact (name_part term _ Ht H1 H2).
Qed.

Lemma loop_inv (rest : list string) (s : list string) :
  (forall t, In t rest -> In t terms) -> NoDup s -> (forall x, In x s -> found x) ->
  NoDup (search_loop query_by_label query_by_name limit rest s)
  /\ (forall x, In x (search_loop query_by_label query_by_name limit rest s) -> found x).
Proof.
  revert s. induction rest as [|t rest IH]; intros s Hr Hnd Hs; simpl; [auto|].
  destruct (limit <=? List.length s)%nat; [auto|].
  destruct (step_inv t s (Hr t (or_introl eq_refl)) Hnd Hs) as [H1 H2].
  apply IH; auto. intros t' Ht'. apply Hr. right. exact Ht'.
Qed.

End SimilarFacts.

(** *** [_normalize_property_value] *)

Lemma hex_color_shape (h : string) (o : norm_out) :
  hex_color h = Some o -> exists r g b a, o = NColor r g b a.
Proof.
  unfold hex_color, obind.
  destruct (int16 (take 2 h)); [|discriminate].
  destruct (int16 (take 2 (drop 2 h))); [|discriminate].
  destruct (int16 (take 2 (drop 4 h))); [|discriminate].
  destruct (if Nat.eqb (String.length h) 8 then _ else _); [|discriminate].
  intros H. inversion H. eauto.
Qed.

(** The pairs [hex_color] reads from [value[1:]], as slices of [value]. *)
Lemma hex_color_slices (s : string) :
  hex_color (drop 1 s)
  = obind (int16 (take 2 (drop 1 s))) (fun r =>
    obind (int16 (take 2 (drop 3 s))) (fun g =>
    obind (int16 (take 2 (drop 5 s))) (fun b =>
    obind (if Nat.eqb (String.length s) 9
           then option_map chan (int16 (take 2 (drop 7 s))) else Some 1%Q) (fun a =>
    Some (NColor (chan r) (chan g) (chan b) a))))).
Proof. destruct s; reflexivity. Qed.

(** *** [_set_property_value] *)

Definition enc_ok (fos : string -> option Q) (fits : Z -> bool) (v : pyval) : Prop :=
  forall pv, set_property_value fos fits v = Ok pv ->
             same_decoding pv = true /\ encoder_tags pv = true.

Lemma set_dict_shape (fos : string -> option Q) (fits : Z -> bool) d pv :
  set_property_value fos fits (VDict d) = Ok pv ->
  (exists x y z, pv = with_vector (mkVector x y z) (with_type 6 pv0))
  \/ (exists c, pv = with_color c (with_type 9 pv0))
  \/ (exists sv, set_fields fos fits d = Ok sv /\ pv = with_struct sv (with_type 12 pv0)).
Proof.
  destruct (has_key "x" d && has_key "y" d && has_key "z" d && Nat.eqb (List.length d) 3) eqn:Hv.
  - simpl. rewrite Hv.
    destruct (bind (getitem d "x") (py_float fos)) as [x|]; simpl; [|intros H; discriminate H].
    destruct (bind (getitem d "y") (py_float fos)) as [y|]; simpl; [|intros H; discriminate H].
    destruct (bind (getitem d "z") (py_float fos)) as [z|]; simpl; [|intros H; discriminate H].
    intros H. inversion H. left. eauto.
  - destruct (has_key "pitch" d && has_key "yaw" d && has_key "roll" d) eqn:Hp.
    + simpl. rewrite Hv, Hp.
      destruct (bind (getitem d "pitch") (py_float fos)); simpl; intros H; discriminate H.
    + destruct (has_key "r" d && has_key "g" d && has_key "b" d) eqn:Hc.
      * simpl. rewrite Hv, Hp, Hc.
        destruct (py_float fos (get d "r" (VInt 0))) as [r|]; simpl; [|intros H; discriminate H].
        destruct (py_float fos (get d "g" (VInt 0))) as [g|]; simpl; [|intros H; discriminate H].
        destruct (py_float fos (get d "b" (VInt 0))) as [b|]; simpl; [|intros H; discriminate H].
        destruct (py_float fos (get d "a" (VFloat 1))) as [a|]; simpl;
          [|intros H; discriminate H].
        intros H. inversion H. right. left. eauto.
      * rewrite (RoundTripFacts.set_struct_eq fos fits d Hv Hp Hc).
        destruct (set_fields fos fits d) as [sv|]; simpl; [|intros H; discriminate H].
        intros H. inversion H. right. right. eauto.
Qed.

Lemma set_fields_sd (fos : string -> option Q) (fits : Z -> bool) d sv :
  Forall (fun kv => enc_ok fos fits (snd kv)) d -> set_fields fos fits d = Ok sv ->
  Forall (fun kv => same_decoding (snd kv) = true /\ encoder_tags (snd kv) = true) sv.
Proof.
  intros H. revert sv. induction H as [|[k v] d Hv _ IH]; intros sv Hs; simpl in Hs.
  - inversion Hs. constructor.
  - destruct (set_property_value fos fits v) as [p|] eqn:Ep; simpl in Hs; [|discriminate].
    destruct (set_fields fos fits d) as [r|]; simpl in Hs; [|discriminate].
    inversion Hs. subst. constructor; [exact (Hv p Ep) | exact (IH r eq_refl)].
Qed.

Lemma set_items_sd (fos : string -> option Q) (fits : Z -> bool) xs av :
  Forall (enc_ok fos fits) xs -> set_items fos fits xs = Ok av ->
  Forall (fun p => same_decoding p = true /\ encoder_tags p = true) av.
Proof.
  intros H. revert av. induction H as [|v xs Hv _ IH]; intros av Hs; simpl in Hs.
  - inversion Hs. constructor.
  - destruct (set_property_value fos fits v) as [p|] eqn:Ep; simpl in Hs; [|discriminate].
    destruct (set_items fos fits xs) as [r|]; simpl in Hs; [|discriminate].
    inversion Hs. subst. constructor; [exact (Hv p Ep) | exact (IH r eq_refl)].
Qed.

Lemma forallb_of_forall {A} (f : A -> bool) l : Forall (fun a => f a = true) l -> forallb f l = true.
Proof. intros H. apply forallb_forall. rewrite Forall_forall in H. exact H. Qed.

Lemma forallb_fst_of_forall {A} (f g : A -> bool) l :
  Forall (fun a => f a = true /\ g a = true) l -> forallb f l = true /\ forallb g l = true.
Proof.
  intros H. split; apply forallb_of_forall; eapply Forall_impl; try exact H;
    intros a [Ha Hb]; assumption.
Qed.

Lemma encoder_tags_struct sv :
  encoder_tags (with_struct sv (with_type 12 pv0)) = forallb (fun kv => encoder_tags (snd kv)) sv.
Proof. cbn. rewrite andb_true_r. reflexivity. Qed.

Lemma encoder_tags_array av :
  encoder_tags (with_array av (with_type 13 pv0)) = forallb encoder_tags av.
Proof. reflexivity. Qed.

Lemma set_property_value_ok (fos : string -> option Q) (fits : Z -> bool) (v : pyval) :
  enc_ok fos fits v.
Proof.
  induction v as [| b | z | q | s | d Hd | xs Hxs | s] using PyInd.pyval_ind';
    unfold enc_ok; intros pv H.
  - inversion H. subst. split; reflexivity.
  - inversion H. subst. split; reflexivity.
  - simpl in H. destruct (fits z); inversion H. subst. split; reflexivity.
  - inversion H. subst. split; reflexivity.
  - inversion H. subst. split; reflexivity.
  - destruct (set_dict_shape fos fits d pv H) as [[x [y [z ->]]] | [[c ->] | [sv [Hs ->]]]].
    + split; reflexivity.
    + destruct c. split; reflexivity.
    + destruct (forallb_fst_of_forall _ _ _ (set_fields_sd fos fits d sv Hd Hs)) as [Hf Ht].
      rewrite encoder_tags_struct. split; [|exact Ht].
      destruct sv as [|kv sv]; [reflexivity|].
      cbn [same_decoding with_struct with_type pv0].
      rewrite Hf. reflexivity.
  - rewrite RoundTripFacts.set_list_eq in H.
    destruct (set_items fos fits xs) as [av|] eqn:Ei; cbn [bind] in H; [|discriminate].
    assert (Hpv : pv = with_array av (with_type 13 pv0)) by congruence. subst pv.
    destruct (forallb_fst_of_forall _ _ _ (set_items_sd fos fits xs av Hxs Ei)) as [Hf Ht].
    rewrite encoder_tags_array. split; [|exact Ht].
    destruct av as [|p av]; [reflexivity|].
    cbn [same_decoding with_array with_type pv0].
    rewrite Hf. reflexivity.
  - inversion H. subst. split; reflexivity.
Qed.

End AgentFacts.

(** X11: [_string_to_detachment_rule] never yields SNAP_TO_TARGET (an
    unknown name, ["snap_to_target"] included, falls back to KEEP_WORLD),
    and the attachment and detachment converters give the same rule
    exactly for ["keep_relative"] and ["keep_world"], in any letter case. *)
Theorem attachment_detachment_rules (rule : string) :
  Attach.string_to_detachment_rule rule <> Attach.ATTACHMENT_RULE_SNAP_TO_TARGET
  /\ (Attach.string_to_attachment_rule rule = Attach.string_to_detachment_rule rule
      <-> PyStr.lower rule = "keep_relative" \/ PyStr.lower rule = "keep_world").
Proof.
  unfold Attach.string_to_attachment_rule, Attach.string_to_detachment_rule. cbn [Router.aget].
  destruct (String.eqb (PyStr.lower rule) "keep_relative") eqn:E1.
  - apply String.eqb_eq in E1. split; [discriminate|]. split; [auto | reflexivity].
  - destruct (String.eqb (PyStr.lower rule) "keep_world") eqn:E2.
    + apply String.eqb_eq in E2. split; [discriminate|]. split; [auto | reflexivity].
    + apply String.eqb_neq in E1, E2. split; [discriminate|].
      split; [|intros [H|H]; contradiction].
      destruct (String.eqb (PyStr.lower rule) "snap_to_target"); discriminate.
Qed.

Lemma attachment_detachment_rules_witness :
  Attach.string_to_detachment_rule "SNAP_TO_TARGET" = Attach.ATTACHMENT_RULE_KEEP_WORLD
  /\ (Attach.string_to_attachment_rule "Keep_World" = Attach.string_to_detachment_rule "Keep_World"
      -> PyStr.lower "Keep_World" = "keep_relative" \/ PyStr.lower "Keep_World" = "keep_world").
Proof.
  split; [reflexivity|].
  exact (proj1 (proj2 (attachment_detachment_rules "Keep_World"))).
Defined.

(** X12: when the error entry is a string (or missing, read as [""]),
    [_enhance_property_error] never raises: the hints are the class-name
    hint of the first path segment if it is in the table, else the
    component hint if that segment ends with "Component" (the test on a
    trailing digit never applies, since such a segment ends with 't'),
    then the read-only hint if the message contains "Failed to set"; the
    dict is returned unchanged when there is no hint, and with "hints"
    set otherwise. *)
Theorem enhance_property_error_str (d : list (string * Py.pyval))
    (property_path actor_id msg : string)
    (Herr : Py.get d "error" (Py.VStr "") = Py.VStr msg) :
  let first_part := hd "" (PyStr.split "."%char property_path) in
  let h1 := match Router.aget first_part PropHints.class_name_hints with
            | Some instance => [PropHints.class_hint instance first_part]
            | None => if PyStr.endswith "Component" first_part
                      then [PropHints.component_hint actor_id] else []
            end in
  let hints := if PyStr.contains "Failed to set" msg
               then (h1 ++ [PropHints.read_only_hint])%list else h1 in
  PropHints.enhance_property_error d property_path actor_id
  = Py.Ok (match hints with
           | [] => d
           | _ => Py.dict_set "hints" (Py.VList (map Py.VStr hints)) d
           end).
Proof. cbv zeta. rewrite AgentFacts.enhance_eq, Herr. reflexivity. Qed.

Lemma enhance_property_error_str_witness :
  PropHints.enhance_property_error [("error", Py.VStr "oops")] "MyLight2Component.Intensity" "Lamp"
  = Py.Ok [("error", Py.VStr "oops");
           ("hints", Py.VList [Py.VStr (PropHints.component_hint "Lamp")])].
Proof.
  exact (enhance_property_error_str [("error", Py.VStr "oops")] "MyLight2Component.Intensity"
           "Lamp" "oops" eq_refl).
Defined.

(** X13: [_enhance_property_error] only ever adds or replaces the "hints"
    entry: on success every other key keeps its value, and the dict is
    either returned as it is or with a non-empty list of hints under
    "hints". It raises only a TypeError, when the error entry is neither a
    string, a list nor a dict (so that [in] is not defined on it). *)
Theorem enhance_property_error_outcome (d : list (string * Py.pyval))
    (property_path actor_id : string) :
  (forall d', PropHints.enhance_property_error d property_path actor_id = Py.Ok d' ->
     (forall k, k <> "hints" -> Py.lookup k d' = Py.lookup k d)
     /\ (d' = d \/ exists hs, hs <> []
                              /\ d' = Py.dict_set "hints" (Py.VList (map Py.VStr hs)) d))
  /\ (forall e, PropHints.enhance_property_error d property_path actor_id = Py.Raise e ->
     Py.exc_class e = "TypeError"
     /\ match Py.get d "error" (Py.VStr "") with
        | Py.VStr _ | Py.VList _ | Py.VDict _ => False
        | _ => True
        end).
Proof.
  rewrite AgentFacts.enhance_eq.
  destruct (Py.get d "error" (Py.VStr "")); cbn [Py.bind PropHints.py_in_str];
    (split; [intros d' H | intros e H]);
    try discriminate H;
    try (inversion H; subst; split; [reflexivity | exact I]);
    (inversion H; subst; cbv zeta; apply AgentFacts.hints_shape).
Qed.

Lemma enhance_property_error_outcome_witness :
  PropHints.enhance_property_error [("error", Py.VInt 3)] "Foo" "A"
  = Py.Raise (Py.TypeError "argument is not iterable")
  /\ Py.exc_class (Py.TypeError "argument is not iterable") = "TypeError".
Proof.
  split; [reflexivity|].
  exact (proj1 (proj2 (enhance_property_error_outcome [("error", Py.VInt 3)] "Foo" "A")
                  _ eq_refl)).
Defined.

(** X14: [_find_similar_actors] returns at most [limit] names, without
    repetition, and each of them is the label (or, for an empty label, the
    name) of an actor that one of the label or name queries returned for
    one of the search terms derived from the searched name. *)
Theorem similar_actors_sound
    (query_by_label query_by_name : string -> nat -> option (list Similar.actor_ref))
    (limit : nat) (search_term : string) :
  let r := Similar.find_similar_actors query_by_label query_by_name limit search_term in
  NoDup r /\ List.length r <= limit
  /\ forall x, In x r ->
       exists term n actors a, In term (Similar.search_terms search_term)
         /\ (query_by_label term n = Some actors \/ query_by_name term n = Some actors)
         /\ In a actors /\ Similar.display a = x.
Proof.
  cbv zeta. unfold Similar.find_similar_actors.
  destruct (AgentFacts.loop_inv query_by_label query_by_name limit (Similar.search_terms search_term)
              (Similar.search_terms search_term) [] (fun t H => H) (NoDup_nil _)
              (fun x (H : In x []) => match H with end)) as [H1 H2].
  split; [exact (AgentFacts.nodup_firstn _ _ H1)|].
  split; [apply firstn_le_length|].
  intros x Hx. exact (H2 x (AgentFacts.in_firstn _ _ _ Hx)).
Qed.

Lemma similar_actors_sound_witness :
  Similar.find_similar_actors
    (fun t _ => if String.eqb t "Light" then Some [Similar.mkActorRef "SkyLight" "SL_1";
                                                    Similar.mkActorRef "" "PointLight_2"]
                else None)
    (fun _ _ => Some [Similar.mkActorRef "SkyLight" "SL_1"]) 5 "MySkyLight"
  = ["SkyLight"; "PointLight_2"]
  /\ exists term (n : nat) actors a, In term (Similar.search_terms "MySkyLight")
       /\ ((if String.eqb term "Light" then Some [Similar.mkActorRef "SkyLight" "SL_1";
                                                  Similar.mkActorRef "" "PointLight_2"]
            else None) = Some actors
           \/ Some [Similar.mkActorRef "SkyLight" "SL_1"] = Some actors)
       /\ In a actors /\ Similar.display a = "PointLight_2".
Proof.
  split; [reflexivity|].
  apply (proj2 (proj2 (similar_actors_sound
    (fun t _ => if String.eqb t "Light" then Some [Similar.mkActorRef "SkyLight" "SL_1";
                                                    Similar.mkActorRef "" "PointLight_2"]
                else None)
    (fun _ _ => Some [Similar.mkActorRef "SkyLight" "SL_1"]) 5 "MySkyLight"))).
  vm_compute. right. left. reflexivity.
Defined.

(** X15: both path normalizers only append: [_normalize_asset_path]
    returns the path unchanged or, for a path starting with "/", appends
    "." and the segment after its last "/" when that segment has no ".";
    [_normalize_blueprint_class] returns the name unchanged or with "_C"
    appended, and it appends "_C" to every short "BP_" name without "/"
    that does not already end in "_C". *)
Theorem path_normalizers_append (x : string) :
  (PathNorm.normalize_asset_path x = x
   \/ exists pre seg, x = pre ++ "/" ++ seg /\ PyStr.startswith "/" x = true
        /\ PyStr.contains "/" seg = false /\ PyStr.contains "." seg = false
        /\ PathNorm.normalize_asset_path x = x ++ "." ++ seg)
  /\ (PathNorm.normalize_blueprint_class x = x \/ PathNorm.normalize_blueprint_class x = x ++ "_C")
  /\ (PyStr.endswith "_C" x = false -> PyStr.startswith "BP_" x = true ->
      PyStr.contains "/" x = false -> PathNorm.normalize_blueprint_class x = x ++ "_C").
Proof.
  split; [|split; [exact (PathNormFacts.nbc_cases x)|]].
  - destruct (PathNormFacts.nap_cases x) as [H | [i [Hr [Hs [Hc H]]]]]; [left; exact H|].
    right. exists (PyStr.take i x), (PyStr.drop (S i) x).
    split; [exact (AgentFacts.rfind_split _ _ _ Hr)|].
    split; [exact Hs|]. split; [|split; [exact Hc | exact H]].
    apply AgentFacts.rfind_none_contains, (StrFacts.rfind_after_none _ _ _ Hr).
  - intros He Hb Hsl. destruct x as [|a x]; [discriminate Hb|].
    unfold PathNorm.normalize_blueprint_class. rewrite He. cbv zeta.
    rewrite Hb, Hsl. simpl negb. destruct (_ || _); reflexivity.
Qed.

Lemma path_normalizers_append_witness :
  PathNorm.normalize_blueprint_class "BP_Door" = "BP_Door_C"
  /\ (PathNorm.normalize_asset_path "/Game/Maps/Level1" = "/Game/Maps/Level1"
      \/ exists pre seg, "/Game/Maps/Level1" = pre ++ "/" ++ seg
           /\ PyStr.startswith "/" "/Game/Maps/Level1" = true
           /\ PyStr.contains "/" seg = false /\ PyStr.contains "." seg = false
           /\ PathNorm.normalize_asset_path "/Game/Maps/Level1" = "/Game/Maps/Level1" ++ "." ++ seg).
Proof.
  split.
  - exact (proj2 (proj2 (path_normalizers_append "BP_Door")) eq_refl eq_refl eq_refl).
  - exact (proj1 (path_normalizers_append "/Game/Maps/Level1")).
Defined.

(** X16: a call written [target ++ "::" ++ function], where the target
    has no "::", does not end with ':' and does not start with "/", is
    parsed as Static with that target and function; the function is all
    the text after the first "::", later "::" included. *)
Theorem parse_static_call (t f : string)
    (Hdc : PyStr.contains "::" (t ++ ":") = false)
    (Hs : PyStr.startswith "/" t = false) :
  CallSyntax.parse_call_syntax (t ++ "::" ++ f) = CallSyntax.Static t f.
Proof.
  rewrite (CallSyntaxFacts.parse_body_dcolon _ _ (StrFacts.find_dcolon _ _ Hdc)). cbv zeta.
  rewrite StrFacts.take_app_length, StrFacts.drop_add_app, Hs. reflexivity.
Qed.

Lemma parse_static_call_witness :
  CallSyntax.parse_call_syntax ("KismetMathLibrary" ++ "::" ++ "Add::Ints")
  = CallSyntax.Static "KismetMathLibrary" "Add::Ints".
Proof. exact (parse_static_call "KismetMathLibrary" "Add::Ints" eq_refl eq_refl). Defined.

(** X17: [_normalize_property_value] never raises on a value that is
    neither a dict nor a list.  A string that starts with "#", has 7 or 9
    characters and whose two-character groups after the "#" are all read
    by [int(_, 16)] becomes the color with those channels over 255 (alpha
    1.0 for 7 characters); every other string, an unparsable hex literal
    included, is returned as itself. *)
Theorem normalize_scalar_total (float_of_string : string -> option Q) (v : Py.pyval)
    (property_hint : string)
    (Hd : forall d, v <> Py.VDict d) (Hl : forall xs, v <> Py.VList xs) :
  exists o, Normalize.normalize_property_value float_of_string v property_hint = Py.Ok o
    /\ forall s, v = Py.VStr s ->
         (forall r g b,
            PyStr.startswith "#" s = true -> String.length s = 7 ->
            Normalize.int16 (PyStr.take 2 (PyStr.drop 1 s)) = Some r ->
            Normalize.int16 (PyStr.take 2 (PyStr.drop 3 s)) = Some g ->
            Normalize.int16 (PyStr.take 2 (PyStr.drop 5 s)) = Some b ->
            o = Normalize.NColor (Normalize.chan r) (Normalize.chan g) (Normalize.chan b) 1)
         /\ (forall r g b a,
            PyStr.startswith "#" s = true -> String.length s = 9 ->
            Normalize.int16 (PyStr.take 2 (PyStr.drop 1 s)) = Some r ->
            Normalize.int16 (PyStr.take 2 (PyStr.drop 3 s)) = Some g ->
            Normalize.int16 (PyStr.take 2 (PyStr.drop 5 s)) = Some b ->
            Normalize.int16 (PyStr.take 2 (PyStr.drop 7 s)) = Some a ->
            o = Normalize.NColor (Normalize.chan r) (Normalize.chan g) (Normalize.chan b)
                                 (Normalize.chan a))
         /\ (PyStr.startswith "#" s = false
             \/ (String.length s <> 7 /\ String.length s <> 9)
             \/ Normalize.int16 (PyStr.take 2 (PyStr.drop 1 s)) = None
             \/ Normalize.int16 (PyStr.take 2 (PyStr.drop 3 s)) = None
             \/ Normalize.int16 (PyStr.take 2 (PyStr.drop 5 s)) = None
             \/ (String.length s = 9 /\ Normalize.int16 (PyStr.take 2 (PyStr.drop 7 s)) = None) ->
             o = Normalize.NText s).
Proof.
  destruct v as [| b | z | q | s | d | xs | s];
    try (exfalso; eapply Hd; reflexivity); try (exfalso; eapply Hl; reflexivity);
    try (eexists; split; [reflexivity | intros s' Hs'; discriminate Hs']).
  assert (E : Normalize.normalize_property_value float_of_string (Py.VStr s) property_hint
              = Py.Ok (if PyStr.startswith "#" s
                          && (Nat.eqb (String.length s) 7 || Nat.eqb (String.length s) 9)
                       then match Normalize.hex_color (PyStr.drop 1 s) with
                            | Some o => o
                            | None => Normalize.NText s
                            end
                       else Normalize.NText s)).
  { unfold Normalize.normalize_property_value. cbv zeta.
    destruct (PyStr.startswith "#" s && _); [destruct (Normalize.hex_color _)|]; reflexivity. }
  rewrite E. eexists. split; [reflexivity|]. intros s' Hs'. inversion Hs'. subst s'. clear Hs'.
  rewrite AgentFacts.hex_color_slices.
  split; [|split].
  - intros r g b Hh Hlen Hr Hg Hb. rewrite Hh, Hlen, Hr, Hg, Hb. reflexivity.
  - intros r g b a Hh Hlen Hr Hg Hb Ha. rewrite Hh, Hlen, Hr, Hg, Hb, Ha. reflexivity.
  - intros Hno.
    destruct (PyStr.startswith "#" s) eqn:Hh; [|reflexivity].
    destruct (Nat.eqb_spec (String.length s) 7) as [H7|H7];
      destruct (Nat.eqb_spec (String.length s) 9) as [H9|H9]; cbn [andb orb]; try reflexivity;
      try (exfalso; lia).
    + unfold Normalize.obind.
      destruct Hno as [Hno|[Hno|[Hno|[Hno|[Hno|Hno]]]]];
        [discriminate Hno | lia | rewrite Hno; reflexivity | | | lia].
      * destruct (Normalize.int16 (PyStr.take 2 (PyStr.drop 1 s))); [|reflexivity].
        rewrite Hno. reflexivity.
      * destruct (Normalize.int16 (PyStr.take 2 (PyStr.drop 1 s))); [|reflexivity].
        destruct (Normalize.int16 (PyStr.take 2 (PyStr.drop 3 s))); [|reflexivity].
        rewrite Hno. reflexivity.
    + unfold Normalize.obind.
      destruct Hno as [Hno|[Hno|[Hno|[Hno|[Hno|[_ Hno]]]]]];
        [discriminate Hno | lia | rewrite Hno; reflexivity | | |].
      * destruct (Normalize.int16 (PyStr.take 2 (PyStr.drop 1 s))); [|reflexivity].
        rewrite Hno. reflexivity.
      * destruct (Normalize.int16 (PyStr.take 2 (PyStr.drop 1 s))); [|reflexivity].
        destruct (Normalize.int16 (PyStr.take 2 (PyStr.drop 3 s))); [|reflexivity].
        rewrite Hno. reflexivity.
      * destruct (Normalize.int16 (PyStr.take 2 (PyStr.drop 1 s))); [|reflexivity].
        destruct (Normalize.int16 (PyStr.take 2 (PyStr.drop 3 s))); [|reflexivity].
        destruct (Normalize.int16 (PyStr.take 2 (PyStr.drop 5 s))); [|reflexivity].
        rewrite Hno. reflexivity.
Qed.

Lemma normalize_scalar_total_witness :
  Normalize.normalize_property_value (fun _ => None) (Py.VStr "#zz0000") "Color"
  = Py.Ok (Normalize.NText "#zz0000").
Proof.
  destruct (normalize_scalar_total (fun _ => None) (Py.VStr "#zz0000") "Color"
              ltac:(intros d Hd; discriminate Hd) ltac:(intros xs Hx; discriminate Hx))
    as [o [Ho Hs]].
  rewrite Ho. f_equal.
  apply (proj2 (proj2 (Hs "#zz0000" eq_refl))). right. right. left. reflexivity.
Defined.

(** X18: the property hint only matters for 3-element lists: on every
    other value [_normalize_property_value] gives the same result, or
    raises the same exception, whatever the hint. *)
Theorem normalize_hint_only_for_triples (float_of_string : string -> option Q) (v : Py.pyval)
    (h1 h2 : string) (H : forall xs, v = Py.VList xs -> List.length xs <> 3) :
  Normalize.normalize_property_value float_of_string v h1
  = Normalize.normalize_property_value float_of_string v h2.
Proof.
  destruct v as [| b | z | q | s | d | xs | s]; try reflexivity.
  assert (Hn : Nat.eqb (List.length xs) 3 = false) by (apply Nat.eqb_neq; exact (H xs eq_refl)).
  unfold Normalize.normalize_property_value. cbv beta iota zeta. rewrite Hn. reflexivity.
Qed.

Lemma normalize_hint_only_for_triples_witness :
  Normalize.normalize_property_value (fun _ => None)
    (Py.VList [Py.VInt 1; Py.VInt 0; Py.VInt 0; Py.VInt 1]) "Rotation"
  = Normalize.normalize_property_value (fun _ => None)
      (Py.VList [Py.VInt 1; Py.VInt 0; Py.VInt 0; Py.VInt 1]) "Color".
Proof.
  apply normalize_hint_only_for_triples. intros xs Hx. inversion Hx. discriminate.
Defined.

(** X19: every TypedValue [_set_property_value] produces has one of the
    tags None, Bool, Int, Float, String, Vector, Color, Struct or Array
    (0, 1, 2, 3, 4, 6, 9, 12, 13), and so has every TypedValue nested in
    it, at every depth; so [_property_value_to_dict] never raises on it and
    returns the same value as [_extract_property_value]. *)
Theorem encoder_output_decodes (float_of_string : string -> option Q)
    (int_value_fits : Z -> bool) (v : Py.pyval) (pv : Proto.PropertyValue)
    (H : Codec.set_property_value float_of_string int_value_fits v = Py.Ok pv) :
  Spec.encoder_tags pv = true
  /\ Spec.same_decoding pv = true
  /\ Codec.property_value_to_dict pv = Py.Ok (Codec.extract_property_value pv).
Proof.
  destruct (AgentFacts.set_property_value_ok float_of_string int_value_fits v pv H) as [H1 H2].
  split; [exact H2|]. split; [exact H1|]. exact (DecoderFacts.same_decoding_agree pv H1).
Qed.

Lemma encoder_output_decodes_witness :
  exists pv, Codec.set_property_value (fun _ => None) Proto.int64_fits
               (Py.VDict [("a", Py.VList [Py.VObj "obj"; Py.VNone; Py.VInt 7]); ("b", Py.VDict [])])
             = Py.Ok pv
    /\ Spec.encoder_tags pv = true
    /\ Codec.property_value_to_dict pv = Py.Ok (Codec.extract_property_value pv).
Proof.
  eexists. split; [reflexivity|].
  destruct (encoder_output_decodes (fun _ => None) Proto.int64_fits
    (Py.VDict [("a", Py.VList [Py.VObj "obj"; Py.VNone; Py.VInt 7]); ("b", Py.VDict [])]) _
    eq_refl) as [H1 [_ H3]].
  split; [exact H1 | exact H3].
Defined.
